(** * Feedback triager: a shallow embedding of [src/index.ts]

    The worker classifies feedback items with an inference service,
    stores them in a D1 table, indexes them in a vector store and drives a
    triage workflow over the stored rows.  This file embeds the processing
    core (classification normalizer, similarity adapter, ingestion loop,
    aggregation query and the triage handlers) and proves the properties
    the specification states about it.  It also embeds the read handlers
    (search, category page, dashboard statistics) and [escapeHtml], and
    proves what the code itself shows about them and about how the
    handlers compose.

    External collaborators are modelled as follows.
    - The JavaScript engine's builtins that the code calls ([JSON.parse],
      [String.prototype.trim], the fenced-block regular expression, the
      conversions of strings and objects to numbers and strings) are fields
      of [Runtime]: every theorem holds for any behaviour of theirs.
    - The bindings of [Env] (inference, vector store, record store,
      webhook) are oracles of [Env]; a call that rejects is a [None] or a
      fault flag.
    - The record store is a list of rows, and each SQL statement of the
      source is given its relational meaning on that list. *)

From Stdlib Require Import ZArith QArith Qminmax Qround List String Ascii Bool Lia.
From Stdlib Require Import Permutation Sorted DecimalString Lqa.
Import ListNotations.

Set Implicit Arguments.
Set Warnings "-register-all".
Close Scope Q_scope.
Open Scope string_scope.

(* ================================================================== *)
(** ** JavaScript values *)

Module Js.

(** A JavaScript number.  The finite doubles are represented by their exact
    rational value: the code below only compares and selects numbers, it
    never adds or multiplies them, so no rounding is involved.  The two
    zeros are identified (both are falsy and compare equal). *)
Inductive number : Type :=
| NaN
| PosInf
| NegInf
| Fin (q : Q).

(** [ToBoolean] on numbers: [0] and [NaN] are falsy. *)
Definition number_truthy (n : number) : bool :=
  match n with
  | NaN => false
  | Fin q => negb (Qeq_bool q 0)
  | PosInf | NegInf => true
  end.

(** [a <= b] on numbers; any comparison with [NaN] is false. *)
Definition number_leb (a b : number) : bool :=
  match a, b with
  | NaN, _ | _, NaN => false
  | NegInf, _ => true
  | _, PosInf => true
  | Fin x, Fin y => Qle_bool x y
  | PosInf, _ => false
  | Fin _, NegInf => false
  end.

(** [a >= b]. *)
Definition number_geb (a b : number) : bool := number_leb b a.

(** [Math.max(a, b)] and [Math.min(a, b)]. *)
Definition Math_max (a b : number) : number :=
  match a, b with
  | NaN, _ | _, NaN => NaN
  | _, _ => if number_leb a b then b else a
  end.

Definition Math_min (a b : number) : number :=
  match a, b with
  | NaN, _ | _, NaN => NaN
  | _, _ => if number_leb a b then a else b
  end.

(** [n || d] on numbers. *)
Definition number_or (n d : number) : number :=
  if number_truthy n then n else d.

(** A value as [JSON.parse] or a binding may produce it ([any] in the
    source).  An object lists each own property once. *)
Inductive JsValue : Type :=
| JUndefined
| JNull
| JBool (b : bool)
| JNum (n : number)
| JStr (s : string)
| JArr (items : list JsValue)
| JObj (props : list (string * JsValue)).

(** [ToBoolean]. *)
Definition truthy (v : JsValue) : bool :=
  match v with
  | JUndefined | JNull => false
  | JBool b => b
  | JNum n => number_truthy n
  | JStr s => negb (s =? "")
  | JArr _ | JObj _ => true
  end.

(** [a || b]. *)
Definition js_or (a b : JsValue) : JsValue := if truthy a then a else b.

Fixpoint lookup (name : string) (props : list (string * JsValue)) : JsValue :=
  match props with
  | [] => JUndefined
  | (k, v) :: rest => if k =? name then v else lookup name rest
  end.

(** [v.name] for the property names the source reads ([response],
    [category], [sentiment], [urgency], [suggestedTeam], [keywords]): none
    of them is defined on a prototype, so a primitive or an array yields
    [undefined]; reading a property of [null] or [undefined] throws
    ([None]). *)
Definition get (v : JsValue) (name : string) : option JsValue :=
  match v with
  | JUndefined | JNull => None
  | JObj props => Some (lookup name props)
  | _ => Some JUndefined
  end.

(** [Array.isArray(v) ? v : []]. *)
Definition array_or_empty (v : JsValue) : list JsValue :=
  match v with
  | JArr items => items
  | _ => []
  end.

(** [s.indexOf(c)] and [s.lastIndexOf(c)] for a one-character needle;
    [None] is the source's [-1]. *)
Fixpoint indexOf (c : ascii) (s : string) : option nat :=
  match s with
  | EmptyString => None
  | String a rest =>
      if Ascii.eqb a c then Some 0
      else match indexOf c rest with
           | Some i => Some (S i)
           | None => None
           end
  end.

Fixpoint lastIndexOf (c : ascii) (s : string) : option nat :=
  match s with
  | EmptyString => None
  | String a rest =>
      match lastIndexOf c rest with
      | Some i => Some (S i)
      | None => if Ascii.eqb a c then Some 0 else None
      end
  end.

(** [s.slice(start, stop)] for indices within the string; an empty string
    when [stop <= start]. *)
Definition slice (s : string) (start stop : nat) : string :=
  substring start (stop - start) s.

(** The engine's builtins the worker relies on. *)
Record Runtime : Type := {
  (** [JSON.parse(s)]; [None] when it throws a [SyntaxError]. *)
  JSON_parse : string -> option JsValue;
  (** [s.trim()]. *)
  String_trim : string -> string;
  (** The first capture group of the fenced-block regular expression of
      [analyzeFeedback] matched against [s]; [None] when there is no match. *)
  match_code_fence : string -> option string;
  (** [Number(s)] on a string. *)
  StringToNumber : string -> number;
  (** [String(n)] on a number. *)
  NumberToString : number -> string;
  (** [Number(o)] and [String(o)] on an array or object; [None] when the
      conversion to a primitive throws a [TypeError]. *)
  ObjectToNumber : JsValue -> option number;
  ObjectToString : JsValue -> option string
}.

(** [Number(v)]. *)
Definition Number_ (rt : Runtime) (v : JsValue) : option number :=
  match v with
  | JUndefined => Some NaN
  | JNull => Some (Fin 0)
  | JBool b => Some (Fin (if b then 1 else 0))
  | JNum n => Some n
  | JStr s => Some (StringToNumber rt s)
  | JArr _ | JObj _ => ObjectToNumber rt v
  end.

(** [String(v)]. *)
Definition String_ (rt : Runtime) (v : JsValue) : option string :=
  match v with
  | JUndefined => Some "undefined"
  | JNull => Some "null"
  | JBool b => Some (if b then "true" else "false")
  | JNum n => Some (NumberToString rt n)
  | JStr s => Some s
  | JArr _ | JObj _ => ObjectToString rt v
  end.

End Js.
Import Js.

(** Sequencing of steps that may throw ([None]); the enclosing
    [try]/[catch] is the final [match] on the option. *)
Notation "x <- c1 ;; c2" :=
  (match c1 with Some x => c2 | None => None end)
  (at level 100, c1 at next level, right associativity).

(* ================================================================== *)
(** ** Classification normalizer *)

Record FeedbackAnalysis : Type := {
  category : string;
  (** Declared as one of Positive, Negative, Neutral; the value is whatever
      the expression of the source evaluates to. *)
  sentiment : JsValue;
  urgency : number;
  (** Declared as a [TeamId]. *)
  suggestedTeam : JsValue;
  keywords : list JsValue
}.

(** The result of the [catch] branch. *)
Definition DEFAULT_ANALYSIS : FeedbackAnalysis :=
  {| category := "Other"; sentiment := JStr "Neutral"; urgency := Fin 5;
     suggestedTeam := JStr "product"; keywords := [] |}.

(** [typeof response === 'string' ? response : response.response || ''],
    followed by the receiver check of [raw.trim()]: a value that is not a
    string has no [trim] method. *)
Definition rawOf (response : JsValue) : option string :=
  match response with
  | JStr s => Some s
  | _ =>
      r <- get response "response" ;;
      match js_or r (JStr "") with
      | JStr s => Some s
      | _ => None
      end
  end.

(** Lines 92-100: strip a fenced block, then slice from the first opening
    brace to the last closing brace when both exist. *)
Definition extractJson (rt : Runtime) (raw : string) : string :=
  let jsonStr := String_trim rt raw in
  let jsonStr :=
    match match_code_fence rt jsonStr with
    | Some inner => inner
    | None => jsonStr
    end in
  match indexOf "{"%char jsonStr, lastIndexOf "}"%char jsonStr with
  | Some start, Some stop => slice jsonStr start (stop + 1)
  | _, _ => jsonStr
  end.

(** Lines 103-109: the object literal built from the parsed value. *)
Definition coerceAnalysis (rt : Runtime) (parsed : JsValue)
  : option FeedbackAnalysis :=
  c <- get parsed "category" ;;
  cat <- String_ rt (js_or c (JStr "Other")) ;;
  s <- get parsed "sentiment" ;;
  u <- get parsed "urgency" ;;
  n <- Number_ rt u ;;
  t <- get parsed "suggestedTeam" ;;
  k <- get parsed "keywords" ;;
  Some {| category := cat;
          sentiment := js_or s (JStr "Neutral");
          urgency := Math_min (Fin 10) (Math_max (Fin 1) (number_or n (Fin 5)));
          suggestedTeam := js_or t (JStr "product");
          keywords := array_or_empty k |}.

(** The body of the [try] block, given the inference service's answer
    ([None]: the call rejected). *)
Definition analyzeResponse (rt : Runtime) (answer : option JsValue)
  : option FeedbackAnalysis :=
  response <- answer ;;
  raw <- rawOf response ;;
  parsed <- JSON_parse rt (extractJson rt raw) ;;
  coerceAnalysis rt parsed.

(* ================================================================== *)
(** ** The record store and the bindings *)

Inductive Status : Type := StNew | StAcknowledged | StEscalated | StResolved.

Definition Status_eqb (a b : Status) : bool :=
  match a, b with
  | StNew, StNew | StAcknowledged, StAcknowledged
  | StEscalated, StEscalated | StResolved, StResolved => true
  | _, _ => false
  end.

(** A row of the [feedback] table.  The columns written from values of
    type [any] hold the value that was bound.  [created_at] is filled by
    the table's default and read by no statement modelled here. *)
Module D1.
Record Row : Type := {
  id : Z;
  raw_text : string;
  category : string;
  sentiment : JsValue;
  urgency_score : number;
  source : string;
  source_id : string;
  author : string;
  status : Status;
  assigned_team : JsValue;
  notes : JsValue
}.
End D1.

(** An entry of the vector index, as [indexFeedback] upserts it. *)
Record VectorEntry : Type := {
  ve_id : string;
  ve_values : list number;
  ve_category : string;
  ve_sentiment : JsValue;
  ve_urgency : number;
  ve_text : string
}.

(** A match as the vector store returns it, and as the adapter returns it. *)
Record VectorizeMatch : Type := {
  vm_id : string;
  vm_score : number;
  vm_values : option (list number);
  vm_metadata : option VectorEntry
}.

Module Vec.
Record VectorSearchResult : Type := {
  id : string;
  score : number;
  metadata : option VectorEntry
}.
End Vec.

(** The statements the worker prepares, with their bound values: the
    argument of the store's fault oracle. *)
Inductive Stmt : Type :=
| DeleteAll
| SelectIdByKey (src src_id : string)
| InsertFeedback (text cat : string) (sent : JsValue) (urg : number)
                 (src src_id auth : string) (team : JsValue)
| SelectById (rid : number)
| UpdateEscalate (team notes : JsValue) (rid : number)
| UpdateStatus (st : Status) (rid : string)
| UpdateNotes (note : JsValue) (rid : string)
| PrepareInherited (name : string) (rid : string)
| BulkAcknowledge (cat : string)
| BulkResolve (cat : string)
| SelectInsights.

(** The payload of an escalation notice. *)
Record SlackPayload : Type := {
  channel : string;
  header : string;
  team_name : string;
  notice_source : string;
  notice_author : string;
  ticket : number;
  feedback_text : string
}.

(** The bindings of a request. *)
Record Env : Type := {
  (** The chat model called on a feedback text; [None]: the call rejects. *)
  AI_classify : string -> option JsValue;
  (** The embedding model; [None]: the call rejects or returns no vector. *)
  AI_embed : string -> option (list number);
  (** Whether an upsert of this entry is accepted. *)
  VECTORIZE_upsert_ok : VectorEntry -> bool;
  (** The nearest-neighbour query over the current index; [None]: the call
      rejects; the inner option is the [matches] property. *)
  VECTORIZE_query :
    list VectorEntry -> list number -> nat -> option (option (list VectorizeMatch));
  (** Whether the store rejects (throws on) a statement. *)
  DB_fault : Stmt -> bool;
  (** The row id the store assigns to the next inserted row. *)
  DB_next_rowid : list D1.Row -> Z;
  (** The store's comparison of the integer column [id] with a bound text. *)
  DB_text_is_id : string -> Z -> bool;
  (** The store's [ROUND(AVG(urgency_score), 1)] over the rows of a group. *)
  DB_round_avg : list number -> Q;
  SLACK_WEBHOOK_URL : option string;
  (** [fetch] of the webhook: [None] when it rejects, else [res.ok]. *)
  webhook_post : string -> SlackPayload -> option bool
}.

(** The two stores a request can change. *)
Record World : Type := {
  feedback : list D1.Row;
  vectors : list VectorEntry
}.

(** A request-level computation: it returns or throws, and leaves a world
    behind either way. *)
Inductive Outcome (A : Type) : Type :=
| Returned (a : A) (w : World)
| Thrown (w : World).
Arguments Thrown {A} w.

Definition M (A : Type) : Type := World -> Outcome A.

Definition ret {A} (a : A) : M A := fun w => Returned a w.

Definition bind {A B} (m : M A) (k : A -> M B) : M B :=
  fun w => match m w with
           | Returned a w' => k a w'
           | Thrown w' => Thrown w'
           end.

Notation "'let*' x ':=' c1 'in' c2" := (bind c1 (fun x => c2))
  (at level 10, x name, c1 at level 100, c2 at level 200).

Definition world_after {A} (o : Outcome A) : World :=
  match o with
  | Returned _ w => w
  | Thrown w => w
  end.

(** A statement that reads: it throws when the store faults, else answers
    from the current rows. *)
Definition db_read {A} (env : Env) (s : Stmt) (answer : list D1.Row -> A) : M A :=
  fun w => if DB_fault env s then Thrown w else Returned (answer (feedback w)) w.

(** A statement that writes: it throws when the store faults (nothing is
    written), else replaces the rows and answers from the old ones. *)
Definition db_write {A} (env : Env) (s : Stmt)
    (change : list D1.Row -> list D1.Row) (answer : list D1.Row -> A) : M A :=
  fun w =>
    if DB_fault env s then Thrown w
    else Returned (answer (feedback w))
                  {| feedback := change (feedback w); vectors := vectors w |}.

(** [UPDATE feedback SET ... WHERE ...]. *)
Definition update_where (cond : D1.Row -> bool) (set : D1.Row -> D1.Row)
    (rows : list D1.Row) : list D1.Row :=
  map (fun r => if cond r then set r else r) rows.

Definition set_status (st : Status) (r : D1.Row) : D1.Row :=
  {| D1.id := D1.id r; D1.raw_text := D1.raw_text r;
     D1.category := D1.category r; D1.sentiment := D1.sentiment r;
     D1.urgency_score := D1.urgency_score r; D1.source := D1.source r;
     D1.source_id := D1.source_id r; D1.author := D1.author r;
     D1.status := st;
     D1.assigned_team := D1.assigned_team r; D1.notes := D1.notes r |}.

Definition set_notes (n : JsValue) (r : D1.Row) : D1.Row :=
  {| D1.id := D1.id r; D1.raw_text := D1.raw_text r;
     D1.category := D1.category r; D1.sentiment := D1.sentiment r;
     D1.urgency_score := D1.urgency_score r; D1.source := D1.source r;
     D1.source_id := D1.source_id r; D1.author := D1.author r;
     D1.status := D1.status r;
     D1.assigned_team := D1.assigned_team r; D1.notes := n |}.

(** [SET status = 'escalated', assigned_team = ?, urgency_score = 10,
    notes = ?]. *)
Definition set_escalated (team note : JsValue) (r : D1.Row) : D1.Row :=
  {| D1.id := D1.id r; D1.raw_text := D1.raw_text r;
     D1.category := D1.category r; D1.sentiment := D1.sentiment r;
     D1.urgency_score := Fin 10; D1.source := D1.source r;
     D1.source_id := D1.source_id r; D1.author := D1.author r;
     D1.status := StEscalated;
     D1.assigned_team := team; D1.notes := note |}.

(** [WHERE id = ?] with a bound number. *)
Definition id_is_number (rid : number) (r : D1.Row) : bool :=
  match rid with
  | Fin q => Qeq_bool q (inject_Z (D1.id r))
  | _ => false
  end.

(** [WHERE source = ? AND source_id = ?]. *)
Definition has_key (src src_id : string) (r : D1.Row) : bool :=
  (D1.source r =? src) && (D1.source_id r =? src_id).

(* ================================================================== *)
(** ** Mock data ([src/mock-data.ts]) *)

Module Item.
Record MockFeedbackItem : Type := {
  source : string;
  id : string;
  author : string;
  text : string
}.
End Item.

Definition MOCK_FEEDBACK : list Item.MockFeedbackItem :=
  let mk := Item.Build_MockFeedbackItem in
[
  mk "discord" "d001" "user123"
     "App keeps crashing when I try to upload photos. Happens every time now.";
  mk "discord" "d002" "gamer42"
     "Dark mode is great, finally I can use this at night";
  mk "discord" "d003" "newbie"
     "How do I export my project? Cant find the button anywhere";
  mk "discord" "d004" "poweruser"
     "The upload feature has been broken for 3 days now. Anyone else?";
  mk "discord" "d005" "artist"
     "Upload keeps failing with large files. 50MB limit is too low";
  mk "discord" "d006" "dev_mike"
     "API rate limits are way too aggressive. Getting 429s constantly";
  mk "discord" "d007" "casual_user"
     "Love the new dashboard redesign!";
  mk "github" "g001" "dev-jane"
     "TypeError in ImageUpload component when handling PNG files larger than 10MB. Stack trace attached.";
  mk "github" "g002" "security-bob"
     "XSS vulnerability in profile page via unsanitized user bio field. Needs immediate patching.";
  mk "github" "g003" "a11y-expert"
     "Missing ARIA labels on main navigation. Screen readers cannot parse the menu structure.";
  mk "github" "g004" "mobile-dev"
     "iOS app crashes on launch for users on iOS 15.x. Crash logs show memory allocation failure.";
  mk "github" "g005" "contributor"
     "Feature request: Add webhook support for real-time notifications";
  mk "github" "g006" "enterprise-user"
     "SSO integration broken after latest update. All our users locked out.";
  mk "twitter" "t001" "@techfan"
     "This app is painfully slow. Takes 10 seconds to load a simple page.";
  mk "twitter" "t002" "@happyuser"
     "Best update yet! The new features are exactly what I needed";
  mk "twitter" "t003" "@frustrated"
     "Lost all my work when the app crashed. No autosave? Its 2024!";
  mk "twitter" "t004" "@devlife"
     "Memory usage is insane. 2GB RAM for a simple text editor?";
  mk "twitter" "t005" "@designer"
     "The UI feels dated. Competitors have moved way ahead.";
  mk "twitter" "t006" "@startup_ceo"
     "Our whole team relies on this tool. Please fix the sync issues!";
  mk "support" "s001" "enterprise_corp"
     "50 users unable to access platform. Dashboard shows subscription active but getting access denied. This is blocking our entire team.";
  mk "support" "s002" "small_business"
     "Export functionality not working. Need to download our data for compliance audit due Friday.";
  mk "support" "s003" "new_customer"
     "Pricing page is confusing. What exactly is included in the Pro plan? Limits are unclear.";
  mk "support" "s004" "agency_client"
     "Billing charged twice this month. Need immediate refund and explanation.";
  mk "support" "s005" "edu_institution"
     "Cannot add more than 100 users to our organization. Is this a bug or a limit?";
  mk "forum" "f001" "veteran_user"
     "Been using this for 2 years. The one feature thats always missing is proper mobile sync. Desktop changes dont appear on mobile for hours.";
  mk "forum" "f002" "newcomer"
     "Onboarding is overwhelming. First screen has 15 options. Needs a guided tour for new users.";
  mk "forum" "f003" "developer"
     "Would love to see a plugin API. Could build custom integrations for our workflow.";
  mk "forum" "f004" "power_user"
     "Keyboard shortcuts are inconsistent. Ctrl+S saves in editor but not in settings.";
  mk "forum" "f005" "team_lead"
     "Need better permission controls. Currently its all-or-nothing for team members."
].

Module Team.
Record Team : Type := {
  id : string;
  name : string;
  slackChannel : string
}.
End Team.

Definition TEAMS : list Team.Team :=
  [ Team.Build_Team "engineering" "Engineering" "#eng-escalations";
    Team.Build_Team "security" "Security" "#security-alerts";
    Team.Build_Team "support" "Customer Support" "#support-escalations";
    Team.Build_Team "product" "Product" "#product-feedback";
    Team.Build_Team "billing" "Billing" "#billing-issues" ].

(* ================================================================== *)
(** ** The worker *)

(** A row of the aggregation query, and the insight built from it. *)
Module Sql.
Record InsightRow : Type := {
  category : string;
  total : nat;
  new_count : nat;
  avg_urgency : Q;
  positive : nat;
  negative : nat;
  neutral : nat;
  sources : option string
}.
End Sql.

Module Insight.
Record SentimentBreakdown : Type := {
  positive : nat;
  negative : nat;
  neutral : nat
}.
Record AggregatedInsight : Type := {
  category : string;
  total : nat;
  newCount : nat;
  avgUrgency : Q;
  sentimentBreakdown : SentimentBreakdown;
  topSources : list string
}.
End Insight.

Section Worker.

Variable rt : Runtime.
Variable env : Env.

(** [analyzeFeedback]: the [try] body, or the default of the [catch]. *)
Definition analyzeFeedback (text : string) : FeedbackAnalysis :=
  match analyzeResponse rt (AI_classify env text) with
  | Some analysis => analysis
  | None => DEFAULT_ANALYSIS
  end.

Definition MIN_SIMILARITY_THRESHOLD : number := Fin (1 # 2).

Definition generateEmbedding (text : string) : option (list number) :=
  AI_embed env text.

(** [VECTORIZE.upsert] of one entry: it replaces the entry of the same id. *)
Definition upsert (e : VectorEntry) (index : list VectorEntry) : list VectorEntry :=
  e :: filter (fun x => negb (ve_id x =? ve_id e)) index.

(** [indexFeedback]: a failure of the embedding or of the upsert is caught
    and leaves the index as it was. *)
Definition indexFeedback (rid : Z) (text cat : string) (sent : JsValue)
    (urg : number) : M unit :=
  fun w =>
    match generateEmbedding text with
    | None => Returned tt w
    | Some embedding =>
        let entry :=
          {| ve_id := NumberToString rt (Fin (inject_Z rid));
             ve_values := embedding;
             ve_category := cat;
             ve_sentiment := sent;
             ve_urgency := urg;
             ve_text := substring 0 300 text |} in
        if VECTORIZE_upsert_ok env entry
        then Returned tt {| feedback := feedback w;
                            vectors := upsert entry (vectors w) |}
        else Returned tt w
    end.

(** [results.matches || []]. *)
Definition matches_or_empty (m : option (list VectorizeMatch)) : list VectorizeMatch :=
  match m with
  | Some l => l
  | None => []
  end.

Definition to_result (m : VectorizeMatch) : Vec.VectorSearchResult :=
  {| Vec.id := vm_id m; Vec.score := vm_score m; Vec.metadata := vm_metadata m |}.

(** [searchSimilarFeedback]: it reads the index and changes nothing; a
    failure of the embedding or of the query is caught and gives []. *)
Definition searchSimilarFeedback (w : World) (query : string) (topK : nat)
  : list Vec.VectorSearchResult :=
  match generateEmbedding query with
  | None => []
  | Some queryEmbedding =>
      match VECTORIZE_query env (vectors w) queryEmbedding topK with
      | None => []
      | Some results =>
          map to_result
            (filter (fun m => number_geb (vm_score m) MIN_SIMILARITY_THRESHOLD)
                    (matches_or_empty results))
      end
  end.

(** [sendSlackNotification]. *)
Definition sendSlackNotification (teamId : string) (feedbackId : number)
    (feedbackText cat src auth : string) : bool :=
  match SLACK_WEBHOOK_URL env with
  | None => false
  | Some url =>
      if url =? "" then false
      else
        match find (fun t => Team.id t =? teamId) TEAMS with
        | None => false
        | Some team =>
            let payload :=
              {| channel := Team.slackChannel team;
                 header := "Escalation: " ++ cat;
                 team_name := Team.name team;
                 notice_source := src;
                 notice_author := auth;
                 ticket := feedbackId;
                 feedback_text := substring 0 500 feedbackText |} in
            match webhook_post env url payload with
            | Some ok => ok
            | None => false
            end
        end
  end.

(** *** Responses *)

Inductive Body : Type :=
| BSuccess
| BSuccessMessage (message : string)
| BProcessed (processed : nat)
| BError (error : string).

Record Response : Type := {
  body : Body;
  http_status : nat
}.

Definition json (data : Body) (code : nat) : Response :=
  {| body := data; http_status := code |}.

(** *** POST /clear *)

Definition clear : M Response :=
  let* _ := db_write env DeleteAll (fun _ => []) (fun _ => tt) in
  ret (json (BSuccessMessage "All data cleared") 200).

(** *** POST /ingest *)

(** The row an [INSERT] adds: [status] is the literal ['new'], [notes] the
    column's default. *)
Definition new_row (rid : Z) (item : Item.MockFeedbackItem)
    (analysis : FeedbackAnalysis) : D1.Row :=
  {| D1.id := rid;
     D1.raw_text := Item.text item;
     D1.category := category analysis;
     D1.sentiment := sentiment analysis;
     D1.urgency_score := urgency analysis;
     D1.source := Item.source item;
     D1.source_id := Item.id item;
     D1.author := Item.author item;
     D1.status := StNew;
     D1.assigned_team := suggestedTeam analysis;
     D1.notes := JNull |}.

Definition insert_stmt (item : Item.MockFeedbackItem)
    (analysis : FeedbackAnalysis) : Stmt :=
  InsertFeedback (Item.text item) (category analysis) (sentiment analysis)
    (urgency analysis) (Item.source item) (Item.id item) (Item.author item)
    (suggestedTeam analysis).

(** The body of the [for] loop over the items, with the counter
    [processed] threaded through. *)
Fixpoint ingest_loop (items : list Item.MockFeedbackItem) (processed : nat)
  : M nat :=
  match items with
  | [] => ret processed
  | item :: rest =>
      let* existing :=
        db_read env (SelectIdByKey (Item.source item) (Item.id item))
                (find (has_key (Item.source item) (Item.id item))) in
      match existing with
      | Some _ => ingest_loop rest processed
      | None =>
          let analysis := analyzeFeedback (Item.text item) in
          let* last_row_id :=
            db_write env (insert_stmt item analysis)
              (fun rows => (rows ++ [new_row (DB_next_rowid env rows) item analysis])%list)
              (DB_next_rowid env) in
          let* _ :=
            if Z.eqb last_row_id 0 then ret tt
            else indexFeedback last_row_id (Item.text item)
                   (category analysis) (sentiment analysis) (urgency analysis) in
          ingest_loop rest (S processed)
      end
  end.

(** The handler on a batch of items; the deployed handler runs it on
    [MOCK_FEEDBACK]. *)
Definition ingest_items (items : list Item.MockFeedbackItem) : M Response :=
  let* processed := ingest_loop items 0 in
  ret (json (BProcessed processed) 200).

Definition ingest : M Response := ingest_items MOCK_FEEDBACK.

(** *** POST /escalate/:id *)

Record EscalateBody : Type := {
  team : string;
  escalate_notes : option string
}.

(** [body.notes || null]. *)
Definition notes_or_null (n : option string) : JsValue :=
  match n with
  | Some s => js_or (JStr s) JNull
  | None => JNull
  end.

Definition escalate (rid : number) (b : EscalateBody) : M Response :=
  let* found := db_read env (SelectById rid) (find (id_is_number rid)) in
  match found with
  | None => ret (json (BError "Feedback not found") 404)
  | Some fb =>
      let* _ :=
        db_write env
          (UpdateEscalate (JStr (team b)) (notes_or_null (escalate_notes b)) rid)
          (update_where (id_is_number rid)
             (set_escalated (JStr (team b)) (notes_or_null (escalate_notes b))))
          (fun _ => tt) in
      let _delivered :=
        sendSlackNotification (team b) rid (D1.raw_text fb)
          (D1.category fb) (D1.source fb) (D1.author fb) in
      ret (json BSuccess 200)
  end.

(** *** POST /action/:id *)

(** [updates[action]]: an own property, a property inherited from
    [Object.prototype], or nothing. *)
Inductive UpdateLookup : Type :=
| OwnUpdate (st : Status)
| InheritedProperty
| NoUpdate.

Definition inherited_names : list string :=
  [ "constructor"; "toString"; "toLocaleString"; "valueOf";
    "hasOwnProperty"; "isPrototypeOf"; "propertyIsEnumerable"; "__proto__";
    "__defineGetter__"; "__defineSetter__"; "__lookupGetter__";
    "__lookupSetter__" ].

Definition updates (action : string) : UpdateLookup :=
  if action =? "acknowledge" then OwnUpdate StAcknowledged
  else if action =? "resolve" then OwnUpdate StResolved
  else if action =? "reopen" then OwnUpdate StNew
  else if existsb (String.eqb action) inherited_names then InheritedProperty
  else NoUpdate.

Definition id_is_text (rid : string) (r : D1.Row) : bool :=
  DB_text_is_id env rid (D1.id r).

(** The handler: [rid] is the path segment, bound as text. *)
Definition action_handler (rid : string) (action : string) (note : JsValue)
  : M Response :=
  let* _ :=
    match updates action with
    | OwnUpdate st =>
        db_write env (UpdateStatus st rid)
          (update_where (id_is_text rid) (set_status st)) (fun _ => tt)
    | InheritedProperty =>
        db_write env (PrepareInherited action rid) (fun rows => rows) (fun _ => tt)
    | NoUpdate =>
        if action =? "add_note"
        then db_write env (UpdateNotes note rid)
               (update_where (id_is_text rid) (set_notes note)) (fun _ => tt)
        else ret tt
    end in
  ret (json BSuccess 200).

(** *** POST /bulk *)

Definition bulk (action cat : string) : M Response :=
  let* _ :=
    if action =? "acknowledge"
    then db_write env (BulkAcknowledge cat)
           (update_where
              (fun r => (D1.category r =? cat) && Status_eqb (D1.status r) StNew)
              (set_status StAcknowledged))
           (fun _ => tt)
    else if action =? "resolve"
    then db_write env (BulkResolve cat)
           (update_where (fun r => D1.category r =? cat) (set_status StResolved))
           (fun _ => tt)
    else ret tt in
  ret (json BSuccess 200).

(** *** GET /api/insights *)

(** [COUNT(CASE WHEN cond THEN 1 END)]. *)
Definition count_when (cond : D1.Row -> bool) (rows : list D1.Row) : nat :=
  List.length (filter cond rows).

(** [column = 'literal'] on a column that holds a bound value. *)
Definition is_text (v : JsValue) (literal : string) : bool :=
  match v with
  | JStr s => s =? literal
  | _ => false
  end.

Fixpoint join_comma (l : list string) : string :=
  match l with
  | [] => ""
  | [x] => x
  | x :: rest => x ++ "," ++ join_comma rest
  end.

(** [DISTINCT]: the values in the order the rows are read, each kept at
    its first occurrence. *)
Fixpoint distinct_from (seen l : list string) : list string :=
  match l with
  | [] => []
  | x :: rest =>
      if in_dec string_dec x seen then distinct_from seen rest
      else x :: distinct_from (x :: seen) rest
  end.

Definition distinct (l : list string) : list string := distinct_from [] l.

(** [GROUP_CONCAT(DISTINCT source)]: [NULL] on an empty group. *)
Definition group_concat_distinct (l : list string) : option string :=
  match distinct l with
  | [] => None
  | d => Some (join_comma d)
  end.

(** [s.split(',')]. *)
Fixpoint split_comma (s : string) : list string :=
  match s with
  | EmptyString => [""]
  | String c rest =>
      let r := split_comma rest in
      if Ascii.eqb c ","%char then "" :: r
      else match r with
           | h :: t => String c h :: t
           | [] => [String c ""]
           end
  end.

(** The result row of one group of [GROUP BY category]. *)
Definition group_row (rows : list D1.Row) (cat : string) : Sql.InsightRow :=
  let g := filter (fun r => D1.category r =? cat) rows in
  {| Sql.category := cat;
     Sql.total := List.length g;
     Sql.new_count := count_when (fun r => Status_eqb (D1.status r) StNew) g;
     Sql.avg_urgency := DB_round_avg env (map D1.urgency_score g);
     Sql.positive := count_when (fun r => is_text (D1.sentiment r) "Positive") g;
     Sql.negative := count_when (fun r => is_text (D1.sentiment r) "Negative") g;
     Sql.neutral := count_when (fun r => is_text (D1.sentiment r) "Neutral") g;
     Sql.sources := group_concat_distinct (map D1.source g) |}.

(** [ORDER BY new_count DESC, avg_urgency DESC]: [a] may come before [b]. *)
Definition order_before (a b : Sql.InsightRow) : bool :=
  (Sql.new_count b <? Sql.new_count a)%nat
  || ((Sql.new_count a =? Sql.new_count b)%nat
      && Qle_bool (Sql.avg_urgency b) (Sql.avg_urgency a)).

Fixpoint insert_ordered (x : Sql.InsightRow) (l : list Sql.InsightRow)
  : list Sql.InsightRow :=
  match l with
  | [] => [x]
  | y :: rest =>
      if order_before x y then x :: y :: rest
      else y :: insert_ordered x rest
  end.

(** The sorter.  SQL leaves the order of rows with equal keys to the
    engine; the model keeps them in group order. *)
Definition order_by (l : list Sql.InsightRow) : list Sql.InsightRow :=
  fold_right insert_ordered [] l.

(** The whole [SELECT ... GROUP BY category ORDER BY ...]. *)
Definition select_insights (rows : list D1.Row) : list Sql.InsightRow :=
  order_by (map (group_row rows) (nodup string_dec (map D1.category rows))).

(** [r.avg_urgency || 0]. *)
Definition q_or_zero (q : Q) : Q := if Qeq_bool q 0 then 0%Q else q.

(** [r.sources ? r.sources.split(',') : []]. *)
Definition split_sources (s : option string) : list string :=
  match s with
  | Some str => if str =? "" then [] else split_comma str
  | None => []
  end.

Definition to_insight (r : Sql.InsightRow) : Insight.AggregatedInsight :=
  {| Insight.category := Sql.category r;
     Insight.total := Sql.total r;
     Insight.newCount := Sql.new_count r;
     Insight.avgUrgency := q_or_zero (Sql.avg_urgency r);
     Insight.sentimentBreakdown :=
       {| Insight.positive := Sql.positive r;
          Insight.negative := Sql.negative r;
          Insight.neutral := Sql.neutral r |};
     Insight.topSources := split_sources (Sql.sources r) |}.

Definition getAggregatedInsights : M (list Insight.AggregatedInsight) :=
  let* results := db_read env SelectInsights select_insights in
  ret (map to_insight results).

End Worker.

(* ================================================================== *)
(** ** Read handlers and page helpers *)

(** [escapeHtml]: four global replacements, in the order of the source. *)
Fixpoint replaceAll (c : ascii) (rep : string) (s : string) : string :=
  match s with
  | EmptyString => EmptyString
  | String a rest =>
      if Ascii.eqb a c then rep ++ replaceAll c rep rest
      else String a (replaceAll c rep rest)
  end.

Definition double_quote : ascii := "034"%char.

Definition escapeHtml (str : string) : string :=
  replaceAll double_quote "&quot;"
    (replaceAll ">"%char "&gt;"
       (replaceAll "<"%char "&lt;"
          (replaceAll "&"%char "&amp;" str))).

(** The statements of the read handlers, for their fault oracle. *)
Inductive Query : Type :=
| SelectByIds (ids : list string)
| SelectByCategory (cat : string) (status_filter : option string)
| SelectStats.

(** What the read handlers need beyond [Env]. *)
Record Reads : Type := {
  (** Whether the store rejects a read. *)
  read_fault : Query -> bool;
  (** The column [created_at] of a row (left out of [D1.Row]). *)
  created_at : D1.Row -> Z;
  (** [Math.round(score * 100)] on a finite score, in the engine's
      arithmetic. *)
  round_percent : Q -> Z
}.

(** The text of a status, as the statements spell it. *)
Definition status_text (st : Status) : string :=
  match st with
  | StNew => "new"
  | StAcknowledged => "acknowledged"
  | StEscalated => "escalated"
  | StResolved => "resolved"
  end.

(** A search result: the row with its [similarity]. *)
Record SearchHit : Type := {
  hit_row : D1.Row;
  similarity : number
}.

Inductive SearchBody : Type :=
| SearchError (error : string)
| SearchEmpty (message : string) (threshold : number)
| SearchResults (results : list SearchHit).

Record SearchResponse : Type := {
  search_body : SearchBody;
  search_status : nat
}.

(** The row of the dashboard's statistics query. *)
Record Stats : Type := {
  stats_total : nat;
  stats_new_count : nat;
  stats_escalated : nat;
  stats_resolved : nat;
  stats_avg_urgency : option Q
}.

(** [b - a > 0]; a difference that is [NaN] is not positive.  The sign of
    a difference of two doubles is that of the exact difference. *)
Definition difference_positive (b a : number) : bool :=
  match b, a with
  | NaN, _ | _, NaN => false
  | PosInf, PosInf => false
  | PosInf, _ => true
  | _, PosInf => false
  | NegInf, _ => false
  | Fin _, NegInf => true
  | Fin x, Fin y => negb (Qle_bool x y)
  end.

(** The place of a stored number in [ORDER BY]: [NULL] (a [NaN] cannot be
    stored) first, then the numbers in order. *)
Definition sql_number_leb (a b : number) : bool :=
  match a, b with
  | NaN, _ => true
  | _, NaN => false
  | _, _ => number_leb a b
  end.

Section Pages.

Variable rt : Runtime.
Variable env : Env.
Variable reads : Reads.

Definition db_query {A} (q : Query) (answer : list D1.Row -> A) : M A :=
  fun w => if read_fault reads q then Thrown w else Returned (answer (feedback w)) w.

(** *** GET /search *)

(** [Math.round(score * 100)]. *)
Definition similarity_of (score : number) : number :=
  match score with
  | Fin q => Fin (inject_Z (round_percent reads q))
  | other => other
  end.

(** The element built for a fetched row: its match is looked up by the
    text of its id. *)
Definition hit_of (vectorResults : list Vec.VectorSearchResult) (item : D1.Row)
  : SearchHit :=
  {| hit_row := item;
     similarity :=
       match find (fun v => Vec.id v =? NumberToString rt (Fin (inject_Z (D1.id item))))
                  vectorResults with
       | Some vectorMatch => similarity_of (Vec.score vectorMatch)
       | None => Fin 0
       end |}.

(** [sort((a, b) => b.similarity - a.similarity)]: the sort is stable, so
    an element moves behind the ones it follows only when the comparator
    is positive. *)
Fixpoint insert_hit (x : SearchHit) (l : list SearchHit) : list SearchHit :=
  match l with
  | [] => [x]
  | y :: rest =>
      if difference_positive (similarity y) (similarity x)
      then y :: insert_hit x rest
      else x :: y :: rest
  end.

Definition sort_hits (l : list SearchHit) : list SearchHit :=
  fold_right insert_hit [] l.

(** [MIN_SIMILARITY_THRESHOLD * 100]; the product is exact. *)
Definition threshold_percent : number :=
  match MIN_SIMILARITY_THRESHOLD with
  | Fin q => Fin (q * 100)
  | other => other
  end.

Definition search_json (data : SearchBody) (code : nat) : SearchResponse :=
  {| search_body := data; search_status := code |}.

(** [WHERE id IN (?, ...)] with the ids bound as text. *)
Definition id_in (ids : list string) (r : D1.Row) : bool :=
  existsb (fun v => DB_text_is_id env v (D1.id r)) ids.

(** The error text, with its quoted parameter name. *)
Definition query_required : string :=
  "Query parameter " ++ String double_quote ("q" ++ String double_quote " required").

(** The handler; [query] is [url.searchParams.get('q')]. *)
Definition search_handler (query : option string) : M SearchResponse :=
  match query with
  | None => ret (search_json (SearchError query_required) 400)
  | Some q =>
      if q =? "" then ret (search_json (SearchError query_required) 400)
      else
        fun w =>
          let vectorResults := searchSimilarFeedback env w q 20 in
          match vectorResults with
          | [] =>
              Returned
                (search_json
                   (SearchEmpty
                      "No matching feedback found. Try different keywords or a more specific query."
                      threshold_percent) 200) w
          | _ =>
              let ids := map Vec.id vectorResults in
              (let* items := db_query (SelectByIds ids) (filter (id_in ids)) in
               ret (search_json
                      (SearchResults (sort_hits (map (hit_of vectorResults) items)))
                      200)) w
          end
  end.

(** *** GET /api/category/:name *)

(** [status && status !== 'all']: whether the status filter applies. *)
Definition status_filter_applies (status : option string) : bool :=
  match status with
  | Some s => negb (s =? "") && negb (s =? "all")
  | None => false
  end.

Definition category_where (cat : string) (status : option string) (r : D1.Row) : bool :=
  (D1.category r =? cat)
  && (if status_filter_applies status
      then match status with
           | Some s => status_text (D1.status r) =? s
           | None => true
           end
      else true).

(** [ORDER BY urgency_score DESC, created_at DESC]: [a] may come before [b]. *)
Definition item_before (a b : D1.Row) : bool :=
  if sql_number_leb (D1.urgency_score a) (D1.urgency_score b)
  then sql_number_leb (D1.urgency_score b) (D1.urgency_score a)
       && (created_at reads b <=? created_at reads a)%Z
  else true.

Fixpoint insert_item (x : D1.Row) (l : list D1.Row) : list D1.Row :=
  match l with
  | [] => [x]
  | y :: rest =>
      if item_before x y then x :: y :: rest
      else y :: insert_item x rest
  end.

Definition order_items (l : list D1.Row) : list D1.Row :=
  fold_right insert_item [] l.

(** The handler, on the decoded category and the [status] parameter. *)
Definition category_items (cat : string) (status : option string)
  : M (list D1.Row) :=
  db_query (SelectByCategory cat (if status_filter_applies status then status else None))
           (fun rows => order_items (filter (category_where cat status) rows)).

(** *** GET /: the statistics query *)

Definition select_stats (rows : list D1.Row) : Stats :=
  {| stats_total := List.length rows;
     stats_new_count := count_when (fun r => Status_eqb (D1.status r) StNew) rows;
     stats_escalated := count_when (fun r => Status_eqb (D1.status r) StEscalated) rows;
     stats_resolved := count_when (fun r => Status_eqb (D1.status r) StResolved) rows;
     stats_avg_urgency :=
       match rows with
       | [] => None
       | _ => Some (DB_round_avg env (map D1.urgency_score rows))
       end |}.

Definition dashboard_stats : M Stats := db_query SelectStats select_stats.

End Pages.

(* ================================================================== *)
(** ** Concrete instances

    Small instances of the runtime, the bindings and the stores, used to
    run the handlers on concrete inputs. *)

Module Instances.

(** An engine whose parser rejects every input. *)
Definition strict_runtime : Runtime :=
  {| JSON_parse := fun _ => None;
     String_trim := fun s => s;
     match_code_fence := fun _ => None;
     StringToNumber := fun _ => NaN;
     NumberToString := fun _ => "";
     ObjectToNumber := fun _ => Some NaN;
     ObjectToString := fun _ => Some "[object Object]" |}.

(** Decimal text of a row id, for the store's text comparison. *)
Definition decimal (z : Z) : string :=
  DecimalString.NilZero.string_of_int (Z.to_int z).

(** Bindings with the inference service and the vector store unreachable,
    no webhook, and a store that accepts every statement and numbers its
    rows from 1. *)
Definition offline_env : Env :=
  {| AI_classify := fun _ => None;
     AI_embed := fun _ => None;
     VECTORIZE_upsert_ok := fun _ => false;
     VECTORIZE_query := fun _ _ _ => None;
     DB_fault := fun _ => false;
     DB_next_rowid := fun rows => (1 + Z.of_nat (List.length rows))%Z;
     DB_text_is_id := fun s z => s =? decimal z;
     DB_round_avg := fun _ => 0%Q;
     SLACK_WEBHOOK_URL := None;
     webhook_post := fun _ _ => None |}.

(** The same bindings with a store that rejects the insert of the item
    whose source id is [d002]. *)
Definition rejecting_env : Env :=
  {| AI_classify := AI_classify offline_env;
     AI_embed := AI_embed offline_env;
     VECTORIZE_upsert_ok := VECTORIZE_upsert_ok offline_env;
     VECTORIZE_query := VECTORIZE_query offline_env;
     DB_fault := fun s =>
       match s with
       | InsertFeedback _ _ _ _ _ src_id _ _ => src_id =? "d002"
       | _ => false
       end;
     DB_next_rowid := DB_next_rowid offline_env;
     DB_text_is_id := DB_text_is_id offline_env;
     DB_round_avg := DB_round_avg offline_env;
     SLACK_WEBHOOK_URL := None;
     webhook_post := fun _ _ => None |}.

Definition empty_world : World := {| feedback := []; vectors := [] |}.

(** The world after one ingestion of [MOCK_FEEDBACK] into empty stores,
    with the inference service and the vector store unreachable. *)
Definition ingested_world : World :=
  world_after (ingest strict_runtime offline_env empty_world).

(** A store that computes the rounded average exactly on the rationals:
    the mean, rounded half up to one decimal. *)
Definition finite_value (n : number) : Q :=
  match n with
  | Fin q => q
  | _ => 0%Q
  end.

Definition exact_round_avg (l : list number) : Q :=
  let sum := fold_right Qplus 0%Q (map finite_value l) in
  let mean := (sum / inject_Z (Z.of_nat (List.length l)))%Q in
  Qred (inject_Z (Qfloor (mean * 10 + (1 # 2))) / 10)%Q.

Definition exact_env : Env :=
  {| AI_classify := AI_classify offline_env;
     AI_embed := AI_embed offline_env;
     VECTORIZE_upsert_ok := VECTORIZE_upsert_ok offline_env;
     VECTORIZE_query := VECTORIZE_query offline_env;
     DB_fault := DB_fault offline_env;
     DB_next_rowid := DB_next_rowid offline_env;
     DB_text_is_id := DB_text_is_id offline_env;
     DB_round_avg := exact_round_avg;
     SLACK_WEBHOOK_URL := None;
     webhook_post := fun _ _ => None |}.

Definition sample_row (rid : Z) (cat : string) (urg : Q) (st : Status) : D1.Row :=
  {| D1.id := rid; D1.raw_text := "feedback"; D1.category := cat;
     D1.sentiment := JStr "Neutral"; D1.urgency_score := Fin urg;
     D1.source := "forum"; D1.source_id := decimal rid; D1.author := "someone";
     D1.status := st; D1.assigned_team := JStr "product"; D1.notes := JNull |}.

(** Three categories: Bug with 5 new records of mean urgency 6.0, UX with
    5 new records of mean urgency 8.0, and Billing with 2 new records and
    one resolved, of mean urgency 9.0. *)
Definition triage_world : World :=
  {| feedback :=
       [ sample_row 1 "Bug" 6 StNew; sample_row 2 "Bug" 5 StNew;
         sample_row 3 "Bug" 7 StNew; sample_row 4 "Bug" 6 StNew;
         sample_row 5 "Bug" 6 StNew;
         sample_row 6 "UX" 8 StNew; sample_row 7 "UX" 9 StNew;
         sample_row 8 "UX" 7 StNew; sample_row 9 "UX" 8 StNew;
         sample_row 10 "UX" 8 StNew;
         sample_row 11 "Billing" 9 StNew; sample_row 12 "Billing" 10 StNew;
         sample_row 13 "Billing" 8 StResolved ];
     vectors := [] |}.

(** A stored row with a note on it. *)
Definition noted_row : D1.Row :=
  {| D1.id := 1;
     D1.raw_text := "Billing charged twice this month.";
     D1.category := "Billing";
     D1.sentiment := JStr "Negative";
     D1.urgency_score := Fin 3;
     D1.source := "support";
     D1.source_id := "s004";
     D1.author := "agency_client";
     D1.status := StAcknowledged;
     D1.assigned_team := JStr "billing";
     D1.notes := JStr "customer called twice" |}.

Definition noted_world : World := {| feedback := [noted_row]; vectors := [] |}.

(** Four matches of a query: above, at and below the threshold, and one
    without a comparable score. *)
Definition sample_match (i : string) (s : number) : VectorizeMatch :=
  {| vm_id := i; vm_score := s; vm_values := None; vm_metadata := None |}.

Definition sample_matches : list VectorizeMatch :=
  [ sample_match "1" (Fin (9 # 10)); sample_match "2" (Fin (1 # 2));
    sample_match "3" (Fin (49 # 100)); sample_match "4" NaN ].

(** Bindings whose embedding model answers and whose vector store returns
    the sample matches. *)
Definition indexed_env : Env :=
  {| AI_classify := AI_classify offline_env;
     AI_embed := fun _ => Some [Fin 1; Fin 0];
     VECTORIZE_upsert_ok := fun _ => true;
     VECTORIZE_query := fun _ _ _ => Some (Some sample_matches);
     DB_fault := DB_fault offline_env;
     DB_next_rowid := DB_next_rowid offline_env;
     DB_text_is_id := DB_text_is_id offline_env;
     DB_round_avg := DB_round_avg offline_env;
     SLACK_WEBHOOK_URL := None;
     webhook_post := fun _ _ => None |}.

(** An engine that parses four fixed texts. *)
Definition sample_runtime : Runtime :=
  {| JSON_parse := fun s =>
       if s =? "{}" then Some (JObj [])
       else if s =? "[]" then Some (JArr [])
       else if s =? "null" then Some JNull
       else if s =? "7" then Some (JNum (Fin 7))
       else None;
     String_trim := fun s => s;
     match_code_fence := fun _ => None;
     StringToNumber := fun _ => NaN;
     NumberToString := fun n =>
       match n with
       | Fin q => decimal (Qnum q)
       | _ => "NaN"
       end;
     ObjectToNumber := fun _ => Some NaN;
     ObjectToString := fun _ => Some "[object Object]" |}.

(** Bindings whose chat model wraps an empty object in prose. *)
Definition chatty_env : Env :=
  {| AI_classify := fun _ => Some (JStr "Sure! Here is the JSON: {} Hope it helps.");
     AI_embed := fun _ => Some [Fin 1; Fin 0];
     VECTORIZE_upsert_ok := fun _ => true;
     VECTORIZE_query := fun _ _ _ => Some (Some sample_matches);
     DB_fault := DB_fault offline_env;
     DB_next_rowid := DB_next_rowid offline_env;
     DB_text_is_id := DB_text_is_id offline_env;
     DB_round_avg := exact_round_avg;
     SLACK_WEBHOOK_URL := Some "https://hooks.example/T1";
     webhook_post := fun _ _ => Some true |}.

(** Bindings with a store that rejects every statement. *)
Definition down_env : Env :=
  {| AI_classify := AI_classify offline_env;
     AI_embed := AI_embed offline_env;
     VECTORIZE_upsert_ok := VECTORIZE_upsert_ok offline_env;
     VECTORIZE_query := VECTORIZE_query offline_env;
     DB_fault := fun _ => true;
     DB_next_rowid := DB_next_rowid offline_env;
     DB_text_is_id := DB_text_is_id offline_env;
     DB_round_avg := DB_round_avg offline_env;
     SLACK_WEBHOOK_URL := None;
     webhook_post := fun _ _ => None |}.

(** Reads that are accepted, rows created in id order, and percentages
    rounded exactly. *)
Definition plain_reads : Reads :=
  {| read_fault := fun _ => false;
     created_at := fun r => D1.id r;
     round_percent := fun q => Qfloor (q * 100 + (1 # 2)) |}.

(** A webhook that accepts every notice. *)
Definition notifying_env : Env :=
  {| AI_classify := AI_classify offline_env;
     AI_embed := fun _ => Some [Fin 1; Fin 0];
     VECTORIZE_upsert_ok := fun _ => true;
     VECTORIZE_query := fun _ _ _ => Some (Some sample_matches);
     DB_fault := DB_fault offline_env;
     DB_next_rowid := DB_next_rowid offline_env;
     DB_text_is_id := DB_text_is_id offline_env;
     DB_round_avg := exact_round_avg;
     SLACK_WEBHOOK_URL := Some "https://hooks.example/T1";
     webhook_post := fun _ _ => Some true |}.

(** The hits of a search over the triage world with the sample matches. *)
Definition sample_hits : list SearchHit :=
  match search_handler sample_runtime indexed_env plain_reads (Some "upload fails")
          triage_world with
  | Returned {| search_body := SearchResults hits |} _ => hits
  | _ => []
  end.

(** Two Bug records, one of them with a sentiment outside the three. *)
Definition mixed_world : World :=
  {| feedback :=
       [ {| D1.id := 1; D1.raw_text := "Works, but crashes at times";
            D1.category := "Bug"; D1.sentiment := JStr "Mixed";
            D1.urgency_score := Fin 6; D1.source := "forum"; D1.source_id := "f100";
            D1.author := "someone"; D1.status := StNew;
            D1.assigned_team := JStr "engineering"; D1.notes := JNull |};
         {| D1.id := 2; D1.raw_text := "Crashes on upload";
            D1.category := "Bug"; D1.sentiment := JStr "Negative";
            D1.urgency_score := Fin 8; D1.source := "discord"; D1.source_id := "d100";
            D1.author := "someone else"; D1.status := StEscalated;
            D1.assigned_team := JStr "engineering"; D1.notes := JNull |} ];
     vectors := [] |}.

(** An engine whose parser answers an object with an array for
    sentiment, bindings whose chat model answers, and a store that rejects
    exactly the statements it cannot bind. *)
Definition array_runtime : Runtime :=
  {| JSON_parse := fun _ => Some (JObj [("sentiment", JArr [JStr "Negative"])]);
     String_trim := String_trim strict_runtime;
     match_code_fence := match_code_fence strict_runtime;
     StringToNumber := StringToNumber strict_runtime;
     NumberToString := NumberToString strict_runtime;
     ObjectToNumber := ObjectToNumber strict_runtime;
     ObjectToString := ObjectToString strict_runtime |}.

Definition binding_env : Env :=
  {| AI_classify := fun _ => Some (JStr "{}");
     AI_embed := AI_embed offline_env;
     VECTORIZE_upsert_ok := VECTORIZE_upsert_ok offline_env;
     VECTORIZE_query := VECTORIZE_query offline_env;
     DB_fault := fun s =>
       match s with
       | InsertFeedback _ _ sent _ _ _ _ team_value =>
           match sent, team_value with
           | (JUndefined | JArr _ | JObj _), _ => true
           | _, (JUndefined | JArr _ | JObj _) => true
           | _, _ => false
           end
       | _ => false
       end;
     DB_next_rowid := DB_next_rowid offline_env;
     DB_text_is_id := DB_text_is_id offline_env;
     DB_round_avg := DB_round_avg offline_env;
     SLACK_WEBHOOK_URL := None;
     webhook_post := fun _ _ => None |}.

(** Three Bug records from forum, discord and forum again. *)
Definition sourced_world : World :=
  {| feedback :=
       [ sample_row 1 "Bug" 6 StNew;
         {| D1.id := 2; D1.raw_text := "Crashes on upload";
            D1.category := "Bug"; D1.sentiment := JStr "Negative";
            D1.urgency_score := Fin 8; D1.source := "discord"; D1.source_id := "d100";
            D1.author := "someone else"; D1.status := StNew;
            D1.assigned_team := JStr "engineering"; D1.notes := JNull |};
         sample_row 3 "Bug" 5 StNew ];
     vectors := [] |}.

End Instances.

(* ================================================================== *)
(** ** Vocabulary of the statements *)

(** The store accepts every statement of the request. *)
Definition store_ok (env : Env) : Prop := forall s, DB_fault env s = false.

(** Two rows that differ at most in [status]. *)
Definition same_but_status (old new : D1.Row) : Prop :=
  D1.id new = D1.id old /\ D1.raw_text new = D1.raw_text old /\
  D1.category new = D1.category old /\ D1.sentiment new = D1.sentiment old /\
  D1.urgency_score new = D1.urgency_score old /\
  D1.source new = D1.source old /\ D1.source_id new = D1.source_id old /\
  D1.author new = D1.author old /\
  D1.assigned_team new = D1.assigned_team old /\ D1.notes new = D1.notes old.

(** Two rows with the same identity and content: everything an escalation
    leaves alone. *)
Definition same_content (old new : D1.Row) : Prop :=
  D1.id new = D1.id old /\ D1.raw_text new = D1.raw_text old /\
  D1.category new = D1.category old /\ D1.sentiment new = D1.sentiment old /\
  D1.source new = D1.source old /\ D1.source_id new = D1.source_id old /\
  D1.author new = D1.author old.

(** The item has a persisted record. *)
Definition has_record (w : World) (item : Item.MockFeedbackItem) : Prop :=
  exists r, In r (feedback w) /\
            D1.source r = Item.source item /\ D1.source_id r = Item.id item.

(** A score of at least one half. *)
Definition at_least_half (n : number) : Prop :=
  match n with
  | Fin q => (1 # 2 <= q)%Q
  | PosInf => True
  | NaN | NegInf => False
  end.


(** *** Vocabulary of the further properties *)

(** The entity, or the character itself, that stands for a character in
    escaped text. *)
Definition escape_char (a : ascii) : string :=
  if Ascii.eqb a "&"%char then "&amp;"
  else if Ascii.eqb a "<"%char then "&lt;"
  else if Ascii.eqb a ">"%char then "&gt;"
  else if Ascii.eqb a double_quote then "&quot;"
  else String a EmptyString.

Fixpoint escape_each (s : string) : string :=
  match s with
  | EmptyString => EmptyString
  | String a rest => escape_char a ++ escape_each rest
  end.

(** The character occurs in the string. *)
Fixpoint occurs (c : ascii) (s : string) : bool :=
  match s with
  | EmptyString => false
  | String a rest => Ascii.eqb a c || occurs c rest
  end.

(** One of the four characters [escapeHtml] replaces. *)
Definition is_markup (a : ascii) : bool :=
  Ascii.eqb a "&"%char || Ascii.eqb a "<"%char || Ascii.eqb a ">"%char
  || Ascii.eqb a double_quote.

Fixpoint has_markup (s : string) : bool :=
  match s with
  | EmptyString => false
  | String a rest => is_markup a || has_markup rest
  end.

(** The names [coerceAnalysis] reads. *)
Definition analysis_fields : list string :=
  ["category"; "sentiment"; "urgency"; "suggestedTeam"; "keywords"].

(** The parsed value defines none of them: a primitive, an array, an
    object without these names, or a value whose properties cannot be read. *)
Definition carries_no_field (parsed : JsValue) : Prop :=
  forall name, In name analysis_fields ->
    get parsed name = Some JUndefined \/ get parsed name = None.

(** The text [extractJson] slices: trimmed, and freed of its fence. *)
Definition stripped (rt : Runtime) (raw : string) : string :=
  match match_code_fence rt (String_trim rt raw) with
  | Some inner => inner
  | None => String_trim rt raw
  end.

(** The deduplication key of a row and of an item. *)
Definition row_key (r : D1.Row) : string * string := (D1.source r, D1.source_id r).

Definition item_key (i : Item.MockFeedbackItem) : string * string :=
  (Item.source i, Item.id i).

Definition key_eq_dec (a b : string * string) : {a = b} + {a <> b}.
Proof. decide equality; apply string_dec. Defined.

(** No two records share a key; no two index entries share an id. *)
Definition keys_unique (w : World) : Prop := NoDup (map row_key (feedback w)).

Definition index_ids_unique (w : World) : Prop := NoDup (map ve_id (vectors w)).

(** The key has a record. *)
Definition key_present (w : World) (k : string * string) : bool :=
  existsb (has_key (fst k) (snd k)) (feedback w).

(** The distinct keys of a batch that have no record yet. *)
Definition fresh_keys (w : World) (items : list Item.MockFeedbackItem)
  : list (string * string) :=
  nodup key_eq_dec (filter (fun k => negb (key_present w k)) (map item_key items)).

(** A finite urgency between 1 and 10. *)
Definition urgency_in_range (n : number) : Prop :=
  exists q, n = Fin q /\ (1 <= q)%Q /\ (q <= 10)%Q.

(** A row as ingestion writes it for an item of the batch. *)
Definition ingested_from (rt : Runtime) (env : Env)
    (items : list Item.MockFeedbackItem) (r : D1.Row) : Prop :=
  exists item,
    In item items
    /\ D1.raw_text r = Item.text item
    /\ D1.source r = Item.source item
    /\ D1.source_id r = Item.id item
    /\ D1.author r = Item.author item
    /\ D1.status r = StNew
    /\ D1.notes r = JNull
    /\ D1.category r = category (analyzeFeedback rt env (Item.text item))
    /\ D1.sentiment r = sentiment (analyzeFeedback rt env (Item.text item))
    /\ D1.assigned_team r = suggestedTeam (analyzeFeedback rt env (Item.text item))
    /\ urgency_in_range (D1.urgency_score r).

(** An index entry that stands for a stored row: its id is the text of the
    row's id, its text the first 300 characters of the row's raw text. *)
Definition indexes_row (rt : Runtime) (e : VectorEntry) (r : D1.Row) : Prop :=
  ve_id e = NumberToString rt (Fin (inject_Z (D1.id r)))
  /\ ve_text e = substring 0 300 (D1.raw_text r)
  /\ ve_category e = D1.category r
  /\ ve_sentiment e = D1.sentiment r
  /\ ve_urgency e = D1.urgency_score r.

(** Two rows that differ at most in [notes]. *)
Definition same_but_notes (old new : D1.Row) : Prop :=
  D1.id new = D1.id old /\ D1.raw_text new = D1.raw_text old /\
  D1.category new = D1.category old /\ D1.sentiment new = D1.sentiment old /\
  D1.urgency_score new = D1.urgency_score old /\
  D1.source new = D1.source old /\ D1.source_id new = D1.source_id old /\
  D1.author new = D1.author old /\
  D1.assigned_team new = D1.assigned_team old /\ D1.status new = D1.status old.

(** Two rows that differ at most in [status] and [notes]. *)
Definition same_but_triage (old new : D1.Row) : Prop :=
  D1.id new = D1.id old /\ D1.raw_text new = D1.raw_text old /\
  D1.category new = D1.category old /\ D1.sentiment new = D1.sentiment old /\
  D1.urgency_score new = D1.urgency_score old /\
  D1.source new = D1.source old /\ D1.source_id new = D1.source_id old /\
  D1.author new = D1.author old /\
  D1.assigned_team new = D1.assigned_team old.

(** The status each action of [updates] writes. *)
Definition status_actions : list (string * Status) :=
  [("acknowledge", StAcknowledged); ("resolve", StResolved); ("reopen", StNew)].

(** Every stored urgency is between 1 and 10. *)
Definition urgencies_in_range (w : World) : Prop :=
  Forall (fun r => urgency_in_range (D1.urgency_score r)) (feedback w).

(** A similarity as the search handler can attach it: an integer
    percentage, or infinite. *)
Definition is_percentage (n : number) : Prop :=
  n = PosInf \/ exists z, n = Fin (inject_Z z).

(** [a] is at least [b], on similarities. *)
Definition similarity_ge (a b : number) : Prop :=
  match a, b with
  | PosInf, PosInf => True
  | PosInf, Fin _ => True
  | Fin x, Fin y => (y <= x)%Q
  | _, _ => False
  end.

(** One of the three sentiments the aggregation counts. *)
Definition counted_sentiment (v : JsValue) : Prop :=
  v = JStr "Positive" \/ v = JStr "Negative" \/ v = JStr "Neutral".

(** The records of a category. *)
Definition records_of (cat : string) (w : World) : list D1.Row :=
  filter (fun r => D1.category r =? cat) (feedback w).

(** A source name that survives [GROUP_CONCAT] and [split]: not empty, and
    without a comma. *)
Definition plain_source (s : string) : Prop :=
  s <> EmptyString /\ occurs ","%char s = false.

(** [a] is listed before [b] on a category page: a higher urgency, or the
    same urgency and created no earlier. *)
Definition listed_before (reads : Reads) (a b : D1.Row) : Prop :=
  exists x y,
    D1.urgency_score a = Fin x /\ D1.urgency_score b = Fin y
    /\ ((y < x)%Q \/ ((y == x)%Q /\ (created_at reads b <= created_at reads a)%Z)).

(** A value the store is known to bind: text, a number, a boolean or
    null.  An array or an object that [coerceAnalysis] passes through as
    sentiment or team is not one. *)
Definition bindable (v : JsValue) : bool :=
  match v with
  | JNull | JBool _ | JNum _ | JStr _ => true
  | JUndefined | JArr _ | JObj _ => false
  end.

(** A statement all of whose bound values are bindable; only the insert
    binds values of type [any]. *)
Definition stmt_bindable (s : Stmt) : bool :=
  match s with
  | InsertFeedback _ _ sent _ _ _ _ team_value => bindable sent && bindable team_value
  | _ => true
  end.

(** The store accepts every statement whose values it can bind. *)
Definition store_accepts_bindable (env : Env) : Prop :=
  forall s, stmt_bindable s = true -> DB_fault env s = false.

(** The values of a list in order, each at its first occurrence. *)
Fixpoint first_occurrences (l : list string) : list string :=
  match l with
  | [] => []
  | x :: rest => x :: remove string_dec x (first_occurrences rest)
  end.

(* ================================================================== *)
(** ** Lemmas on numbers and the normalizer *)

(** The clamp expression of [coerceAnalysis], on any number. *)
Definition clamp_urgency (n : number) : number :=
  Math_min (Fin 10) (Math_max (Fin 1) (number_or n (Fin 5))).

Lemma clamp_urgency_range (n : number) :
  exists q, clamp_urgency n = Fin q /\ (1 <= q)%Q /\ (q <= 10)%Q.
Proof.
  destruct n as [| | |u]; unfold clamp_urgency, number_or; simpl.
  - exists 5%Q. repeat split; discriminate.
  - exists 10%Q. repeat split; discriminate.
  - exists 1%Q. repeat split; discriminate.
  - destruct (Qeq_bool u 0); simpl.
    + exists 5%Q. repeat split; discriminate.
    + destruct (Qle_bool 1 u) eqn:H1; simpl.
      * destruct (Qle_bool 10 u) eqn:H10.
        -- exists 10%Q. repeat split; discriminate.
        -- exists u. repeat split.
           ++ now apply Qle_bool_iff.
           ++ apply Qnot_lt_le. intro Hlt. apply Qlt_le_weak in Hlt.
              apply Qle_bool_iff in Hlt. congruence.
      * exists 1%Q. repeat split; discriminate.
Qed.


(** What [coerceAnalysis] returns when it returns. *)
Lemma coerceAnalysis_fields (rt : Runtime) (parsed : JsValue) (a : FeedbackAnalysis) :
  coerceAnalysis rt parsed = Some a ->
  exists c cat s u n t k,
    get parsed "category" = Some c /\
    String_ rt (js_or c (JStr "Other")) = Some cat /\
    get parsed "sentiment" = Some s /\
    get parsed "urgency" = Some u /\
    Number_ rt u = Some n /\
    get parsed "suggestedTeam" = Some t /\
    get parsed "keywords" = Some k /\
    category a = cat /\
    sentiment a = js_or s (JStr "Neutral") /\
    urgency a = clamp_urgency n /\
    suggestedTeam a = js_or t (JStr "product") /\
    keywords a = array_or_empty k.
Proof.
  unfold coerceAnalysis. intros H.
  destruct (get parsed "category") as [c|] eqn:Hc; [|discriminate].
  destruct (String_ rt (js_or c (JStr "Other"))) as [cat|] eqn:Hcat; [|discriminate].
  destruct (get parsed "sentiment") as [s|] eqn:Hs; [|discriminate].
  destruct (get parsed "urgency") as [u|] eqn:Hu; [|discriminate].
  destruct (Number_ rt u) as [n|] eqn:Hn; [|discriminate].
  destruct (get parsed "suggestedTeam") as [t|] eqn:Ht; [|discriminate].
  destruct (get parsed "keywords") as [k|] eqn:Hk; [|discriminate].
  injection H as <-. exists c, cat, s, u, n, t, k. simpl.
  repeat split; try reflexivity; assumption.
Qed.

(** Every path of [analyzeFeedback] ends in the clamp or in the default. *)
Lemma analyzeFeedback_urgency_cases (rt : Runtime) (env : Env) (text : string) :
  urgency (analyzeFeedback rt env text) = Fin 5 \/
  exists n, urgency (analyzeFeedback rt env text) = clamp_urgency n.
Proof.
  unfold analyzeFeedback.
  destruct (analyzeResponse rt (AI_classify env text)) as [a|] eqn:Ha.
  - right. unfold analyzeResponse in Ha.
    destruct (AI_classify env text) as [resp|]; [|discriminate].
    destruct (rawOf resp) as [raw|]; [|discriminate].
    destruct (JSON_parse rt (extractJson rt raw)) as [parsed|]; [|discriminate].
    apply coerceAnalysis_fields in Ha.
    destruct Ha as (c & cat & s & u & n & t & k & _ & _ & _ & _ & _ & _ & _ & _ & _ & Hu & _).
    exists n. exact Hu.
  - left. reflexivity.
Qed.


(** A truthy [sentiment] is returned as it is. *)
Lemma coerceAnalysis_sentiment_truthy (rt : Runtime) (parsed s : JsValue)
    (a : FeedbackAnalysis) :
  coerceAnalysis rt parsed = Some a ->
  get parsed "sentiment" = Some s ->
  truthy s = true ->
  sentiment a = s.
Proof.
  intros Ha Hs Ht. apply coerceAnalysis_fields in Ha.
  destruct Ha as (c & cat & s' & u & n & t & k & _ & _ & Hs' & _ & _ & _ & _ & _ & Hsent & _).
  rewrite Hs in Hs'. injection Hs' as <-.
  rewrite Hsent. unfold js_or. now rewrite Ht.
Qed.

(* ================================================================== *)
(** ** The normalizer's urgency and sentiment *)




(** C5 at the input [{"sentiment": "Mixed"}]: the result's sentiment is
    "Mixed", not "Neutral". *)
Theorem coerceAnalysis_sentiment_passthrough (rt : Runtime) :
  option_map sentiment (coerceAnalysis rt (JObj [("sentiment", JStr "Mixed")]))
  = Some (JStr "Mixed")
  /\ JStr "Mixed" <> JStr "Neutral"
  /\ JStr "Mixed" <> JStr "Positive"
  /\ JStr "Mixed" <> JStr "Negative".
Proof. repeat split; discriminate. Qed.

(* ================================================================== *)
(** ** Lemmas on the store *)

Lemma world_eta (w : World) :
  {| feedback := feedback w; vectors := vectors w |} = w.
Proof. now destruct w. Qed.

Lemma update_where_Forall2 (P : D1.Row -> D1.Row -> Prop)
    (cond : D1.Row -> bool) (set : D1.Row -> D1.Row) (rows : list D1.Row) :
  (forall r, In r rows -> if cond r then P r (set r) else P r r) ->
  Forall2 P rows (update_where cond set rows).
Proof.
  induction rows as [|r rows IH]; intros H; simpl.
  - constructor.
  - constructor.
    + specialize (H r (or_introl eq_refl)). now destruct (cond r).
    + apply IH. intros r' Hr'. apply H. now right.
Qed.

Lemma update_where_none (cond : D1.Row -> bool) (set : D1.Row -> D1.Row)
    (rows : list D1.Row) :
  (forall r, In r rows -> cond r = false) ->
  update_where cond set rows = rows.
Proof.
  induction rows as [|r rows IH]; intros H; simpl; [reflexivity|].
  rewrite (H r (or_introl eq_refl)). f_equal. apply IH.
  intros r' Hr'. apply H. now right.
Qed.

Lemma db_read_ok {A} (env : Env) (s : Stmt) (answer : list D1.Row -> A) (w : World) :
  DB_fault env s = false ->
  db_read env s answer w = Returned (answer (feedback w)) w.
Proof. intros H. unfold db_read. now rewrite H. Qed.

Lemma db_write_ok {A} (env : Env) (s : Stmt) (change : list D1.Row -> list D1.Row)
    (answer : list D1.Row -> A) (w : World) :
  DB_fault env s = false ->
  db_write env s change answer w
  = Returned (answer (feedback w))
             {| feedback := change (feedback w); vectors := vectors w |}.
Proof. intros H. unfold db_write. now rewrite H. Qed.

Lemma find_none_iff (cond : D1.Row -> bool) (rows : list D1.Row) :
  find cond rows = None <-> (forall r, In r rows -> cond r = false).
Proof.
  split.
  - intros H r Hr. exact (find_none cond rows H r Hr).
  - induction rows as [|r rows IH]; intros H; simpl; [reflexivity|].
    rewrite (H r (or_introl eq_refl)). apply IH. intros r' Hr'. apply H. now right.
Qed.

Lemma find_some_ex (cond : D1.Row -> bool) (rows : list D1.Row) :
  (exists r, In r rows /\ cond r = true) -> exists r, find cond rows = Some r.
Proof.
  intros (r & Hin & Hc). destruct (find cond rows) as [r'|] eqn:Hf.
  - now exists r'.
  - apply find_none_iff with (r := r) in Hf; [congruence|assumption].
Qed.

(** What an accepted escalation leaves behind. *)
Lemma escalate_found (env : Env) (rid : number) (b : EscalateBody) (w : World) :
  store_ok env ->
  (exists r, In r (feedback w) /\ id_is_number rid r = true) ->
  escalate env rid b w
  = Returned (json BSuccess 200)
      {| feedback :=
           update_where (id_is_number rid)
             (set_escalated (JStr (team b)) (notes_or_null (escalate_notes b)))
             (feedback w);
         vectors := vectors w |}.
Proof.
  intros Hok Hex. apply find_some_ex in Hex. destruct Hex as [fb Hfb].
  unfold escalate, bind. rewrite db_read_ok by apply Hok. rewrite Hfb.
  rewrite db_write_ok by apply Hok. reflexivity.
Qed.

(* ================================================================== *)
(** ** Escalation *)

(** C2: with no record of that id, [escalate] answers 404 "Feedback not
    found" and changes nothing; with one, it answers success and every
    record of that id has status escalated, the given team and urgency 10,
    whatever they were, while every other record is as before. *)
Theorem escalate_forces_max_urgency (env : Env) (rid : number) (b : EscalateBody)
    (w : World) :
  store_ok env ->
  ((forall r, In r (feedback w) -> id_is_number rid r = false) ->
     escalate env rid b w = Returned (json (BError "Feedback not found") 404) w)
  /\ ((exists r, In r (feedback w) /\ id_is_number rid r = true) ->
      exists w',
        escalate env rid b w = Returned (json BSuccess 200) w'
        /\ vectors w' = vectors w
        /\ Forall2 (fun old new =>
                      if id_is_number rid old
                      then D1.status new = StEscalated
                           /\ D1.assigned_team new = JStr (team b)
                           /\ D1.urgency_score new = Fin 10
                           /\ D1.id new = D1.id old
                      else new = old)
                   (feedback w) (feedback w')).
Proof.
  intros Hok. split.
  - intros Hnone. apply find_none_iff in Hnone.
    unfold escalate, bind. rewrite db_read_ok by apply Hok. now rewrite Hnone.
  - intros Hex. eexists. split; [apply escalate_found; assumption|].
    split; [reflexivity|]. simpl.
    apply update_where_Forall2. intros r _.
    destruct (id_is_number rid r); simpl; auto.
Qed.

(** Escalating record 1 of the noted world, and record 7, which is absent. *)
Lemma escalate_forces_max_urgency_witness :
  escalate Instances.offline_env (Fin 7)
    {| team := "security"; escalate_notes := None |} Instances.noted_world
  = Returned (json (BError "Feedback not found") 404) Instances.noted_world
  /\ exists w',
      escalate Instances.offline_env (Fin 1)
        {| team := "security"; escalate_notes := None |} Instances.noted_world
      = Returned (json BSuccess 200) w'
      /\ map D1.urgency_score (feedback w') = [Fin 10]
      /\ map D1.status (feedback w') = [StEscalated].
Proof.
  assert (Hok : store_ok Instances.offline_env) by (intro s; reflexivity).
  split.
  - apply (escalate_forces_max_urgency (Fin 7)
             {| team := "security"; escalate_notes := None |}
             Instances.noted_world Hok).
    intros r [<-|[]]. reflexivity.
  - destruct (proj2 (escalate_forces_max_urgency (Fin 1)
                       {| team := "security"; escalate_notes := None |}
                       Instances.noted_world Hok)) as (w' & Hrun & _ & _).
    + exists Instances.noted_row. split; [now left|reflexivity].
    + exists w'. split; [exact Hrun|].
      vm_compute in Hrun. injection Hrun as <-. split; reflexivity.
Defined.

(** C9, as the claim words it, fails: escalating a record that carries a
    note, with no notes in the request, leaves the record without its
    note. *)
Lemma escalate_without_notes_clears_note :
  map D1.notes (feedback Instances.noted_world) = [JStr "customer called twice"]
  /\ map D1.notes
       (feedback
          (world_after
             (escalate Instances.offline_env (Fin 1)
                {| team := "billing"; escalate_notes := None |}
                Instances.noted_world)))
     = [JNull].
Proof. split; reflexivity. Qed.

(** C9, as the code has it: an accepted escalation writes [notes] on every
    record of that id, the given notes when they are a non-empty string and
    null otherwise (no notes given, or empty ones); identity and content of
    the record, and every other record, stay as they were. *)
Theorem escalate_overwrites_notes (env : Env) (rid : number) (b : EscalateBody)
    (w : World) :
  store_ok env ->
  (exists r, In r (feedback w) /\ id_is_number rid r = true) ->
  exists w',
    escalate env rid b w = Returned (json BSuccess 200) w'
    /\ Forall2 (fun old new =>
                  if id_is_number rid old
                  then D1.notes new
                       = match escalate_notes b with
                         | None => JNull
                         | Some s => if s =? "" then JNull else JStr s
                         end
                       /\ same_content old new
                  else new = old)
               (feedback w) (feedback w').
Proof.
  intros Hok Hex. eexists. split; [apply escalate_found; assumption|].
  simpl. apply update_where_Forall2. intros r _.
  destruct (id_is_number rid r); [|reflexivity].
  split.
  - simpl. unfold notes_or_null, js_or. destruct (escalate_notes b) as [s|]; simpl.
    + now destruct (s =? "").
    + reflexivity.
  - unfold same_content. simpl. repeat split.
Qed.

Lemma escalate_overwrites_notes_witness :
  exists w',
    escalate Instances.offline_env (Fin 1)
      {| team := "billing"; escalate_notes := Some "" |} Instances.noted_world
    = Returned (json BSuccess 200) w'
    /\ map D1.notes (feedback w') = [JNull].
Proof.
  destruct (@escalate_overwrites_notes Instances.offline_env (Fin 1)
              {| team := "billing"; escalate_notes := Some "" |}
              Instances.noted_world) as (w' & Hrun & _).
  - intro s. reflexivity.
  - exists Instances.noted_row. split; [now left|reflexivity].
  - exists w'. split; [exact Hrun|].
    vm_compute in Hrun. injection Hrun as <-. reflexivity.
Defined.

(* ================================================================== *)
(** ** Single-record actions and bulk actions *)

(** C10: for an id that matches no record, acknowledge, resolve, reopen
    and add_note each answer success and leave both stores as they were. *)
Theorem action_on_unknown_id_succeeds (env : Env) (rid action : string)
    (note : JsValue) (w : World) :
  store_ok env ->
  In action ["acknowledge"; "resolve"; "reopen"; "add_note"] ->
  (forall r, In r (feedback w) -> id_is_text env rid r = false) ->
  action_handler env rid action note w = Returned (json BSuccess 200) w.
Proof.
  intros Hok Hact Hnone.
  assert (Hw : forall set,
             {| feedback := update_where (id_is_text env rid) set (feedback w);
                vectors := vectors w |} = w).
  { intros set. rewrite update_where_none by assumption. apply world_eta. }
  unfold action_handler, bind.
  destruct Hact as [<-|[<-|[<-|[<-|[]]]]]; simpl;
    rewrite db_write_ok by apply Hok; rewrite Hw; reflexivity.
Qed.

Lemma action_on_unknown_id_succeeds_witness :
  action_handler Instances.offline_env "42" "resolve" JUndefined
    Instances.noted_world
  = Returned (json BSuccess 200) Instances.noted_world
  /\ action_handler Instances.offline_env "42" "add_note" (JStr "seen")
       Instances.noted_world
     = Returned (json BSuccess 200) Instances.noted_world.
Proof.
  assert (Hok : store_ok Instances.offline_env) by (intro s; reflexivity).
  assert (Hnone : forall r, In r (feedback Instances.noted_world) ->
                            id_is_text Instances.offline_env "42" r = false).
  { intros r [<-|[]]. reflexivity. }
  split.
  - apply (@action_on_unknown_id_succeeds Instances.offline_env "42" "resolve"
             JUndefined Instances.noted_world Hok); [|exact Hnone].
    simpl. tauto.
  - apply (@action_on_unknown_id_succeeds Instances.offline_env "42" "add_note"
             (JStr "seen") Instances.noted_world Hok); [|exact Hnone].
    simpl. tauto.
Defined.

(** C7: an accepted bulk resolve of a category answers success and sets
    the status of every record of the category to resolved, whatever it
    was; an accepted bulk acknowledge sets to acknowledged the records of
    the category whose status is new.  Nothing else changes in either. *)
Theorem bulk_scope (env : Env) (cat : string) (w : World) :
  store_ok env ->
  (exists w',
      bulk env "resolve" cat w = Returned (json BSuccess 200) w'
      /\ vectors w' = vectors w
      /\ Forall2 (fun old new =>
                    if D1.category old =? cat
                    then D1.status new = StResolved /\ same_but_status old new
                    else new = old)
                 (feedback w) (feedback w'))
  /\ (exists w',
      bulk env "acknowledge" cat w = Returned (json BSuccess 200) w'
      /\ vectors w' = vectors w
      /\ Forall2 (fun old new =>
                    if D1.category old =? cat
                    then match D1.status old with
                         | StNew => D1.status new = StAcknowledged
                                    /\ same_but_status old new
                         | _ => new = old
                         end
                    else new = old)
                 (feedback w) (feedback w')).
Proof.
  intros Hok. split; eexists; (split; [|split]).
  - unfold bulk, bind. simpl. rewrite db_write_ok by apply Hok. reflexivity.
  - reflexivity.
  - simpl. apply update_where_Forall2. intros r _.
    destruct (D1.category r =? cat); [|reflexivity].
    split; [reflexivity|]. unfold same_but_status. simpl. repeat split.
  - unfold bulk, bind. simpl. rewrite db_write_ok by apply Hok. reflexivity.
  - reflexivity.
  - simpl. apply update_where_Forall2. intros r _.
    destruct (D1.category r =? cat); simpl; [|reflexivity].
    destruct (D1.status r); simpl; try reflexivity.
    split; [reflexivity|]. unfold same_but_status. simpl. repeat split.
Qed.

(** On a world with one acknowledged Billing record, bulk resolve of
    Billing resolves it and bulk acknowledge of Billing leaves it. *)
Lemma bulk_scope_witness :
  (exists w',
      bulk Instances.offline_env "resolve" "Billing" Instances.noted_world
      = Returned (json BSuccess 200) w'
      /\ map D1.status (feedback w') = [StResolved])
  /\ bulk Instances.offline_env "acknowledge" "Billing" Instances.noted_world
     = Returned (json BSuccess 200) Instances.noted_world.
Proof.
  destruct (@bulk_scope Instances.offline_env "Billing" Instances.noted_world)
    as [(w1 & Hrun1 & _ & _) (w2 & Hrun2 & _ & H2)].
  - intro s. reflexivity.
  - split.
    + exists w1. split; [exact Hrun1|].
      vm_compute in Hrun1. injection Hrun1 as <-. reflexivity.
    + rewrite Hrun2. vm_compute in Hrun2. injection Hrun2 as <-. reflexivity.
Defined.

(* ================================================================== *)
(** ** Similarity threshold *)

Lemma number_geb_half (n : number) :
  number_geb n (Fin (1 # 2)) = true <-> at_least_half n.
Proof.
  unfold number_geb. destruct n as [| | |q]; simpl.
  - split; [discriminate|tauto].
  - tauto.
  - split; [discriminate|tauto].
  - apply Qle_bool_iff.
Qed.

(** C6: when the embedding and the query succeed, the adapter returns
    exactly the matches of the vector store whose score is at least 0.5, in
    the store's order: a match scoring exactly 0.5 is returned, and nothing
    returned scores below 0.5. *)
Theorem search_keeps_matches_from_half (env : Env) (w : World) (query : string)
    (topK : nat) (queryEmbedding : list number)
    (results : option (list VectorizeMatch)) :
  generateEmbedding env query = Some queryEmbedding ->
  VECTORIZE_query env (vectors w) queryEmbedding topK = Some results ->
  let out := searchSimilarFeedback env w query topK in
  (forall r, In r out <->
             exists m, In m (matches_or_empty results)
                       /\ to_result m = r /\ at_least_half (vm_score m))
  /\ (forall m, In m (matches_or_empty results) ->
                vm_score m = Fin (1 # 2) -> In (to_result m) out)
  /\ (forall r q, In r out -> Vec.score r = Fin q -> (1 # 2 <= q)%Q).
Proof.
  intros He Hq out.
  assert (Hout : out = map to_result
                         (filter (fun m => number_geb (vm_score m) MIN_SIMILARITY_THRESHOLD)
                                 (matches_or_empty results))).
  { unfold out, searchSimilarFeedback. now rewrite He, Hq. }
  assert (Hin : forall r, In r out <->
             exists m, In m (matches_or_empty results)
                       /\ to_result m = r /\ at_least_half (vm_score m)).
  { intros r. rewrite Hout, in_map_iff. split.
    - intros (m & Hm & Hf). apply filter_In in Hf. destruct Hf as [Hf Hs].
      exists m. repeat split; try assumption. now apply number_geb_half.
    - intros (m & Hm & Hr & Hs). exists m. split; [assumption|].
      apply filter_In. split; [assumption|]. now apply number_geb_half. }
  split; [exact Hin|]. split.
  - intros m Hm Hs. apply Hin. exists m. repeat split; try assumption.
    rewrite Hs. simpl. apply Qle_refl.
  - intros r q Hr Hs. apply Hin in Hr. destruct Hr as (m & _ & <- & Hh).
    simpl in Hs. rewrite Hs in Hh. exact Hh.
Qed.

(** Of the sample matches scoring 0.9, 0.5, 0.49 and NaN, the first two
    are returned. *)
Lemma search_keeps_matches_from_half_witness :
  map Vec.id
    (searchSimilarFeedback Instances.indexed_env Instances.empty_world
       "upload fails" 20) = ["1"; "2"]
  /\ In (to_result (Instances.sample_match "2" (Fin (1 # 2))))
        (searchSimilarFeedback Instances.indexed_env Instances.empty_world
           "upload fails" 20).
Proof.
  split; [reflexivity|].
  apply (proj1 (proj2 (@search_keeps_matches_from_half Instances.indexed_env
                         Instances.empty_world "upload fails" 20
                         [Fin 1; Fin 0] (Some Instances.sample_matches)
                         eq_refl eq_refl))).
  - simpl. tauto.
  - reflexivity.
Defined.

(* ================================================================== *)
(** ** Ingestion *)

(** Indexing returns, and leaves the records alone. *)
Lemma indexFeedback_returns (rt : Runtime) (env : Env) (rid : Z) (text cat : string)
    (sent : JsValue) (urg : number) (w : World) :
  exists w', indexFeedback rt env rid text cat sent urg w = Returned tt w'
             /\ feedback w' = feedback w.
Proof.
  unfold indexFeedback. destruct (generateEmbedding env text) as [e|].
  - match goal with |- context [VECTORIZE_upsert_ok env ?x] =>
      destruct (VECTORIZE_upsert_ok env x) end; eexists; split; reflexivity.
  - eexists; split; reflexivity.
Qed.

Lemma has_key_true (src src_id : string) (r : D1.Row) :
  has_key src src_id r = true <-> D1.source r = src /\ D1.source_id r = src_id.
Proof.
  unfold has_key. rewrite andb_true_iff, !String.eqb_eq. tauto.
Qed.

Lemma has_record_find (w : World) (item : Item.MockFeedbackItem) :
  has_record w item <->
  exists r, find (has_key (Item.source item) (Item.id item)) (feedback w) = Some r.
Proof.
  split.
  - intros (r & Hin & Hs & Hi). apply find_some_ex. exists r.
    split; [assumption|]. now apply has_key_true.
  - intros (r & Hf). apply find_some in Hf. destruct Hf as [Hin Hk].
    apply has_key_true in Hk. exists r. tauto.
Qed.

Lemma has_record_app (w w' : World) (added : list D1.Row) (item : Item.MockFeedbackItem) :
  feedback w' = (feedback w ++ added)%list -> has_record w item -> has_record w' item.
Proof.
  intros Hw (r & Hin & Hk). exists r. split; [|assumption].
  rewrite Hw. apply in_or_app. now left.
Qed.

(** An item that has a record is skipped: the loop goes on with the same
    counter and the same world. *)
Lemma ingest_loop_skip (rt : Runtime) (env : Env) (item : Item.MockFeedbackItem)
    (rest : list Item.MockFeedbackItem) (processed : nat) (w : World) :
  DB_fault env (SelectIdByKey (Item.source item) (Item.id item)) = false ->
  has_record w item ->
  ingest_loop rt env (item :: rest) processed w
  = ingest_loop rt env rest processed w.
Proof.
  intros Hok Hrec. apply has_record_find in Hrec. destruct Hrec as [r Hr].
  simpl. unfold bind at 1. rewrite db_read_ok by assumption. now rewrite Hr.
Qed.

(** One turn of the loop on an item without a record, when the store
    accepts the two statements: a row is appended and the counter grows. *)
Lemma ingest_loop_create (rt : Runtime) (env : Env) (item : Item.MockFeedbackItem)
    (rest : list Item.MockFeedbackItem) (processed : nat) (w : World) :
  DB_fault env (SelectIdByKey (Item.source item) (Item.id item)) = false ->
  DB_fault env (insert_stmt item (analyzeFeedback rt env (Item.text item))) = false ->
  ~ has_record w item ->
  exists w1,
    feedback w1
    = (feedback w ++ [new_row (DB_next_rowid env (feedback w)) item
                        (analyzeFeedback rt env (Item.text item))])%list
    /\ ingest_loop rt env (item :: rest) processed w
       = ingest_loop rt env rest (S processed) w1.
Proof.
  intros Hsel Hins Hnew.
  assert (Hf : find (has_key (Item.source item) (Item.id item)) (feedback w) = None).
  { destruct (find _ (feedback w)) as [r|] eqn:Hf; [|reflexivity].
    exfalso. apply Hnew. apply has_record_find. now exists r. }
  simpl. unfold bind at 1. rewrite db_read_ok by assumption. rewrite Hf.
  unfold bind at 1. rewrite db_write_ok by assumption.
  unfold bind at 1.
  destruct (Z.eqb (DB_next_rowid env (feedback w)) 0).
  - eexists. split; [|reflexivity]. reflexivity.
  - match goal with |- context [indexFeedback rt env ?a ?b ?c ?d ?e ?x] =>
      destruct (indexFeedback_returns rt env a b c d e x) as (w1 & -> & Hw1) end.
    exists w1. split; [exact Hw1|reflexivity].
Qed.

Lemma has_record_dec (w : World) (item : Item.MockFeedbackItem) :
  has_record w item \/ ~ has_record w item.
Proof.
  destruct (find (has_key (Item.source item) (Item.id item)) (feedback w)) as [r|] eqn:Hf.
  - left. apply has_record_find. now exists r.
  - right. intros H. apply has_record_find in H. destruct H as [r Hr]. congruence.
Qed.

(** A run that returns has appended one row per counted item, and every
    item of the batch has a record afterwards. *)
Lemma ingest_loop_returned (rt : Runtime) (env : Env)
    (items : list Item.MockFeedbackItem) :
  forall (processed : nat) (w : World) (n : nat) (w' : World),
    ingest_loop rt env items processed w = Returned n w' ->
    exists added,
      feedback w' = (feedback w ++ added)%list
      /\ n = processed + List.length added
      /\ forall item, In item items -> has_record w' item.
Proof.
  induction items as [|item rest IH]; intros processed w n w' Hrun.
  - simpl in Hrun. injection Hrun as <- <-. exists []. rewrite app_nil_r.
    repeat split; [simpl; lia | intros item []].
  - destruct (DB_fault env (SelectIdByKey (Item.source item) (Item.id item))) eqn:Hsel.
    { simpl in Hrun. unfold bind at 1 in Hrun. unfold db_read in Hrun.
      rewrite Hsel in Hrun. discriminate. }
    destruct (has_record_dec w item) as [Hrec|Hnew].
    + rewrite ingest_loop_skip in Hrun by assumption.
      destruct (IH _ _ _ _ Hrun) as (added & Hw & Hn & Hall).
      exists added. repeat split; try assumption.
      intros i [<-|Hi]; [|now apply Hall].
      eapply has_record_app; eassumption.
    + destruct (DB_fault env (insert_stmt item (analyzeFeedback rt env (Item.text item))))
        eqn:Hins.
      { exfalso. simpl in Hrun. unfold bind at 1 in Hrun. unfold db_read in Hrun.
        rewrite Hsel in Hrun.
        destruct (find (has_key (Item.source item) (Item.id item)) (feedback w))
          as [r|] eqn:Hf.
        - apply Hnew. apply has_record_find. now exists r.
        - unfold bind at 1 in Hrun. unfold db_write in Hrun.
          rewrite Hins in Hrun. discriminate. }
      destruct (@ingest_loop_create rt env item rest processed w Hsel Hins Hnew)
        as (w1 & Hw1 & Hstep).
      rewrite Hstep in Hrun.
      destruct (IH _ _ _ _ Hrun) as (added & Hw & Hn & Hall).
      rewrite Hw1, <- app_assoc in Hw. simpl in Hw.
      eexists. split; [exact Hw|]. split; [simpl; lia|].
      intros i [<-|Hi]; [|now apply Hall].
      eexists. split; [rewrite Hw; apply in_or_app; right; now left|].
      split; reflexivity.
Qed.

(** With a store that accepts every statement, the loop returns, whatever
    the inference service and the vector store do. *)
Lemma ingest_loop_total (rt : Runtime) (env : Env)
    (items : list Item.MockFeedbackItem) :
  store_ok env ->
  forall (processed : nat) (w : World),
    exists n w', ingest_loop rt env items processed w = Returned n w'.
Proof.
  intros Hok. induction items as [|item rest IH]; intros processed w.
  - simpl. now eexists; eexists.
  - destruct (has_record_dec w item) as [Hrec|Hnew].
    + rewrite ingest_loop_skip by (try apply Hok; assumption). apply IH.
    + destruct (@ingest_loop_create rt env item rest processed w (Hok _) (Hok _) Hnew)
        as (w1 & _ & ->).
      apply IH.
Qed.

(** When every item of the batch has a record and the lookups are
    answered, the loop changes nothing and counts nothing. *)
Lemma ingest_loop_all_known (rt : Runtime) (env : Env)
    (items : list Item.MockFeedbackItem) (processed : nat) (w : World) :
  (forall item, In item items ->
     DB_fault env (SelectIdByKey (Item.source item) (Item.id item)) = false) ->
  (forall item, In item items -> has_record w item) ->
  ingest_loop rt env items processed w = Returned processed w.
Proof.
  induction items as [|item rest IH]; intros Hok Hall; [reflexivity|].
  rewrite ingest_loop_skip by (first [apply Hok | apply Hall]; now left).
  apply IH; intros i Hi; [apply Hok | apply Hall]; now right.
Qed.

Lemma ingest_items_inv (rt : Runtime) (env : Env)
    (items : list Item.MockFeedbackItem) (w : World) (n : nat) (w' : World) :
  ingest_items rt env items w = Returned (json (BProcessed n) 200) w' ->
  ingest_loop rt env items 0 w = Returned n w'.
Proof.
  unfold ingest_items, bind, ret.
  destruct (ingest_loop rt env items 0 w) as [m w1|w1]; [|discriminate].
  intros H. now injection H as <- <-.
Qed.

(** C1: an item whose (source, source id) already has a record is skipped
    with the counter and the stores unchanged; a run that returned counted
    exactly the records it appended; and running the same batch again on
    the world it left answers 0 processed and changes nothing. *)
Theorem ingest_twice_creates_once (rt : Runtime) (env1 env2 : Env)
    (items : list Item.MockFeedbackItem) (w0 w1 : World) (n : nat) :
  ingest_items rt env1 items w0 = Returned (json (BProcessed n) 200) w1 ->
  (forall item, In item items ->
     DB_fault env2 (SelectIdByKey (Item.source item) (Item.id item)) = false) ->
  (forall item rest processed w,
      In item items -> has_record w item ->
      ingest_loop rt env2 (item :: rest) processed w
      = ingest_loop rt env2 rest processed w)
  /\ List.length (feedback w1) = List.length (feedback w0) + n
  /\ ingest_items rt env2 items w1 = Returned (json (BProcessed 0) 200) w1.
Proof.
  intros Hrun Hok. apply ingest_items_inv in Hrun.
  apply ingest_loop_returned in Hrun. destruct Hrun as (added & Hw & Hn & Hall).
  split; [|split].
  - intros item rest processed w Hin Hrec. apply ingest_loop_skip; auto.
  - rewrite Hw, length_app. lia.
  - unfold ingest_items, bind. now rewrite ingest_loop_all_known.
Qed.

(** The mock batch: 29 records the first time, none the second. *)
Lemma ingest_twice_creates_once_witness :
  List.length (feedback Instances.ingested_world) = 29
  /\ ingest Instances.strict_runtime Instances.offline_env Instances.ingested_world
     = Returned (json (BProcessed 0) 200) Instances.ingested_world.
Proof.
  assert (Hfirst : ingest_items Instances.strict_runtime Instances.offline_env
                     MOCK_FEEDBACK Instances.empty_world
                   = Returned (json (BProcessed 29) 200) Instances.ingested_world)
    by (vm_compute; reflexivity).
  destruct (@ingest_twice_creates_once Instances.strict_runtime
              Instances.offline_env Instances.offline_env MOCK_FEEDBACK
              Instances.empty_world Instances.ingested_world 29 Hfirst)
    as (_ & Hlen & Hsecond).
  - intros item _. reflexivity.
  - split; [exact Hlen | exact Hsecond].
Defined.

(** C4, as the claim words it, fails on a persistence failure: when the
    store rejects the insert of the second item, the run throws; one
    record exists, no count is returned and the 27 items after it are
    never looked at. *)
Lemma ingest_aborts_on_insert_failure :
  ingest Instances.strict_runtime Instances.rejecting_env Instances.empty_world
  = Thrown (world_after
              (ingest_items Instances.strict_runtime Instances.offline_env
                 (firstn 1 MOCK_FEEDBACK) Instances.empty_world))
  /\ map D1.source_id
       (feedback
          (world_after
             (ingest Instances.strict_runtime Instances.rejecting_env
                Instances.empty_world)))
     = ["d001"]
  /\ List.length MOCK_FEEDBACK = 29.
Proof. repeat split; vm_compute; reflexivity. Qed.

(** The loop returns when the store accepts the lookup and the insert of
    each item of the batch. *)
Lemma ingest_loop_returns_when (rt : Runtime) (env : Env)
    (items : list Item.MockFeedbackItem) :
  (forall item, In item items ->
     DB_fault env (SelectIdByKey (Item.source item) (Item.id item)) = false
     /\ DB_fault env (insert_stmt item (analyzeFeedback rt env (Item.text item)))
        = false) ->
  forall (processed : nat) (w : World),
    exists n w', ingest_loop rt env items processed w = Returned n w'.
Proof.
  induction items as [|item rest IH]; intros Hok processed w.
  - simpl. now eexists; eexists.
  - destruct (Hok item (or_introl eq_refl)) as [Hsel Hins].
    assert (Hrest : forall i, In i rest ->
              DB_fault env (SelectIdByKey (Item.source i) (Item.id i)) = false
              /\ DB_fault env (insert_stmt i (analyzeFeedback rt env (Item.text i)))
                 = false)
      by (intros i Hi; apply Hok; now right).
    destruct (has_record_dec w item) as [Hrec|Hnew].
    + rewrite ingest_loop_skip by assumption. now apply IH.
    + destruct (@ingest_loop_create rt env item rest processed w Hsel Hins Hnew)
        as (w1 & _ & ->).
      now apply IH.
Qed.

(** A classification that failed is the default one, which the store can
    bind. *)
Lemma failed_classification_bindable (rt : Runtime) (env : Env) (text : string) :
  analyzeResponse rt (AI_classify env text) = None ->
  bindable (sentiment (analyzeFeedback rt env text)) = true
  /\ bindable (suggestedTeam (analyzeFeedback rt env text)) = true.
Proof.
  intros H. unfold analyzeFeedback. rewrite H. split; reflexivity.
Qed.

(** C4, as the code has it: no failure of the classification that
    [analyzeFeedback] catches (the inference call rejecting, an answer
    without text, text that does not parse, a value whose fields cannot be
    read) and no failure of the indexing aborts the run.  Whenever the
    store accepts the statements whose values it can bind, and each item's
    classification either failed or carries a sentiment and a team that
    are text, a number, a boolean or null, the run returns, the count it
    returns is the number of records it appended, and every item of the
    batch has a record afterwards; the embedding model and the vector
    store may fail in any way. *)
Theorem ingest_survives_enrichment_failures (rt : Runtime) (env : Env)
    (items : list Item.MockFeedbackItem) (w : World) :
  store_accepts_bindable env ->
  (forall item, In item items ->
     analyzeResponse rt (AI_classify env (Item.text item)) = None
     \/ (bindable (sentiment (analyzeFeedback rt env (Item.text item))) = true
         /\ bindable (suggestedTeam (analyzeFeedback rt env (Item.text item))) = true)) ->
  exists n w',
    ingest_items rt env items w = Returned (json (BProcessed n) 200) w'
    /\ List.length (feedback w') = List.length (feedback w) + n
    /\ forall item, In item items -> has_record w' item.
Proof.
  intros Hok Hcls.
  assert (Hitems : forall item, In item items ->
            DB_fault env (SelectIdByKey (Item.source item) (Item.id item)) = false
            /\ DB_fault env (insert_stmt item (analyzeFeedback rt env (Item.text item)))
               = false).
  { intros item Hin. split; [now apply Hok|].
    apply Hok. unfold insert_stmt, stmt_bindable.
    destruct (Hcls item Hin) as [Hfail|[Hs Ht]].
    - destruct (failed_classification_bindable rt env (Item.text item) Hfail)
        as [Hs Ht]. now rewrite Hs, Ht.
    - now rewrite Hs, Ht. }
  destruct (ingest_loop_returns_when rt env items Hitems 0 w) as (n & w' & Hrun).
  exists n, w'. split.
  - unfold ingest_items, bind. now rewrite Hrun.
  - apply ingest_loop_returned in Hrun. destruct Hrun as (added & Hw & Hn & Hall).
    split; [rewrite Hw, length_app; lia | exact Hall].
Qed.

(** With the inference service and the vector store both unreachable, the
    mock batch is ingested whole. *)
Lemma ingest_survives_enrichment_failures_witness :
  exists n w',
    ingest Instances.strict_runtime Instances.offline_env Instances.empty_world
    = Returned (json (BProcessed n) 200) w'
    /\ List.length (feedback w') = n
    /\ n = 29.
Proof.
  destruct (@ingest_survives_enrichment_failures Instances.strict_runtime
              Instances.offline_env MOCK_FEEDBACK Instances.empty_world)
    as (n & w' & Hrun & Hlen & _).
  - intros s _. reflexivity.
  - intros item _. left. reflexivity.
  - exists n, w'. split; [exact Hrun|]. split; [exact Hlen|].
    vm_compute in Hrun. now injection Hrun as <- _.
Defined.

(** A classification the store cannot bind does abort the run: with an
    answer whose sentiment is an array and a store that rejects what it
    cannot bind, the first insert throws and nothing is stored. *)
Lemma ingest_aborts_on_unbindable_sentiment :
  sentiment (analyzeFeedback Instances.array_runtime Instances.binding_env
               "App keeps crashing")
  = JArr [JStr "Negative"]
  /\ store_accepts_bindable Instances.binding_env
  /\ ingest Instances.array_runtime Instances.binding_env Instances.empty_world
     = Thrown Instances.empty_world.
Proof.
  split; [reflexivity|]. split; [|vm_compute; reflexivity].
  intros s Hs. destruct s as [ | | ? ? sv ? ? ? ? tv | | | | | | | | ];
    try reflexivity.
  destruct sv, tv; simpl in *; try reflexivity; discriminate Hs.
Qed.

(** The end-to-end scenario: one item from (discord, d001) with the
    classifier unreachable is stored with the default classification and
    status new, and ingesting it again reports 0 processed. *)
Lemma ingest_end_to_end_scenario :
  let item := Item.Build_MockFeedbackItem "discord" "d001" "user123"
                "App crashes on upload" in
  let first := ingest_items Instances.strict_runtime Instances.offline_env
                 [item] Instances.empty_world in
  first = Returned (json (BProcessed 1) 200) (world_after first)
  /\ map (fun r => (D1.category r, D1.sentiment r, D1.urgency_score r,
                    D1.assigned_team r, D1.status r))
         (feedback (world_after first))
     = [("Other", JStr "Neutral", Fin 5, JStr "product", StNew)]
  /\ ingest_items Instances.strict_runtime Instances.offline_env [item]
       (world_after first)
     = Returned (json (BProcessed 0) 200) (world_after first).
Proof. repeat split. Qed.

(* ================================================================== *)
(** ** Aggregation *)




Lemma insert_ordered_perm (x : Sql.InsightRow) (l : list Sql.InsightRow) :
  Permutation (insert_ordered x l) (x :: l).
Proof.
  induction l as [|y rest IH]; simpl; [reflexivity|].
  destruct (order_before x y); [reflexivity|].
  rewrite IH. apply perm_swap.
Qed.


Lemma order_by_perm (l : list Sql.InsightRow) : Permutation (order_by l) l.
Proof.
  induction l as [|x rest IH]; simpl; [reflexivity|].
  unfold order_by in *. simpl. rewrite insert_ordered_perm. now constructor.
Qed.





Lemma select_insights_categories (env : Env) (rows : list D1.Row) :
  Permutation (map Sql.category (select_insights env rows))
              (nodup string_dec (map D1.category rows)).
Proof.
  unfold select_insights.
  rewrite (Permutation_map Sql.category (order_by_perm _)).
  rewrite map_map. simpl. rewrite map_id. reflexivity.
Qed.

Lemma select_insights_rows (env : Env) (rows : list D1.Row) (r : Sql.InsightRow) :
  In r (select_insights env rows) ->
  r = group_row env rows (Sql.category r).
Proof.
  unfold select_insights. intros H.
  apply (Permutation_in _ (order_by_perm _)) in H.
  apply in_map_iff in H. destruct H as (c & <- & _). reflexivity.
Qed.



(* ================================================================== *)
(** ** Further properties: [escapeHtml] *)

Lemma string_app_assoc (a b c : string) : (a ++ b) ++ c = a ++ (b ++ c).
Proof. induction a as [|x a IH]; simpl; [reflexivity|]. now rewrite IH. Qed.

Lemma string_app_length (a b : string) :
  String.length (a ++ b) = String.length a + String.length b.
Proof. induction a as [|x a IH]; simpl; [reflexivity|]. now rewrite IH. Qed.

Lemma replaceAll_app (c : ascii) (rep a b : string) :
  replaceAll c rep (a ++ b) = replaceAll c rep a ++ replaceAll c rep b.
Proof.
  induction a as [|x a IH]; simpl; [reflexivity|].
  destruct (Ascii.eqb x c); rewrite IH; simpl.
  - now rewrite string_app_assoc.
  - reflexivity.
Qed.

Lemma escapeHtml_one (a : ascii) :
  escapeHtml (String a EmptyString) = escape_char a.
Proof.
  unfold escapeHtml, escape_char. simpl.
  destruct (Ascii.eqb a "&"%char) eqn:Ha; [reflexivity|]. simpl.
  destruct (Ascii.eqb a "<"%char) eqn:Hl; [reflexivity|]. simpl.
  destruct (Ascii.eqb a ">"%char) eqn:Hg; [reflexivity|]. simpl.
  destruct (Ascii.eqb a double_quote) eqn:Hq; reflexivity.
Qed.

Lemma escapeHtml_app (a b : string) :
  escapeHtml (a ++ b) = escapeHtml a ++ escapeHtml b.
Proof. unfold escapeHtml. now rewrite !replaceAll_app. Qed.

(** The four passes do not interfere: together they replace each
    character once. *)
Lemma escapeHtml_single_pass (s : string) : escapeHtml s = escape_each s.
Proof.
  induction s as [|a s IH]; [reflexivity|].
  change (String a s) with (String a EmptyString ++ s).
  rewrite escapeHtml_app, escapeHtml_one, IH. reflexivity.
Qed.

Lemma occurs_app (c : ascii) (a b : string) :
  occurs c (a ++ b) = occurs c a || occurs c b.
Proof.
  induction a as [|x a IH]; simpl; [reflexivity|].
  now rewrite IH, orb_assoc.
Qed.

Lemma escape_char_clean (a c : ascii) :
  c = "<"%char \/ c = ">"%char \/ c = double_quote ->
  occurs c (escape_char a) = false.
Proof.
  intros Hc. unfold escape_char.
  destruct (Ascii.eqb a "&"%char) eqn:Ha;
    [destruct Hc as [-> | [-> | ->]]; reflexivity|].
  destruct (Ascii.eqb a "<"%char) eqn:Hl;
    [destruct Hc as [-> | [-> | ->]]; reflexivity|].
  destruct (Ascii.eqb a ">"%char) eqn:Hg;
    [destruct Hc as [-> | [-> | ->]]; reflexivity|].
  destruct (Ascii.eqb a double_quote) eqn:Hq;
    [destruct Hc as [-> | [-> | ->]]; reflexivity|].
  simpl. rewrite orb_false_r.
  destruct Hc as [-> | [-> | ->]]; assumption.
Qed.

(** X1: the text [escapeHtml] returns contains no [<], no [>] and no
    double quote, whatever the input. *)
Theorem escapeHtml_has_no_markup (s : string) :
  occurs "<"%char (escapeHtml s) = false
  /\ occurs ">"%char (escapeHtml s) = false
  /\ occurs double_quote (escapeHtml s) = false.
Proof.
  rewrite escapeHtml_single_pass.
  induction s as [|a s (IH1 & IH2 & IH3)]; simpl; [repeat split|].
  rewrite !occurs_app, IH1, IH2, IH3, !orb_false_r.
  repeat split; apply escape_char_clean; auto.
Qed.

Lemma escape_char_cases (a : ascii) :
  (is_markup a = false /\ escape_char a = String a EmptyString)
  \/ (a = "&"%char /\ escape_char a = "&amp;")
  \/ (a = "<"%char /\ escape_char a = "&lt;")
  \/ (a = ">"%char /\ escape_char a = "&gt;")
  \/ (a = double_quote /\ escape_char a = "&quot;").
Proof.
  unfold escape_char, is_markup.
  destruct (Ascii.eqb a "&"%char) eqn:Ha.
  { apply Ascii.eqb_eq in Ha. subst. right. left. now split. }
  destruct (Ascii.eqb a "<"%char) eqn:Hl.
  { apply Ascii.eqb_eq in Hl. subst. right. right. left. now split. }
  destruct (Ascii.eqb a ">"%char) eqn:Hg.
  { apply Ascii.eqb_eq in Hg. subst. do 3 right. left. now split. }
  destruct (Ascii.eqb a double_quote) eqn:Hq.
  { apply Ascii.eqb_eq in Hq. subst. do 4 right. now split. }
  left. now split.
Qed.

Lemma escape_each_injective (s1 : string) :
  forall s2, escape_each s1 = escape_each s2 -> s1 = s2.
Proof.
  induction s1 as [|a s1 IH]; intros [|b s2] H; cbn [escape_each] in H.
  - reflexivity.
  - exfalso.
    destruct (escape_char_cases b) as [[_ E]|[[_ E]|[[_ E]|[[_ E]|[_ E]]]]];
      rewrite E in H; discriminate.
  - exfalso.
    destruct (escape_char_cases a) as [[_ E]|[[_ E]|[[_ E]|[[_ E]|[_ E]]]]];
      rewrite E in H; discriminate.
  - destruct (escape_char_cases a) as [[Ma Ea] | [[-> Ea] | [[-> Ea] | [[-> Ea] | [-> Ea]]]]];
      destruct (escape_char_cases b) as [[Mb Eb] | [[-> Eb] | [[-> Eb] | [[-> Eb] | [-> Eb]]]]];
      rewrite Ea in H; try rewrite Eb in H; simpl in H;
      try (injection H as H; f_equal; now apply IH);
      try discriminate;
      try (injection H as -> _; discriminate Ma);
      try (injection H as <- _; discriminate Mb).
    injection H as -> H. f_equal. now apply IH.
Qed.

(** X2: [escapeHtml] loses nothing: two texts with the same escaped form
    are the same text. *)
Theorem escapeHtml_injective (s1 s2 : string) :
  escapeHtml s1 = escapeHtml s2 -> s1 = s2.
Proof.
  rewrite !escapeHtml_single_pass. apply escape_each_injective.
Qed.

Lemma escapeHtml_injective_witness :
  "a<b & c" = "a<b & c".
Proof.
  apply (escapeHtml_injective "a<b & c" "a<b & c"). reflexivity.
Defined.

Lemma escape_each_length (s : string) :
  String.length s <= String.length (escape_each s)
  /\ (has_markup s = true -> String.length s < String.length (escape_each s)).
Proof.
  induction s as [|a s [IH1 IH2]]; simpl; [split; [lia|discriminate]|].
  rewrite string_app_length.
  destruct (escape_char_cases a) as [[M E] | [[-> E] | [[-> E] | [[-> E] | [-> E]]]]];
    rewrite E; simpl; try (split; [lia | intros _; lia]).
  rewrite M. simpl. split; [lia|]. intros H. apply IH2 in H. lia.
Qed.

(** X3: [escapeHtml] returns a text unchanged exactly when the text
    contains none of [&], [<], [>] and the double quote; every other
    character, the apostrophe included, is left as it is. *)
Theorem escapeHtml_fixed_points (s : string) :
  escapeHtml s = s <-> has_markup s = false.
Proof.
  rewrite escapeHtml_single_pass. split.
  - intros H. destruct (has_markup s) eqn:Hm; [|reflexivity].
    destruct (escape_each_length s) as [_ Hlt]. specialize (Hlt Hm).
    rewrite H in Hlt. lia.
  - induction s as [|a s IH]; simpl; [reflexivity|].
    intros H. apply orb_false_iff in H. destruct H as [Ha Hs].
    destruct (escape_char_cases a) as [[M E] | [[-> E] | [[-> E] | [[-> E] | [-> E]]]]];
      try discriminate Ha.
    rewrite E. simpl. now rewrite IH.
Qed.

(* ================================================================== *)
(** ** Further properties: the normalizer *)

Lemma coerceAnalysis_no_field (rt : Runtime) (parsed : JsValue) :
  carries_no_field parsed ->
  coerceAnalysis rt parsed = Some DEFAULT_ANALYSIS \/ coerceAnalysis rt parsed = None.
Proof.
  intros H. unfold coerceAnalysis.
  destruct (H "category") as [-> | ->]; [simpl; tauto | | now right]. simpl.
  destruct (H "sentiment") as [-> | ->]; [simpl; tauto | | now right].
  destruct (H "urgency") as [-> | ->]; [simpl; tauto | | now right]. simpl.
  destruct (H "suggestedTeam") as [-> | ->]; [simpl; tauto | | now right].
  destruct (H "keywords") as [-> | ->]; [simpl; tauto | | now right].
  left. reflexivity.
Qed.

(** X4: [analyzeFeedback] returns exactly the default classification
    (Other, Neutral, 5, product, no keywords) when the inference call
    rejects, when its answer holds no text, when the text does not parse,
    and also when it parses to a value that defines none of the five
    fields (a number, an array, an empty object, null). *)
Theorem analyzeFeedback_defaults (rt : Runtime) (env : Env) (text : string) :
  match AI_classify env text with
  | None => True
  | Some response =>
      match rawOf response with
      | None => True
      | Some raw =>
          match JSON_parse rt (extractJson rt raw) with
          | None => True
          | Some parsed => carries_no_field parsed
          end
      end
  end ->
  analyzeFeedback rt env text = DEFAULT_ANALYSIS.
Proof.
  unfold analyzeFeedback, analyzeResponse.
  destruct (AI_classify env text) as [response|]; [|reflexivity].
  destruct (rawOf response) as [raw|]; [|reflexivity].
  destruct (JSON_parse rt (extractJson rt raw)) as [parsed|]; [|reflexivity].
  intros H. destruct (coerceAnalysis_no_field rt H) as [-> | ->]; reflexivity.
Qed.

(** An empty object wrapped in prose gives the default. *)
Lemma analyzeFeedback_defaults_witness :
  analyzeFeedback Instances.sample_runtime Instances.chatty_env "Love the app"
  = DEFAULT_ANALYSIS.
Proof.
  apply analyzeFeedback_defaults. simpl.
  intros name Hin. left. reflexivity.
Defined.

Lemma js_or_truthy (v d : JsValue) : truthy d = true -> truthy (js_or v d) = true.
Proof. intros H. unfold js_or. destruct (truthy v) eqn:Hv; assumption. Qed.

(** X5: the sentiment and the suggested team of every result of
    [analyzeFeedback] are truthy: never undefined, null, false, zero or the
    empty string. *)
Theorem analyzeFeedback_sentiment_team_truthy (rt : Runtime) (env : Env)
    (text : string) :
  truthy (sentiment (analyzeFeedback rt env text)) = true
  /\ truthy (suggestedTeam (analyzeFeedback rt env text)) = true.
Proof.
  unfold analyzeFeedback.
  destruct (analyzeResponse rt (AI_classify env text)) as [a|] eqn:Ha;
    [|split; reflexivity].
  unfold analyzeResponse in Ha.
  destruct (AI_classify env text) as [resp|]; [|discriminate].
  destruct (rawOf resp) as [raw|]; [|discriminate].
  destruct (JSON_parse rt (extractJson rt raw)) as [parsed|]; [|discriminate].
  apply coerceAnalysis_fields in Ha.
  destruct Ha as (c & cat & s & u & n & t & k & _ & _ & _ & _ & _ & _ & _ & _ & Hs & _ & Ht & _).
  rewrite Hs, Ht. split; apply js_or_truthy; reflexivity.
Qed.

Lemma indexOf_first (c : ascii) (s : string) (i : nat) :
  indexOf c s = Some i ->
  String.get i s = Some c /\ forall k, k < i -> String.get k s <> Some c.
Proof.
  revert i. induction s as [|a s IH]; intros i H; simpl in H; [discriminate|].
  destruct (Ascii.eqb a c) eqn:Hac.
  - injection H as <-. apply Ascii.eqb_eq in Hac. subst. split; [reflexivity|].
    intros k Hk. lia.
  - destruct (indexOf c s) as [j|]; [|discriminate]. injection H as <-.
    destruct (IH j eq_refl) as [Hget Hbefore]. split; [exact Hget|].
    intros [|k] Hk; simpl.
    + intros E. injection E as ->. rewrite Ascii.eqb_refl in Hac. discriminate.
    + apply Hbefore. lia.
Qed.

Lemma lastIndexOf_last (c : ascii) (s : string) (j : nat) :
  lastIndexOf c s = Some j ->
  String.get j s = Some c /\ j < String.length s
  /\ forall k, j < k -> String.get k s <> Some c.
Proof.
  revert j. induction s as [|a s IH]; intros j H; simpl in H; [discriminate|].
  destruct (lastIndexOf c s) as [i|] eqn:Hl.
  - injection H as <-. destruct (IH i eq_refl) as (Hget & Hlen & Hafter).
    split; [exact Hget|]. split; [simpl; lia|].
    intros [|k] Hk; [lia|]. simpl. apply Hafter. lia.
  - destruct (Ascii.eqb a c) eqn:Hac; [|discriminate]. injection H as <-.
    apply Ascii.eqb_eq in Hac. subst. split; [reflexivity|]. split; [simpl; lia|].
    intros [|k] Hk; [lia|]. simpl.
    clear IH Hk. revert k. induction s as [|b s IHs]; intros k; [now destruct k|].
    simpl in Hl. destruct (lastIndexOf c s) as [i|] eqn:Hl'; [discriminate|].
    destruct (Ascii.eqb b c) eqn:Hbc; [discriminate|].
    destruct k as [|k]; simpl.
    + intros E. injection E as ->. rewrite Ascii.eqb_refl in Hbc. discriminate.
    + now apply IHs.
Qed.

Lemma substring_zero (s : string) (n : nat) : substring n 0 s = EmptyString.
Proof.
  revert n. induction s as [|a s IH]; intros [|n]; simpl; try reflexivity.
  apply IH.
Qed.

Lemma substring_length (s : string) (n m : nat) :
  n + m <= String.length s -> String.length (substring n m s) = m.
Proof.
  revert n m. induction s as [|a s IH]; intros n m H; simpl in H.
  - assert (n = 0) by lia. assert (m = 0) by lia. subst. reflexivity.
  - destruct n as [|n]; simpl.
    + destruct m as [|m]; simpl; [reflexivity|]. f_equal. apply (IH 0 m). lia.
    + apply IH. lia.
Qed.

(** X6: the slice of [extractJson].  When the stripped text has an
    opening brace at or before its last closing brace, the result is the
    span from the first opening brace to the last closing brace: it starts
    with the one, ends with the other and copies the text in between.
    When the last closing brace comes first, the result is empty; when a
    brace of either kind is missing, the text is passed on whole. *)
Theorem extractJson_slice (rt : Runtime) (raw : string) :
  match indexOf "{"%char (stripped rt raw), lastIndexOf "}"%char (stripped rt raw) with
  | Some i, Some j =>
      if (i <=? j)%nat
      then String.length (extractJson rt raw) = j + 1 - i
           /\ String.get 0 (extractJson rt raw) = Some "{"%char
           /\ String.get (j - i) (extractJson rt raw) = Some "}"%char
           /\ forall k, k <= j - i ->
                String.get k (extractJson rt raw) = String.get (i + k) (stripped rt raw)
      else extractJson rt raw = EmptyString
  | _, _ => extractJson rt raw = stripped rt raw
  end.
Proof.
  unfold extractJson. fold (stripped rt raw). set (t := stripped rt raw).
  destruct (indexOf "{"%char t) as [i|] eqn:Hi; [|reflexivity].
  destruct (lastIndexOf "}"%char t) as [j|] eqn:Hj; [|reflexivity].
  apply indexOf_first in Hi. destruct Hi as [Hgi _].
  apply lastIndexOf_last in Hj. destruct Hj as (Hgj & Hlen & _).
  unfold slice. destruct (i <=? j)%nat eqn:Hij.
  - apply Nat.leb_le in Hij.
    assert (Hcopy : forall k, k <= j - i ->
              String.get k (substring i (j + 1 - i) t) = String.get (i + k) t).
    { intros k Hk. rewrite substring_correct1 by lia. f_equal. lia. }
    split; [apply substring_length; lia|].
    split; [rewrite Hcopy by lia; now rewrite Nat.add_0_r|].
    split; [|exact Hcopy].
    rewrite Hcopy by lia. replace (i + (j - i)) with j by lia. exact Hgj.
  - apply Nat.leb_gt in Hij. replace (j + 1 - i) with 0 by lia.
    apply substring_zero.
Qed.

(* ================================================================== *)
(** ** Further properties: indexing *)

Lemma substring_prefix_length (s : string) (m : nat) :
  String.length (substring 0 m s) <= m.
Proof.
  revert m. induction s as [|a s IH]; intros [|m]; simpl; try lia.
  specialize (IH m). lia.
Qed.

Lemma filter_in_filter_out {A} (p : A -> bool) (l : list A) :
  filter p (filter (fun x => negb (p x)) l) = [].
Proof.
  induction l as [|x l IH]; simpl; [reflexivity|].
  destruct (p x) eqn:Hp; simpl; [exact IH|]. now rewrite Hp.
Qed.

(** X7: [indexFeedback] never throws and never touches the records.  It
    leaves every index entry of another id in place, and either leaves the
    index as it was (the embedding or the upsert failed) or holds exactly
    one entry for this id afterwards, accepted by the store, embedded from
    the text and carrying at most its first 300 characters. *)
Theorem indexFeedback_effect (rt : Runtime) (env : Env) (rid : Z)
    (text cat : string) (sent : JsValue) (urg : number) (w : World) :
  exists w',
    indexFeedback rt env rid text cat sent urg w = Returned tt w'
    /\ feedback w' = feedback w
    /\ (forall x, ve_id x <> NumberToString rt (Fin (inject_Z rid)) ->
                  (In x (vectors w') <-> In x (vectors w)))
    /\ (vectors w' = vectors w
        \/ exists e,
            filter (fun x => ve_id x =? NumberToString rt (Fin (inject_Z rid)))
                   (vectors w') = [e]
            /\ VECTORIZE_upsert_ok env e = true
            /\ AI_embed env text = Some (ve_values e)
            /\ ve_text e = substring 0 300 text
            /\ String.length (ve_text e) <= 300
            /\ ve_category e = cat /\ ve_sentiment e = sent /\ ve_urgency e = urg).
Proof.
  unfold indexFeedback, generateEmbedding.
  destruct (AI_embed env text) as [embedding|] eqn:He.
  - match goal with |- context [VECTORIZE_upsert_ok env ?x] =>
      set (entry := x); destruct (VECTORIZE_upsert_ok env entry) eqn:Hu end.
    + eexists. split; [reflexivity|]. split; [reflexivity|]. simpl. split.
      * intros x Hx. unfold upsert. simpl. split.
        -- intros [<-|Hin]; [now elim Hx|]. apply filter_In in Hin. tauto.
        -- intros Hin. right. apply filter_In. split; [assumption|].
           apply negb_true_iff. now apply String.eqb_neq.
      * right. exists entry. unfold upsert. simpl. rewrite String.eqb_refl.
        split; [f_equal; apply (filter_in_filter_out
                  (fun x => ve_id x =? NumberToString rt (Fin (inject_Z rid))))|].
        repeat split; try assumption. apply substring_prefix_length.
    + eexists. split; [reflexivity|]. repeat split; tauto.
  - eexists. split; [reflexivity|]. repeat split; tauto.
Qed.

Lemma upsert_ids_unique (e : VectorEntry) (index : list VectorEntry) :
  NoDup (map ve_id index) -> NoDup (map ve_id (upsert e index)).
Proof.
  intros H. unfold upsert. simpl. constructor.
  - intros Hin. apply in_map_iff in Hin. destruct Hin as (x & Hx & Hin).
    apply filter_In in Hin. destruct Hin as [_ Hneq].
    apply negb_true_iff, String.eqb_neq in Hneq. contradiction.
  - induction index as [|x index IH]; simpl; [constructor|].
    inversion H as [|? ? Hnotin Hrest]; subst.
    destruct (negb (ve_id x =? ve_id e)); simpl; [|now apply IH].
    constructor; [|now apply IH].
    intros Hin. apply Hnotin. apply in_map_iff in Hin.
    destruct Hin as (y & Hy & Hin). apply filter_In in Hin.
    apply in_map_iff. exists y. tauto.
Qed.

Lemma indexFeedback_world (rt : Runtime) (env : Env) (rid : Z)
    (text cat : string) (sent : JsValue) (urg : number) (w : World) :
  world_after (indexFeedback rt env rid text cat sent urg w) = w
  \/ exists e,
       world_after (indexFeedback rt env rid text cat sent urg w)
       = {| feedback := feedback w; vectors := upsert e (vectors w) |}
       /\ ve_id e = NumberToString rt (Fin (inject_Z rid))
       /\ ve_text e = substring 0 300 text
       /\ ve_category e = cat /\ ve_sentiment e = sent /\ ve_urgency e = urg.
Proof.
  unfold indexFeedback. destruct (generateEmbedding env text) as [embedding|].
  - match goal with |- context [VECTORIZE_upsert_ok env ?x] =>
      set (entry := x); destruct (VECTORIZE_upsert_ok env entry) end.
    + right. exists entry. simpl. repeat split.
    + now left.
  - now left.
Qed.

(* ================================================================== *)
(** ** Further properties: ingestion *)

Lemma world_after_ingest_items (rt : Runtime) (env : Env)
    (items : list Item.MockFeedbackItem) (w : World) :
  world_after (ingest_items rt env items w)
  = world_after (ingest_loop rt env items 0 w).
Proof.
  unfold ingest_items, bind, ret.
  now destruct (ingest_loop rt env items 0 w).
Qed.

(** A property of the stores that each insert and each indexing keeps is
    kept by the loop, however it ends. *)
Lemma ingest_loop_invariant (rt : Runtime) (env : Env) (P : World -> Prop)
    (items : list Item.MockFeedbackItem) :
  (forall w item,
      In item items -> P w ->
      find (has_key (Item.source item) (Item.id item)) (feedback w) = None ->
      P {| feedback :=
             (feedback w ++ [new_row (DB_next_rowid env (feedback w)) item
                               (analyzeFeedback rt env (Item.text item))])%list;
           vectors := vectors w |}) ->
  (forall w r,
      P w -> In r (feedback w) ->
      P (world_after
           (indexFeedback rt env (D1.id r) (D1.raw_text r) (D1.category r)
              (D1.sentiment r) (D1.urgency_score r) w))) ->
  forall processed w,
    P w -> P (world_after (ingest_loop rt env items processed w)).
Proof.
  intros Hins Hidx. induction items as [|item rest IH]; intros processed w Hw.
  - exact Hw.
  - assert (IH' : forall processed w,
               P w -> P (world_after (ingest_loop rt env rest processed w))).
    { apply IH. intros w0 i Hi. apply Hins. now right. }
    simpl. unfold bind at 1. unfold db_read.
    destruct (DB_fault env (SelectIdByKey (Item.source item) (Item.id item)));
      [exact Hw|].
    destruct (find (has_key (Item.source item) (Item.id item)) (feedback w))
      as [r|] eqn:Hf; [now apply IH'|].
    unfold bind at 1. unfold db_write.
    destruct (DB_fault env (insert_stmt item (analyzeFeedback rt env (Item.text item))));
      [exact Hw|].
    set (row := new_row (DB_next_rowid env (feedback w)) item
                  (analyzeFeedback rt env (Item.text item))).
    set (w1 := {| feedback := (feedback w ++ [row])%list; vectors := vectors w |}).
    assert (Hw1 : P w1) by (apply Hins; [now left | assumption | assumption]).
    unfold bind at 1.
    destruct (Z.eqb (DB_next_rowid env (feedback w)) 0).
    + simpl. now apply IH'.
    + assert (Hrow : In row (feedback w1)).
      { simpl. apply in_or_app. right. now left. }
      pose proof (Hidx w1 row Hw1 Hrow) as Hw2. simpl in Hw2.
      destruct (indexFeedback_returns rt env (DB_next_rowid env (feedback w))
                  (Item.text item) (category (analyzeFeedback rt env (Item.text item)))
                  (sentiment (analyzeFeedback rt env (Item.text item)))
                  (urgency (analyzeFeedback rt env (Item.text item))) w1)
        as (w2 & Hrun & _).
      rewrite Hrun in Hw2 |- *. simpl in Hw2. now apply IH'.
Qed.

Lemma indexFeedback_keeps_feedback (rt : Runtime) (env : Env) (rid : Z)
    (text cat : string) (sent : JsValue) (urg : number) (w : World) :
  feedback (world_after (indexFeedback rt env rid text cat sent urg w)) = feedback w.
Proof.
  destruct (indexFeedback_returns rt env rid text cat sent urg w) as (w' & -> & H).
  exact H.
Qed.

Lemma find_none_key_fresh (src src_id : string) (rows : list D1.Row) :
  find (has_key src src_id) rows = None -> ~ In (src, src_id) (map row_key rows).
Proof.
  intros Hf Hin. apply in_map_iff in Hin. destruct Hin as (r & Hk & Hr).
  apply find_none_iff with (r := r) in Hf; [|assumption].
  unfold row_key in Hk. injection Hk as Hs Hi.
  assert (has_key src src_id r = true) by (apply has_key_true; now split).
  congruence.
Qed.

(** X8: however a run of the ingestion loop ends (returned or thrown),
    it keeps the records it found, in place and unchanged, and it keeps
    the keys unique: no two records share (source, source id) afterwards
    if none did before, even when the batch repeats a key. *)
Theorem ingest_keeps_keys_unique (rt : Runtime) (env : Env)
    (items : list Item.MockFeedbackItem) (w : World) :
  keys_unique w ->
  keys_unique (world_after (ingest_items rt env items w))
  /\ exists added,
       feedback (world_after (ingest_items rt env items w))
       = (feedback w ++ added)%list.
Proof.
  intros Hu. rewrite world_after_ingest_items.
  apply (@ingest_loop_invariant rt env
           (fun w' => keys_unique w'
                      /\ exists added, feedback w' = (feedback w ++ added)%list)
           items).
  - intros w0 item _ [Hk (added & Ha)] Hf. split.
    + unfold keys_unique in *. simpl. rewrite map_app. simpl.
      apply NoDup_app; [assumption | constructor; [intros []|constructor] |].
      intros k Hin [<-|[]]. now apply (find_none_key_fresh _ _ _ Hf).
    + simpl. exists (added ++ [new_row (DB_next_rowid env (feedback w0)) item
                                 (analyzeFeedback rt env (Item.text item))])%list.
      now rewrite Ha, app_assoc.
  - intros w0 r [Hk Ha] _. unfold keys_unique.
    now rewrite indexFeedback_keeps_feedback.
  - split; [exact Hu|]. exists []. now rewrite app_nil_r.
Qed.

(** The mock batch twice over into empty stores: 29 records, keys unique. *)
Lemma ingest_keeps_keys_unique_witness :
  keys_unique
    (world_after
       (ingest_items Instances.strict_runtime Instances.offline_env
          (MOCK_FEEDBACK ++ MOCK_FEEDBACK) Instances.empty_world))
  /\ List.length
       (feedback
          (world_after
             (ingest_items Instances.strict_runtime Instances.offline_env
                (MOCK_FEEDBACK ++ MOCK_FEEDBACK) Instances.empty_world))) = 29.
Proof.
  split; [|vm_compute; reflexivity].
  apply (@ingest_keeps_keys_unique Instances.strict_runtime Instances.offline_env
           (MOCK_FEEDBACK ++ MOCK_FEEDBACK) Instances.empty_world).
  constructor.
Defined.

Lemma analyzeFeedback_urgency_in_range (rt : Runtime) (env : Env) (text : string) :
  urgency_in_range (urgency (analyzeFeedback rt env text)).
Proof.
  unfold urgency_in_range.
  destruct (analyzeFeedback_urgency_cases rt env text) as [H|[n H]]; rewrite H.
  - exists 5%Q. repeat split; discriminate.
  - apply clamp_urgency_range.
Qed.

(** X9: however a run of the ingestion loop ends, every record it leaves
    is a record that was there before or was written for an item of the
    batch: raw text, source, source id and author of the item, status
    new, no notes, the classification of the item's text and an urgency
    between 1 and 10. *)
Theorem ingest_writes_new_records (rt : Runtime) (env : Env)
    (items : list Item.MockFeedbackItem) (w : World) :
  Forall (fun r => In r (feedback w) \/ ingested_from rt env items r)
         (feedback (world_after (ingest_items rt env items w))).
Proof.
  rewrite world_after_ingest_items.
  apply (@ingest_loop_invariant rt env
           (fun w' => Forall (fun r => In r (feedback w) \/ ingested_from rt env items r)
                             (feedback w'))
           items).
  - intros w0 item Hin H _. simpl. apply Forall_app. split; [exact H|].
    constructor; [|constructor]. right. exists item. simpl.
    repeat split; try assumption. apply analyzeFeedback_urgency_in_range.
  - intros w0 r H _. now rewrite indexFeedback_keeps_feedback.
  - apply Forall_forall. intros r Hr. now left.
Qed.

(** X10: however a run of the ingestion loop ends, the index keeps one
    entry per id, and every index entry still stands for a stored record
    (the text of its id, the first 300 characters of its raw text, its
    classification), if that was so before the run. *)
Theorem ingest_keeps_index_sound (rt : Runtime) (env : Env)
    (items : list Item.MockFeedbackItem) (w : World) :
  index_ids_unique w ->
  (forall e, In e (vectors w) -> exists r, In r (feedback w) /\ indexes_row rt e r) ->
  index_ids_unique (world_after (ingest_items rt env items w))
  /\ forall e, In e (vectors (world_after (ingest_items rt env items w))) ->
       exists r, In r (feedback (world_after (ingest_items rt env items w)))
                 /\ indexes_row rt e r.
Proof.
  intros Hu Hs. rewrite world_after_ingest_items.
  apply (@ingest_loop_invariant rt env
           (fun w' => index_ids_unique w'
                      /\ forall e, In e (vectors w') ->
                           exists r, In r (feedback w') /\ indexes_row rt e r)
           items).
  - intros w0 item _ [Hk Hr] _. split; [exact Hk|]. simpl.
    intros e He. destruct (Hr e He) as (r & Hin & Hi). exists r.
    split; [apply in_or_app; now left | exact Hi].
  - intros w0 r [Hk Hr] Hin.
    destruct (indexFeedback_world rt env (D1.id r) (D1.raw_text r) (D1.category r)
                (D1.sentiment r) (D1.urgency_score r) w0)
      as [-> | (e & -> & Hid & Htext & Hc & Hse & Hur)]; [now split|].
    split.
    + unfold index_ids_unique. simpl. now apply upsert_ids_unique.
    + simpl. intros x [<-|Hx].
      * exists r. split; [assumption|]. unfold indexes_row. tauto.
      * apply filter_In in Hx. now apply Hr.
  - now split.
Qed.

(** Ingesting the mock batch with a working embedding model and vector
    store: 29 entries, one per record. *)
Lemma ingest_keeps_index_sound_witness :
  index_ids_unique
    (world_after
       (ingest Instances.sample_runtime Instances.indexed_env Instances.empty_world))
  /\ List.length
       (vectors
          (world_after
             (ingest Instances.sample_runtime Instances.indexed_env
                Instances.empty_world))) = 29.
Proof.
  split; [|vm_compute; reflexivity].
  apply (@ingest_keeps_index_sound Instances.sample_runtime Instances.indexed_env
           MOCK_FEEDBACK Instances.empty_world).
  - constructor.
  - intros e [].
Defined.

Lemma nodup_remove_length (k : string * string) (l : list (string * string)) :
  In k l ->
  List.length (nodup key_eq_dec l)
  = S (List.length (nodup key_eq_dec (remove key_eq_dec k l))).
Proof.
  induction l as [|x l IH]; intros Hin; [destruct Hin|].
  cbn -[key_eq_dec in_dec]. destruct (key_eq_dec k x) as [->|Hneq].
  - destruct (in_dec key_eq_dec x l) as [Hx|Hx].
    + now apply IH.
    + cbn -[key_eq_dec in_dec]. now rewrite notin_remove.
  - assert (Hk : In k l) by (destruct Hin as [->|H]; [now elim Hneq | exact H]).
    cbn -[key_eq_dec in_dec].
    destruct (in_dec key_eq_dec x l) as [Hx|Hx];
      destruct (in_dec key_eq_dec x (remove key_eq_dec k l)) as [Hr|Hr].
    + now apply IH.
    + exfalso. apply Hr. apply in_in_remove; [congruence | assumption].
    + exfalso. apply in_remove in Hr. tauto.
    + cbn -[key_eq_dec in_dec]. f_equal. now apply IH.
Qed.

Lemma nodup_cons_length (k : string * string) (l : list (string * string)) :
  List.length (nodup key_eq_dec (k :: l))
  = S (List.length (nodup key_eq_dec (remove key_eq_dec k l))).
Proof.
  cbn -[key_eq_dec in_dec]. destruct (in_dec key_eq_dec k l) as [Hin|Hnot].
  - now apply nodup_remove_length.
  - cbn -[key_eq_dec in_dec]. now rewrite notin_remove.
Qed.

Lemma key_present_has_record (w : World) (item : Item.MockFeedbackItem) :
  key_present w (item_key item) = true <-> has_record w item.
Proof.
  unfold key_present, has_record. simpl. rewrite existsb_exists.
  split; intros (r & Hin & Hk); exists r; (split; [assumption|]);
    now apply has_key_true.
Qed.

Lemma key_present_after_insert (w w1 : World) (row : D1.Row) (k : string * string) :
  feedback w1 = (feedback w ++ [row])%list ->
  key_present w1 k = key_present w k || (if key_eq_dec k (row_key row) then true else false).
Proof.
  intros Hw. unfold key_present. rewrite Hw, existsb_app. simpl.
  rewrite orb_false_r. f_equal.
  destruct (key_eq_dec k (row_key row)) as [->|Hneq].
  - apply has_key_true. now split.
  - destruct (has_key (fst k) (snd k) row) eqn:Hk; [|reflexivity].
    apply has_key_true in Hk. exfalso. apply Hneq.
    destruct k as [a b]. unfold row_key. simpl in Hk. destruct Hk as [-> ->].
    reflexivity.
Qed.

Lemma filter_fresh_after_insert (w w1 : World) (row : D1.Row)
    (l : list (string * string)) :
  feedback w1 = (feedback w ++ [row])%list ->
  filter (fun k => negb (key_present w1 k)) l
  = remove key_eq_dec (row_key row) (filter (fun k => negb (key_present w k)) l).
Proof.
  intros Hw. induction l as [|k l IH]; [reflexivity|].
  cbn -[key_eq_dec key_present]. rewrite (@key_present_after_insert w w1 row k Hw).
  destruct (key_present w k); cbn -[key_eq_dec key_present]; [exact IH|].
  destruct (key_eq_dec k (row_key row)) as [->|Hneq]; cbn -[key_eq_dec key_present].
  - destruct (key_eq_dec (row_key row) (row_key row)); [exact IH|congruence].
  - destruct (key_eq_dec (row_key row) k); [congruence|]. now rewrite IH.
Qed.

(** The count of a returned run is the number of distinct keys of the
    batch that had no record. *)
Lemma ingest_loop_count (rt : Runtime) (env : Env)
    (items : list Item.MockFeedbackItem) :
  store_ok env ->
  forall processed w n w',
    ingest_loop rt env items processed w = Returned n w' ->
    n = processed + List.length (fresh_keys w items).
Proof.
  intros Hok. induction items as [|item rest IH]; intros processed w n w' Hrun.
  - simpl in Hrun. injection Hrun as <- _. unfold fresh_keys. simpl. lia.
  - destruct (has_record_dec w item) as [Hrec|Hnew].
    + rewrite ingest_loop_skip in Hrun by (try apply Hok; assumption).
      apply IH in Hrun. rewrite Hrun. unfold fresh_keys. simpl.
      apply key_present_has_record in Hrec. now rewrite Hrec.
    + destruct (@ingest_loop_create rt env item rest processed w (Hok _) (Hok _) Hnew)
        as (w1 & Hw1 & Hstep).
      rewrite Hstep in Hrun. apply IH in Hrun. rewrite Hrun.
      unfold fresh_keys. cbn [map filter].
      destruct (key_present w (item_key item)) eqn:Hp.
      { apply key_present_has_record in Hp. contradiction. }
      cbn [negb]. rewrite nodup_cons_length.
      rewrite (@filter_fresh_after_insert w w1 _ _ Hw1).
      unfold row_key, item_key. cbn -[key_eq_dec key_present nodup remove filter]. lia.
Qed.

(** X11: with a store that accepts its statements, the processed count
    of a run is the number of distinct (source, source id) keys of the
    batch that had no record when the run began: a key repeated in the
    batch is counted, and stored, once. *)
Theorem ingest_counts_distinct_new_keys (rt : Runtime) (env : Env)
    (items : list Item.MockFeedbackItem) (w : World) :
  store_ok env ->
  exists w',
    ingest_items rt env items w
    = Returned (json (BProcessed (List.length (fresh_keys w items))) 200) w'.
Proof.
  intros Hok.
  destruct (ingest_loop_total rt items Hok 0 w) as (n & w' & Hrun).
  exists w'. unfold ingest_items, bind. rewrite Hrun.
  apply (ingest_loop_count rt items Hok) in Hrun. simpl in Hrun. now subst.
Qed.

(** The mock batch written twice in a row counts 29. *)
Lemma ingest_counts_distinct_new_keys_witness :
  exists w',
    ingest_items Instances.strict_runtime Instances.offline_env
      (MOCK_FEEDBACK ++ MOCK_FEEDBACK) Instances.empty_world
    = Returned (json (BProcessed 29) 200) w'.
Proof.
  destruct (@ingest_counts_distinct_new_keys Instances.strict_runtime
              Instances.offline_env (MOCK_FEEDBACK ++ MOCK_FEEDBACK)
              Instances.empty_world) as (w' & Hrun).
  - intro s. reflexivity.
  - exists w'. exact Hrun.
Defined.

(** X12: with a store that accepts its statements, [clear] answers
    success and removes every record but leaves the vector index as it
    was; an ingestion after it stores one record per distinct key of the
    batch and counts them all. *)
Theorem clear_then_ingest_reloads (rt : Runtime) (env : Env)
    (items : list Item.MockFeedbackItem) (w : World) :
  store_ok env ->
  exists w1 w2,
    clear env w = Returned (json (BSuccessMessage "All data cleared") 200) w1
    /\ feedback w1 = []
    /\ vectors w1 = vectors w
    /\ ingest_items rt env items w1
       = Returned
           (json (BProcessed (List.length (nodup key_eq_dec (map item_key items)))) 200)
           w2
    /\ List.length (feedback w2)
       = List.length (nodup key_eq_dec (map item_key items))
    /\ forall item, In item items -> has_record w2 item.
Proof.
  intros Hok.
  set (w1 := {| feedback := []; vectors := vectors w |}).
  destruct (ingest_loop_total rt items Hok 0 w1) as (n & w2 & Hrun).
  exists w1, w2. split.
  { unfold clear, bind. rewrite db_write_ok by apply Hok. reflexivity. }
  split; [reflexivity|]. split; [reflexivity|].
  assert (Hn : n = List.length (nodup key_eq_dec (map item_key items))).
  { rewrite (ingest_loop_count rt items Hok _ _ Hrun). unfold fresh_keys.
    cbn -[key_eq_dec nodup]. f_equal. f_equal.
    induction (map item_key items) as [|k l IH]; [reflexivity|].
    cbn -[key_eq_dec]. now rewrite IH. }
  split; [unfold ingest_items, bind; now rewrite Hrun, Hn|].
  apply ingest_loop_returned in Hrun. destruct Hrun as (added & Hw & Hc & Hall).
  split; [|exact Hall]. rewrite Hw. simpl. lia.
Qed.

(** Clearing the ingested world and ingesting the mock batch again. *)
Lemma clear_then_ingest_reloads_witness :
  exists w1 w2,
    clear Instances.offline_env Instances.ingested_world
    = Returned (json (BSuccessMessage "All data cleared") 200) w1
    /\ ingest Instances.strict_runtime Instances.offline_env w1
       = Returned (json (BProcessed 29) 200) w2.
Proof.
  destruct (@clear_then_ingest_reloads Instances.strict_runtime Instances.offline_env
              MOCK_FEEDBACK Instances.ingested_world)
    as (w1 & w2 & Hc & _ & _ & Hi & _).
  - intro s. reflexivity.
  - exists w1, w2. split; [exact Hc | exact Hi].
Defined.

(* ================================================================== *)
(** ** Further properties: triage actions *)

Lemma updates_status_action (action : string) (st : Status) :
  In (action, st) status_actions -> updates action = OwnUpdate st.
Proof.
  intros [H|[H|[H|[]]]]; injection H as <- <-; reflexivity.
Qed.

(** X13: with a store that accepts the statement, acknowledge, resolve
    and reopen answer success and set the status of every record of the
    id to acknowledged, resolved and new, whatever it was: no transition is
    refused.  Nothing else changes in these records, and no other record
    changes. *)
Theorem action_sets_status_from_any_state (env : Env) (rid action : string)
    (st : Status) (note : JsValue) (w : World) :
  store_ok env ->
  In (action, st) status_actions ->
  exists w',
    action_handler env rid action note w = Returned (json BSuccess 200) w'
    /\ vectors w' = vectors w
    /\ Forall2 (fun old new =>
                  if id_is_text env rid old
                  then D1.status new = st /\ same_but_status old new
                  else new = old)
               (feedback w) (feedback w').
Proof.
  intros Hok Hact. apply updates_status_action in Hact.
  unfold action_handler, bind. rewrite Hact.
  rewrite db_write_ok by apply Hok. eexists. split; [reflexivity|].
  split; [reflexivity|]. simpl. apply update_where_Forall2. intros r _.
  destruct (id_is_text env rid r); [|reflexivity].
  split; [reflexivity|]. unfold same_but_status. simpl. repeat split.
Qed.

(** Reopening the acknowledged record 1 of the noted world. *)
Lemma action_sets_status_from_any_state_witness :
  exists w',
    action_handler Instances.offline_env "1" "reopen" JUndefined Instances.noted_world
    = Returned (json BSuccess 200) w'
    /\ map D1.status (feedback w') = [StNew].
Proof.
  destruct (@action_sets_status_from_any_state Instances.offline_env "1" "reopen"
              StNew JUndefined Instances.noted_world) as (w' & Hrun & _).
  - intro s. reflexivity.
  - simpl. tauto.
  - exists w'. split; [exact Hrun|].
    vm_compute in Hrun. injection Hrun as <-. reflexivity.
Defined.

(** X14: with a store that accepts the statement, add_note answers
    success and writes the given note on every record of the id, replacing
    what was there; status and everything else stay, and no other record
    changes. *)
Theorem add_note_sets_notes_only (env : Env) (rid : string) (note : JsValue)
    (w : World) :
  store_ok env ->
  exists w',
    action_handler env rid "add_note" note w = Returned (json BSuccess 200) w'
    /\ vectors w' = vectors w
    /\ Forall2 (fun old new =>
                  if id_is_text env rid old
                  then D1.notes new = note /\ same_but_notes old new
                  else new = old)
               (feedback w) (feedback w').
Proof.
  intros Hok. unfold action_handler, bind. simpl.
  rewrite db_write_ok by apply Hok. eexists. split; [reflexivity|].
  split; [reflexivity|]. simpl. apply update_where_Forall2. intros r _.
  destruct (id_is_text env rid r); [|reflexivity].
  split; [reflexivity|]. unfold same_but_notes. simpl. repeat split.
Qed.

Lemma add_note_sets_notes_only_witness :
  exists w',
    action_handler Instances.offline_env "1" "add_note" (JStr "refund issued")
      Instances.noted_world
    = Returned (json BSuccess 200) w'
    /\ map D1.notes (feedback w') = [JStr "refund issued"]
    /\ map D1.status (feedback w') = [StAcknowledged].
Proof.
  destruct (@add_note_sets_notes_only Instances.offline_env "1" (JStr "refund issued")
              Instances.noted_world) as (w' & Hrun & _).
  - intro s. reflexivity.
  - exists w'. split; [exact Hrun|].
    vm_compute in Hrun. injection Hrun as <-. split; reflexivity.
Defined.

(** X15: an action name that is none of acknowledge, resolve, reopen,
    add_note (nor a name every object inherits) is answered with success
    without any statement being sent: the answer and the stores are the
    same even with a store that rejects everything.  So is a bulk action
    other than acknowledge and resolve. *)
Theorem unknown_action_is_ignored (env : Env) (rid action cat : string)
    (note : JsValue) (w : World) :
  (updates action = NoUpdate -> action <> "add_note" ->
   action_handler env rid action note w = Returned (json BSuccess 200) w)
  /\ (action <> "acknowledge" -> action <> "resolve" ->
      bulk env action cat w = Returned (json BSuccess 200) w).
Proof.
  split.
  - intros Hu Hn. unfold action_handler, bind. rewrite Hu.
    apply String.eqb_neq in Hn. now rewrite Hn.
  - intros Ha Hr. unfold bulk, bind.
    apply String.eqb_neq in Ha. apply String.eqb_neq in Hr. now rewrite Ha, Hr.
Qed.

(** The action "archive" against a store that rejects every statement. *)
Lemma unknown_action_is_ignored_witness :
  action_handler Instances.down_env "1" "archive" JUndefined Instances.noted_world
  = Returned (json BSuccess 200) Instances.noted_world
  /\ bulk Instances.down_env "archive" "Billing" Instances.noted_world
     = Returned (json BSuccess 200) Instances.noted_world.
Proof.
  pose proof (@unknown_action_is_ignored Instances.down_env "1" "archive"
                "Billing" JUndefined Instances.noted_world) as [Ha Hb].
  split.
  - apply Ha; [reflexivity | discriminate].
  - apply Hb; discriminate.
Defined.

Lemma update_where_twice (cond : D1.Row -> bool) (set1 set2 : D1.Row -> D1.Row)
    (rows : list D1.Row) :
  (forall r, cond (set1 r) = cond r) ->
  update_where cond set2 (update_where cond set1 rows)
  = update_where cond (fun r => set2 (set1 r)) rows.
Proof.
  intros Hc. unfold update_where. rewrite map_map. apply map_ext. intros r.
  destruct (cond r) eqn:Hr; [now rewrite Hc, Hr | now rewrite Hr].
Qed.

Lemma action_status_world (env : Env) (rid action : string) (st : Status)
    (note : JsValue) (w : World) :
  store_ok env ->
  In (action, st) status_actions ->
  world_after (action_handler env rid action note w)
  = {| feedback := update_where (id_is_text env rid) (set_status st) (feedback w);
       vectors := vectors w |}.
Proof.
  intros Hok Hact. apply updates_status_action in Hact.
  unfold action_handler, bind. rewrite Hact.
  now rewrite db_write_ok by apply Hok.
Qed.

(** X16: of two status actions on the same id the last one wins: with a
    store that accepts the statements, running one and then another leaves
    the stores exactly as running the second alone.  In particular every
    status action is idempotent, and reopen undoes resolve's status. *)
Theorem last_status_action_wins (env : Env) (rid a1 a2 : string) (s1 s2 : Status)
    (n1 n2 : JsValue) (w : World) :
  store_ok env ->
  In (a1, s1) status_actions ->
  In (a2, s2) status_actions ->
  world_after (action_handler env rid a2 n2
                 (world_after (action_handler env rid a1 n1 w)))
  = world_after (action_handler env rid a2 n2 w).
Proof.
  intros Hok H1 H2.
  rewrite (action_status_world rid n1 w Hok H1).
  rewrite !(action_status_world rid n2 _ Hok H2). simpl. f_equal.
  rewrite update_where_twice by reflexivity. reflexivity.
Qed.

Lemma last_status_action_wins_witness :
  world_after
    (action_handler Instances.offline_env "1" "reopen" JUndefined
       (world_after
          (action_handler Instances.offline_env "1" "resolve" JUndefined
             Instances.noted_world)))
  = world_after
      (action_handler Instances.offline_env "1" "reopen" JUndefined
         Instances.noted_world).
Proof.
  apply (@last_status_action_wins Instances.offline_env "1" "resolve" "reopen"
           StResolved StNew JUndefined JUndefined Instances.noted_world).
  - intro s. reflexivity.
  - simpl. tauto.
  - simpl. tauto.
Defined.

Lemma Forall2_same (P : D1.Row -> D1.Row -> Prop) (rows : list D1.Row) :
  (forall r, P r r) -> Forall2 P rows rows.
Proof. intros H. induction rows; constructor; auto. Qed.

(** X17: whatever the action name, the note, the store's answer and the
    outcome, the action handler and the bulk handler change nothing but
    [status] and [notes]: the records stay the same in number and order,
    and each keeps its id, text, category, sentiment, urgency, source,
    source id, author and assigned team; the vector index is untouched.
    An urgency raised by an escalation is therefore never lowered again. *)
Theorem actions_change_only_status_and_notes (env : Env) (rid action cat : string)
    (note : JsValue) (w : World) :
  (vectors (world_after (action_handler env rid action note w)) = vectors w
   /\ Forall2 same_but_triage (feedback w)
        (feedback (world_after (action_handler env rid action note w))))
  /\ (vectors (world_after (bulk env action cat w)) = vectors w
      /\ Forall2 same_but_triage (feedback w)
           (feedback (world_after (bulk env action cat w)))).
Proof.
  assert (Hrefl : forall r, same_but_triage r r) by (intro r; repeat split).
  assert (Hupd : forall cond set,
             (forall r, same_but_triage r (set r)) ->
             Forall2 same_but_triage (feedback w) (update_where cond set (feedback w))).
  { intros cond set Hset. apply update_where_Forall2. intros r _.
    destruct (cond r); auto. }
  assert (Hst : forall st r, same_but_triage r (set_status st r))
    by (intros st r; repeat split).
  assert (Hno : forall n r, same_but_triage r (set_notes n r))
    by (intros n r; repeat split).
  split.
  - unfold action_handler, bind.
    destruct (updates action) as [st| |].
    + unfold db_write. destruct (DB_fault env (UpdateStatus st rid)); simpl;
        (split; [reflexivity|]); [now apply Forall2_same | now apply Hupd].
    + unfold db_write. destruct (DB_fault env (PrepareInherited action rid)); simpl;
        (split; [reflexivity|]); now apply Forall2_same.
    + destruct (action =? "add_note").
      * unfold db_write. destruct (DB_fault env (UpdateNotes note rid)); simpl;
          (split; [reflexivity|]); [now apply Forall2_same | now apply Hupd].
      * simpl. split; [reflexivity | now apply Forall2_same].
  - unfold bulk, bind.
    destruct (action =? "acknowledge").
    + unfold db_write. destruct (DB_fault env (BulkAcknowledge cat)); simpl;
        (split; [reflexivity|]); [now apply Forall2_same | now apply Hupd].
    + destruct (action =? "resolve").
      * unfold db_write. destruct (DB_fault env (BulkResolve cat)); simpl;
          (split; [reflexivity|]); [now apply Forall2_same | now apply Hupd].
      * simpl. split; [reflexivity | now apply Forall2_same].
Qed.

Lemma update_where_idempotent (cond : D1.Row -> bool) (set : D1.Row -> D1.Row)
    (rows : list D1.Row) :
  (forall r, cond r = true ->
             (if cond (set r) then set (set r) else set r) = set r) ->
  update_where cond set (update_where cond set rows) = update_where cond set rows.
Proof.
  intros H. unfold update_where. rewrite map_map. apply map_ext. intros r.
  destruct (cond r) eqn:Hr; [now apply H | now rewrite Hr].
Qed.

Lemma bulk_world (env : Env) (action cat : string) (w : World) :
  store_ok env ->
  world_after (bulk env action cat w)
  = if action =? "acknowledge"
    then {| feedback :=
              update_where
                (fun r => (D1.category r =? cat) && Status_eqb (D1.status r) StNew)
                (set_status StAcknowledged) (feedback w);
            vectors := vectors w |}
    else if action =? "resolve"
    then {| feedback :=
              update_where (fun r => D1.category r =? cat) (set_status StResolved)
                (feedback w);
            vectors := vectors w |}
    else w.
Proof.
  intros Hok. unfold bulk, bind.
  destruct (action =? "acknowledge"); [now rewrite db_write_ok by apply Hok|].
  destruct (action =? "resolve"); [now rewrite db_write_ok by apply Hok|].
  reflexivity.
Qed.

(** X18: with a store that accepts the statements, a bulk action run
    twice leaves the stores as it does run once, and a bulk acknowledge
    after a bulk resolve of the same category changes nothing more. *)
Theorem bulk_is_idempotent (env : Env) (action cat : string) (w : World) :
  store_ok env ->
  world_after (bulk env action cat (world_after (bulk env action cat w)))
  = world_after (bulk env action cat w)
  /\ world_after (bulk env "acknowledge" cat (world_after (bulk env "resolve" cat w)))
     = world_after (bulk env "resolve" cat w).
Proof.
  intros Hok. split.
  - rewrite !bulk_world by assumption.
    destruct (action =? "acknowledge"); [|destruct (action =? "resolve")];
      simpl; [| |reflexivity]; f_equal; apply update_where_idempotent; intros r Hr.
    + simpl. now rewrite andb_false_r.
    + simpl. now rewrite Hr.
  - rewrite !bulk_world by assumption. simpl. f_equal.
    apply update_where_none. intros r Hr.
    unfold update_where in Hr. apply in_map_iff in Hr. destruct Hr as (r0 & <- & _).
    destruct (D1.category r0 =? cat) eqn:Hc; simpl.
    + now rewrite andb_false_r.
    + now rewrite Hc.
Qed.

Lemma bulk_is_idempotent_witness :
  world_after
    (bulk Instances.offline_env "resolve" "UX"
       (world_after (bulk Instances.offline_env "resolve" "UX" Instances.triage_world)))
  = world_after (bulk Instances.offline_env "resolve" "UX" Instances.triage_world).
Proof.
  apply (@bulk_is_idempotent Instances.offline_env "resolve" "UX"
           Instances.triage_world).
  intro s. reflexivity.
Defined.

Lemma filter_map_length {A} (p : A -> bool) (f : A -> A) (l : list A) :
  (forall x, p (f x) = p x) ->
  List.length (filter p (map f l)) = List.length (filter p l).
Proof.
  intros H. induction l as [|x l IH]; simpl; [reflexivity|].
  rewrite H. destruct (p x); simpl; now rewrite IH.
Qed.

Lemma filter_nil_iff {A} (p : A -> bool) (l : list A) :
  (forall x, In x l -> p x = false) -> filter p l = [].
Proof.
  induction l as [|x l IH]; intros H; simpl; [reflexivity|].
  rewrite (H x (or_introl eq_refl)). apply IH. intros y Hy. apply H. now right.
Qed.

(** X19: after a bulk acknowledge or a bulk resolve of a category that
    the store accepted, the insight of that category reports no new item
    and the same total as before: the bulk actions empty the "new" counter
    of the dashboard without losing a record. *)
Theorem bulk_empties_new_count (env : Env) (action cat : string) (w : World) :
  store_ok env ->
  action = "acknowledge" \/ action = "resolve" ->
  exists w' res,
    bulk env action cat w = Returned (json BSuccess 200) w'
    /\ getAggregatedInsights env w' = Returned res w'
    /\ forall i, In i res -> Insight.category i = cat ->
         Insight.newCount i = 0
         /\ Insight.total i
            = List.length (filter (fun r => D1.category r =? cat) (feedback w)).
Proof.
  intros Hok Hact.
  set (cond := fun r : D1.Row =>
                 if action =? "acknowledge"
                 then (D1.category r =? cat) && Status_eqb (D1.status r) StNew
                 else D1.category r =? cat).
  set (st := if action =? "acknowledge" then StAcknowledged else StResolved).
  set (w' := {| feedback := update_where cond (set_status st) (feedback w);
                vectors := vectors w |}).
  exists w', (map to_insight (select_insights env (feedback w'))).
  split.
  { unfold bulk, bind, w', cond, st.
    destruct Hact as [-> | ->]; simpl; now rewrite db_write_ok by apply Hok. }
  split.
  { unfold getAggregatedInsights, bind. now rewrite db_read_ok by apply Hok. }
  intros i Hi Hcat. apply in_map_iff in Hi. destruct Hi as (r & <- & Hr).
  apply select_insights_rows in Hr. simpl in Hcat. rewrite Hcat in Hr.
  simpl. rewrite Hr. simpl. unfold count_when. split.
  - rewrite filter_nil_iff; [reflexivity|]. intros x Hx.
    apply filter_In in Hx. destruct Hx as [Hx Hc].
    unfold update_where in Hx. apply in_map_iff in Hx. destruct Hx as (x0 & <- & _).
    unfold cond, st in *.
    destruct Hact as [-> | ->]; simpl in *.
    + destruct (D1.category x0 =? cat) eqn:Hc0; simpl in *.
      * destruct (Status_eqb (D1.status x0) StNew) eqn:Hs; simpl; [reflexivity|exact Hs].
      * congruence.
    + destruct (D1.category x0 =? cat) eqn:Hc0; simpl in *; [reflexivity|congruence].
  - unfold update_where. apply filter_map_length. intros x.
    now destruct (cond x).
Qed.

(** After a bulk acknowledge of UX in the triage world, UX has 0 new of 5. *)
Lemma bulk_empties_new_count_witness :
  exists w' res,
    bulk Instances.exact_env "acknowledge" "UX" Instances.triage_world
    = Returned (json BSuccess 200) w'
    /\ getAggregatedInsights Instances.exact_env w' = Returned res w'
    /\ map (fun i => (Insight.category i, Insight.newCount i, Insight.total i)) res
       = [("Bug", 5, 5); ("Billing", 2, 3); ("UX", 0, 5)].
Proof.
  destruct (@bulk_empties_new_count Instances.exact_env "acknowledge" "UX"
              Instances.triage_world) as (w' & res & Hb & Hi & _).
  - intro s. reflexivity.
  - now left.
  - exists w', res. split; [exact Hb|]. split; [exact Hi|].
    vm_compute in Hb. injection Hb as <-.
    vm_compute in Hi. injection Hi as <-. reflexivity.
Defined.

Lemma update_where_Forall (P : D1.Row -> Prop) (cond : D1.Row -> bool)
    (set : D1.Row -> D1.Row) (rows : list D1.Row) :
  (forall r, P r -> P (set r)) ->
  Forall P rows -> Forall P (update_where cond set rows).
Proof.
  intros Hset H. unfold update_where. apply Forall_forall. intros r Hr.
  apply in_map_iff in Hr. destruct Hr as (r0 & <- & Hin).
  rewrite Forall_forall in H. destruct (cond r0); auto.
Qed.

(** X20: every handler that writes keeps the stored urgencies between 1
    and 10, however it ends: ingestion (through the clamp of the
    normalizer), escalation (which writes 10), the single and bulk actions
    and the clearing of the table. *)
Theorem handlers_keep_urgency_in_range (rt : Runtime) (env : Env) (w : World)
    (items : list Item.MockFeedbackItem) (rid : number) (b : EscalateBody)
    (rid_text action cat : string) (note : JsValue) :
  urgencies_in_range w ->
  urgencies_in_range (world_after (ingest_items rt env items w))
  /\ urgencies_in_range (world_after (escalate env rid b w))
  /\ urgencies_in_range (world_after (action_handler env rid_text action note w))
  /\ urgencies_in_range (world_after (bulk env action cat w))
  /\ urgencies_in_range (world_after (clear env w)).
Proof.
  intros Hw. unfold urgencies_in_range in *.
  assert (Hst : forall st rows,
             Forall (fun r => urgency_in_range (D1.urgency_score r)) rows ->
             forall cond,
               Forall (fun r => urgency_in_range (D1.urgency_score r))
                      (update_where cond (set_status st) rows)).
  { intros st rows H cond. now apply update_where_Forall. }
  split; [|split; [|split; [|split]]].
  - rewrite world_after_ingest_items.
    apply (@ingest_loop_invariant rt env
             (fun w' => Forall (fun r => urgency_in_range (D1.urgency_score r))
                               (feedback w')) items); [| |exact Hw].
    + intros w0 item _ H _. simpl. apply Forall_app. split; [exact H|].
      constructor; [|constructor]. apply analyzeFeedback_urgency_in_range.
    + intros w0 r H _. now rewrite indexFeedback_keeps_feedback.
  - unfold escalate, bind, db_read.
    destruct (DB_fault env (SelectById rid)); [exact Hw|].
    destruct (find (id_is_number rid) (feedback w)) as [fb|]; [|exact Hw].
    unfold db_write.
    match goal with |- context [DB_fault env ?s] => destruct (DB_fault env s) end;
      [exact Hw|].
    simpl. apply update_where_Forall; [|exact Hw].
    intros r0 _. exists 10%Q. repeat split; discriminate.
  - unfold action_handler, bind.
    destruct (updates action) as [st| |].
    + unfold db_write. destruct (DB_fault env (UpdateStatus st rid_text)); simpl;
        [exact Hw | now apply Hst].
    + unfold db_write.
      destruct (DB_fault env (PrepareInherited action rid_text)); exact Hw.
    + destruct (action =? "add_note"); [|exact Hw].
      unfold db_write. destruct (DB_fault env (UpdateNotes note rid_text)); simpl;
        [exact Hw|]. now apply update_where_Forall.
  - unfold bulk, bind.
    destruct (action =? "acknowledge").
    + unfold db_write. destruct (DB_fault env (BulkAcknowledge cat)); simpl;
        [exact Hw | now apply Hst].
    + destruct (action =? "resolve"); [|exact Hw].
      unfold db_write. destruct (DB_fault env (BulkResolve cat)); simpl;
        [exact Hw | now apply Hst].
  - unfold clear, bind, db_write.
    destruct (DB_fault env DeleteAll); simpl; [exact Hw | constructor].
Qed.

Lemma handlers_keep_urgency_in_range_witness :
  urgencies_in_range
    (world_after
       (escalate Instances.offline_env (Fin 1)
          {| team := "billing"; escalate_notes := None |} Instances.noted_world))
  /\ urgencies_in_range
       (world_after
          (ingest Instances.strict_runtime Instances.offline_env Instances.noted_world)).
Proof.
  destruct (@handlers_keep_urgency_in_range Instances.strict_runtime
              Instances.offline_env Instances.noted_world MOCK_FEEDBACK (Fin 1)
              {| team := "billing"; escalate_notes := None |} "1" "resolve" "Billing"
              JUndefined) as (Hi & He & _).
  - constructor; [|constructor]. exists 3%Q. repeat split; discriminate.
  - split; [exact He | exact Hi].
Defined.

(* ================================================================== *)
(** ** Further properties: notification *)

(** X21: [sendSlackNotification] answers true only when a webhook is
    configured, the team is one of [TEAMS], and the webhook accepted a
    notice addressed to that team's channel, headed by the category,
    carrying the ticket id and at most the first 500 characters of the
    feedback text. *)
Theorem notification_delivered_only_to_known_team (env : Env) (teamId : string)
    (feedbackId : number) (feedbackText cat src auth : string) :
  sendSlackNotification env teamId feedbackId feedbackText cat src auth = true ->
  exists url team payload,
    SLACK_WEBHOOK_URL env = Some url /\ url <> ""
    /\ In team TEAMS /\ Team.id team = teamId
    /\ webhook_post env url payload = Some true
    /\ channel payload = Team.slackChannel team
    /\ header payload = "Escalation: " ++ cat
    /\ ticket payload = feedbackId
    /\ feedback_text payload = substring 0 500 feedbackText
    /\ String.length (feedback_text payload) <= 500.
Proof.
  unfold sendSlackNotification.
  destruct (SLACK_WEBHOOK_URL env) as [url|]; [|discriminate].
  destruct (url =? "") eqn:Hurl; [discriminate|].
  destruct (find (fun t => Team.id t =? teamId) TEAMS) as [team|] eqn:Hteam;
    [|discriminate].
  match goal with |- context [webhook_post env url ?p] =>
    set (payload := p); destruct (webhook_post env url payload) as [ok|] eqn:Hpost end;
    [|discriminate].
  intros ->. exists url, team, payload.
  apply find_some in Hteam. destruct Hteam as [Hin Hid].
  apply String.eqb_eq in Hid. apply String.eqb_neq in Hurl.
  repeat split; try assumption; try reflexivity.
  apply substring_prefix_length.
Qed.

Lemma notification_delivered_only_to_known_team_witness :
  exists url team payload,
    SLACK_WEBHOOK_URL Instances.notifying_env = Some url
    /\ Team.id team = "security"
    /\ channel payload = "#security-alerts".
Proof.
  destruct (@notification_delivered_only_to_known_team Instances.notifying_env
              "security" (Fin 2) "XSS vulnerability in profile page" "Security"
              "github" "security-bob" eq_refl)
    as (url & team & payload & Hu & _ & Hin & Hid & _ & Hc & _).
  exists url, team, payload. split; [exact Hu|]. split; [exact Hid|].
  rewrite Hc. simpl in Hin.
  destruct Hin as [<-|[<-|[<-|[<-|[<-|[]]]]]]; try discriminate Hid. reflexivity.
Defined.

(* ================================================================== *)
(** ** Further properties: the search handler *)

Lemma search_scores (env : Env) (w : World) (query : string) (topK : nat)
    (v : Vec.VectorSearchResult) :
  In v (searchSimilarFeedback env w query topK) -> at_least_half (Vec.score v).
Proof.
  unfold searchSimilarFeedback.
  destruct (generateEmbedding env query) as [e|]; [|intros []].
  destruct (VECTORIZE_query env (vectors w) e topK) as [res|]; [|intros []].
  intros H. apply in_map_iff in H. destruct H as (m & <- & Hm).
  apply filter_In in Hm. destruct Hm as [_ Hs]. simpl.
  now apply number_geb_half.
Qed.

Lemma similarity_of_percentage (reads : Reads) (s : number) :
  at_least_half s -> is_percentage (similarity_of reads s).
Proof.
  destruct s as [| | |q]; simpl; intros H; try contradiction.
  - now left.
  - right. now eexists.
Qed.

Lemma hit_of_percentage (rt : Runtime) (reads : Reads)
    (vrs : list Vec.VectorSearchResult) (item : D1.Row) :
  (forall v, In v vrs -> at_least_half (Vec.score v)) ->
  is_percentage (similarity (hit_of rt reads vrs item)).
Proof.
  intros H. unfold hit_of. simpl.
  destruct (find _ vrs) as [v|] eqn:Hf.
  - apply find_some in Hf. apply similarity_of_percentage. apply H. tauto.
  - right. now exists 0%Z.
Qed.

Lemma similarity_ge_trans (a b c : number) :
  similarity_ge a b -> similarity_ge b c -> similarity_ge a c.
Proof.
  destruct a as [| | |x], b as [| | |y], c as [| | |z]; simpl; try tauto.
  intros H1 H2. eapply Qle_trans; eassumption.
Qed.

Lemma difference_positive_ge (b a : number) :
  is_percentage a -> is_percentage b ->
  if difference_positive b a then similarity_ge b a else similarity_ge a b.
Proof.
  intros [->|[x ->]] [->|[y ->]]; simpl; try exact I.
  destruct (Qle_bool (inject_Z y) (inject_Z x)) eqn:H; simpl.
  - now apply Qle_bool_iff.
  - apply Qlt_le_weak. apply Qnot_le_lt. intros Hle.
    apply Qle_bool_iff in Hle. congruence.
Qed.

Lemma insert_hit_perm (x : SearchHit) (l : list SearchHit) :
  Permutation (insert_hit x l) (x :: l).
Proof.
  induction l as [|y rest IH]; simpl; [reflexivity|].
  destruct (difference_positive (similarity y) (similarity x)); [|reflexivity].
  rewrite IH. apply perm_swap.
Qed.

Lemma sort_hits_perm (l : list SearchHit) : Permutation (sort_hits l) l.
Proof.
  induction l as [|x rest IH]; [reflexivity|].
  unfold sort_hits in *. simpl. rewrite insert_hit_perm. now constructor.
Qed.

Lemma insert_hit_sorted (x : SearchHit) (l : list SearchHit) :
  is_percentage (similarity x) ->
  Forall (fun h => is_percentage (similarity h)) l ->
  StronglySorted (fun a b => similarity_ge (similarity a) (similarity b)) l ->
  StronglySorted (fun a b => similarity_ge (similarity a) (similarity b))
                 (insert_hit x l).
Proof.
  intros Hx. induction l as [|y rest IH]; intros Hv Hs; simpl.
  - constructor; constructor.
  - inversion Hv as [|? ? Hy Hrest]; subst.
    apply StronglySorted_inv in Hs. destruct Hs as [Hsr Hall].
    pose proof (difference_positive_ge Hx Hy) as Hd.
    destruct (difference_positive (similarity y) (similarity x)).
    + constructor; [now apply IH|].
      apply Forall_forall. intros z Hz.
      apply (Permutation_in _ (insert_hit_perm x rest)) in Hz.
      destruct Hz as [<-|Hz]; [exact Hd|].
      rewrite Forall_forall in Hall. now apply Hall.
    + constructor; [constructor; assumption|].
      constructor; [exact Hd|].
      eapply Forall_impl; [|exact Hall]. intros z Hz.
      eapply similarity_ge_trans; eassumption.
Qed.

Lemma sort_hits_sorted (l : list SearchHit) :
  Forall (fun h => is_percentage (similarity h)) l ->
  StronglySorted (fun a b => similarity_ge (similarity a) (similarity b))
                 (sort_hits l).
Proof.
  induction l as [|x rest IH]; intros Hv; unfold sort_hits in *; simpl.
  - constructor.
  - inversion Hv as [|? ? Hx Hrest]; subst.
    apply insert_hit_sorted; [assumption| |now apply IH].
    apply Forall_forall. intros h Hh.
    apply (Permutation_in _ (sort_hits_perm rest)) in Hh.
    rewrite Forall_forall in Hrest. now apply Hrest.
Qed.

(** X22: the answers of the search handler, none of which changes a
    store.  It answers 400 exactly when the query is missing or empty; it
    answers an empty result with the threshold 50 exactly when no candidate
    passed the threshold, and then without reading the records; it throws
    only when the store rejects the lookup of the candidates' records. *)
Theorem search_handler_answers (rt : Runtime) (env : Env) (reads : Reads)
    (query : option string) (w : World) :
  world_after (search_handler rt env reads query w) = w
  /\ match search_handler rt env reads query w with
     | Thrown _ =>
         exists q, query = Some q /\ q <> ""
           /\ searchSimilarFeedback env w q 20 <> []
           /\ read_fault reads
                (SelectByIds (map Vec.id (searchSimilarFeedback env w q 20))) = true
     | Returned resp _ =>
         match search_body resp with
         | SearchError e =>
             search_status resp = 400 /\ e = query_required
             /\ (query = None \/ query = Some "")
         | SearchEmpty _ t =>
             search_status resp = 200
             /\ (exists p, t = Fin p /\ (p == 50)%Q)
             /\ exists q, query = Some q /\ q <> ""
                  /\ searchSimilarFeedback env w q 20 = []
         | SearchResults _ =>
             search_status resp = 200
             /\ exists q, query = Some q /\ q <> ""
                  /\ searchSimilarFeedback env w q 20 <> []
                  /\ read_fault reads
                       (SelectByIds (map Vec.id (searchSimilarFeedback env w q 20)))
                     = false
         end
     end.
Proof.
  unfold search_handler.
  destruct query as [q|]; [|simpl; tauto].
  destruct (q =? "") eqn:Hq.
  { apply String.eqb_eq in Hq. subst. simpl. tauto. }
  apply String.eqb_neq in Hq.
  destruct (searchSimilarFeedback env w q 20) as [|v vs] eqn:Hs.
  - simpl. split; [reflexivity|]. split; [reflexivity|].
    split; [eexists; split; [reflexivity|reflexivity]|].
    exists q. repeat split; assumption.
  - unfold bind, db_query.
    destruct (read_fault reads (SelectByIds (map Vec.id (v :: vs)))) eqn:Hf; simpl.
    + split; [reflexivity|]. exists q. rewrite Hs.
      repeat split; try assumption. discriminate.
    + split; [reflexivity|]. split; [reflexivity|]. exists q. rewrite Hs.
      repeat split; try assumption. discriminate.
Qed.

(** X23: the results of a search come ranked: the list is sorted by
    similarity, highest first; it holds each stored record whose id is
    among the candidates' exactly once; and each similarity is a whole
    percentage (or infinite), never NaN. *)
Theorem search_results_ranked (rt : Runtime) (env : Env) (reads : Reads)
    (q : string) (w w' : World) (hits : list SearchHit) :
  search_handler rt env reads (Some q) w
  = Returned (search_json (SearchResults hits) 200) w' ->
  StronglySorted (fun a b => similarity_ge (similarity a) (similarity b)) hits
  /\ Permutation (map hit_row hits)
       (filter (id_in env (map Vec.id (searchSimilarFeedback env w q 20))) (feedback w))
  /\ Forall (fun h => is_percentage (similarity h) /\ In (hit_row h) (feedback w)) hits.
Proof.
  unfold search_handler.
  destruct (q =? ""); [discriminate|].
  destruct (searchSimilarFeedback env w q 20) as [|v vs] eqn:Hs; [discriminate|].
  unfold bind, db_query.
  destruct (read_fault reads (SelectByIds (map Vec.id (v :: vs)))); [discriminate|].
  simpl. intros H. injection H as <- _.
  set (items := filter (id_in env (map Vec.id (v :: vs))) (feedback w)).
  assert (Hscores : forall x, In x (v :: vs) -> at_least_half (Vec.score x)).
  { intros x Hx. rewrite <- Hs in Hx. now apply search_scores in Hx. }
  assert (Hvalid : Forall (fun h => is_percentage (similarity h))
                          (map (hit_of rt reads (v :: vs)) items)).
  { apply Forall_forall. intros h Hh. apply in_map_iff in Hh.
    destruct Hh as (item & <- & _). now apply hit_of_percentage. }
  split; [now apply sort_hits_sorted|]. split.
  - rewrite (Permutation_map hit_row (sort_hits_perm _)).
    rewrite map_map. simpl. now rewrite map_id.
  - apply Forall_forall. intros h Hh.
    apply (Permutation_in _ (sort_hits_perm _)) in Hh.
    split; [rewrite Forall_forall in Hvalid; now apply Hvalid|].
    apply in_map_iff in Hh. destruct Hh as (item & <- & Hitem). simpl.
    unfold items in Hitem. apply filter_In in Hitem. tauto.
Qed.

(** A search whose candidates are records 1 (score 0.9) and 2 (score 0.5):
    record 1 comes first, with 90, then record 2, with 50. *)
Lemma search_results_ranked_witness :
  StronglySorted (fun a b => similarity_ge (similarity a) (similarity b))
                 Instances.sample_hits
  /\ map (fun h => (D1.id (hit_row h), similarity h)) Instances.sample_hits
     = [(1%Z, Fin (inject_Z 90)); (2%Z, Fin (inject_Z 50))].
Proof.
  split; [|vm_compute; reflexivity].
  apply (@search_results_ranked Instances.sample_runtime Instances.indexed_env
           Instances.plain_reads "upload fails" Instances.triage_world
           Instances.triage_world Instances.sample_hits).
  vm_compute. reflexivity.
Defined.

(* ================================================================== *)
(** ** Further properties: aggregation *)

Lemma list_sum_perm (l l' : list nat) : Permutation l l' -> list_sum l = list_sum l'.
Proof. induction 1; simpl; lia. Qed.

Lemma list_sum_cons (x : nat) (l : list nat) : list_sum (x :: l) = x + list_sum l.
Proof. reflexivity. Qed.

Lemma group_count_cons (p : D1.Row -> bool) (r : D1.Row) (rows : list D1.Row)
    (c : string) :
  List.length (filter p (filter (fun r0 => D1.category r0 =? c) (r :: rows)))
  = (if D1.category r =? c then if p r then 1 else 0 else 0)
    + List.length (filter p (filter (fun r0 => D1.category r0 =? c) rows)).
Proof.
  cbn [filter]. destruct (D1.category r =? c); [|reflexivity].
  cbn [filter]. now destruct (p r).
Qed.

Lemma group_counts_cons (p : D1.Row -> bool) (r : D1.Row) (rows : list D1.Row)
    (cs : list string) :
  NoDup cs ->
  list_sum
    (map (fun c => List.length
                     (filter p (filter (fun r0 => D1.category r0 =? c) (r :: rows))))
         cs)
  = (if in_dec string_dec (D1.category r) cs then if p r then 1 else 0 else 0)
    + list_sum
        (map (fun c => List.length
                         (filter p (filter (fun r0 => D1.category r0 =? c) rows)))
             cs).
Proof.
  induction cs as [|c cs IHc]; intros Hnd; [reflexivity|].
  inversion Hnd as [|? ? Hnotin Hnd']; subst.
  rewrite !map_cons, !list_sum_cons, (IHc Hnd'), group_count_cons.
  destruct (D1.category r =? c) eqn:Hc.
  - apply String.eqb_eq in Hc. subst c.
    destruct (in_dec string_dec (D1.category r) (D1.category r :: cs))
      as [_|Hn]; [|exfalso; apply Hn; now left].
    destruct (in_dec string_dec (D1.category r) cs) as [Hin|_];
      [contradiction|]. lia.
  - apply String.eqb_neq in Hc.
    destruct (in_dec string_dec (D1.category r) (c :: cs)) as [Hin|Hn];
      destruct (in_dec string_dec (D1.category r) cs) as [Hin'|Hn'];
      try lia.
    + destruct Hin as [->|Hin]; [now elim Hc | contradiction].
    + exfalso. apply Hn. now right.
Qed.

(** Counting group by group is counting at once. *)
Lemma group_counts_add_up (p : D1.Row -> bool) (rows : list D1.Row)
    (cats : list string) :
  NoDup cats ->
  (forall r, In r rows -> In (D1.category r) cats) ->
  list_sum
    (map (fun c => List.length (filter p (filter (fun r => D1.category r =? c) rows)))
         cats)
  = List.length (filter p rows).
Proof.
  intros Hnd. induction rows as [|r rows IH]; intros Hall.
  - clear Hall. simpl. induction cats; simpl; [reflexivity|]. apply IHcats.
    now inversion Hnd.
  - rewrite (group_counts_cons p r rows Hnd).
    rewrite IH by (intros r0 Hr0; apply Hall; now right).
    destruct (in_dec string_dec (D1.category r) cats) as [_|Hn];
      [|exfalso; apply Hn, Hall; now left].
    cbn [filter]. destruct (p r); simpl; lia.
Qed.

Lemma filter_true {A} (l : list A) : filter (fun _ => true) l = l.
Proof. induction l as [|x l IH]; simpl; [reflexivity|]. now rewrite IH. Qed.

Lemma insights_sum (env : Env) (rows : list D1.Row) (p : D1.Row -> bool)
    (f : Sql.InsightRow -> nat) :
  (forall c, f (group_row env rows c)
             = List.length (filter p (filter (fun r => D1.category r =? c) rows))) ->
  list_sum (map f (select_insights env rows)) = List.length (filter p rows).
Proof.
  intros Hf. unfold select_insights.
  rewrite (list_sum_perm (Permutation_map f (order_by_perm _))).
  rewrite map_map. rewrite (map_ext _ _ Hf).
  apply group_counts_add_up; [apply NoDup_nodup|].
  intros r Hr. apply nodup_In. now apply in_map.
Qed.

(** X24: the numbers of the dashboard agree.  With the two reads
    accepted, the totals of the insights add up to the number of records
    and their new counts to the number of new records, which are the
    total and the new count of the header; and the header's new,
    escalated and resolved counts fall short of its total by exactly the
    number of acknowledged records, which the header does not show. *)
Theorem dashboard_numbers_add_up (env : Env) (reads : Reads) (w : World) :
  DB_fault env SelectInsights = false ->
  read_fault reads SelectStats = false ->
  exists stats res,
    dashboard_stats env reads w = Returned stats w
    /\ getAggregatedInsights env w = Returned res w
    /\ list_sum (map Insight.total res) = stats_total stats
    /\ stats_total stats = List.length (feedback w)
    /\ list_sum (map Insight.newCount res) = stats_new_count stats
    /\ stats_new_count stats + stats_escalated stats + stats_resolved stats
       + count_when (fun r => Status_eqb (D1.status r) StAcknowledged) (feedback w)
       = stats_total stats.
Proof.
  intros Hi Hs.
  exists (select_stats env (feedback w)),
         (map to_insight (select_insights env (feedback w))).
  split; [unfold dashboard_stats, db_query; now rewrite Hs|].
  split; [unfold getAggregatedInsights, bind; now rewrite db_read_ok|].
  split; [|split; [reflexivity|split]].
  - rewrite map_map.
    rewrite (@insights_sum env (feedback w) (fun _ => true)
               (fun x => Insight.total (to_insight x))).
    + simpl. now rewrite filter_true.
    + intros c. simpl. now rewrite filter_true.
  - rewrite map_map.
    apply (@insights_sum env (feedback w)
             (fun r => Status_eqb (D1.status r) StNew)
             (fun x => Insight.newCount (to_insight x))).
    intros c. reflexivity.
  - simpl. unfold count_when.
    induction (feedback w) as [|r rows IH]; [reflexivity|].
    simpl. destruct (D1.status r); simpl; lia.
Qed.

Lemma dashboard_numbers_add_up_witness :
  exists stats res,
    dashboard_stats Instances.exact_env Instances.plain_reads Instances.triage_world
    = Returned stats Instances.triage_world
    /\ getAggregatedInsights Instances.exact_env Instances.triage_world
       = Returned res Instances.triage_world
    /\ list_sum (map Insight.total res) = 13
    /\ stats_total stats = 13
    /\ stats_new_count stats = 12.
Proof.
  destruct (@dashboard_numbers_add_up Instances.exact_env Instances.plain_reads
              Instances.triage_world eq_refl eq_refl)
    as (stats & res & Hs & Hi & Ht & Hl & _).
  exists stats, res. split; [exact Hs|]. split; [exact Hi|].
  split; [now rewrite Ht, Hl|]. split; [exact Hl|].
  vm_compute in Hs. injection Hs as <-. reflexivity.
Defined.

Lemma is_text_true (v : JsValue) (literal : string) :
  is_text v literal = true <-> v = JStr literal.
Proof.
  destruct v; simpl; try (split; [discriminate|intros H; discriminate H]).
  rewrite String.eqb_eq. split; [now intros -> | now intros [= ->]].
Qed.

Lemma sentiment_counts (g : list D1.Row) :
  let pos := count_when (fun r => is_text (D1.sentiment r) "Positive") g in
  let neg := count_when (fun r => is_text (D1.sentiment r) "Negative") g in
  let neu := count_when (fun r => is_text (D1.sentiment r) "Neutral") g in
  pos + neg + neu <= List.length g
  /\ (pos + neg + neu = List.length g
      <-> Forall (fun r => counted_sentiment (D1.sentiment r)) g).
Proof.
  unfold count_when. induction g as [|r g [IHle IHeq]]; simpl.
  - split; [lia|]. split; [constructor | reflexivity].
  - destruct (is_text (D1.sentiment r) "Positive") eqn:Hp;
      destruct (is_text (D1.sentiment r) "Negative") eqn:Hn;
      destruct (is_text (D1.sentiment r) "Neutral") eqn:Hu;
      try (apply is_text_true in Hp); try (apply is_text_true in Hn);
      try (apply is_text_true in Hu);
      try (rewrite Hp in Hn; discriminate Hn);
      try (rewrite Hp in Hu; discriminate Hu);
      try (rewrite Hn in Hu; discriminate Hu);
      simpl; (split; [lia|]).
    + split.
      * intros H. constructor; [now left | apply IHeq; lia].
      * intros H. inversion H; subst. apply IHeq in H3. lia.
    + split.
      * intros H. constructor; [right; now left | apply IHeq; lia].
      * intros H. inversion H; subst. apply IHeq in H3. lia.
    + split.
      * intros H. constructor; [right; now right | apply IHeq; lia].
      * intros H. inversion H; subst. apply IHeq in H3. lia.
    + split; [intros H; lia|].
      intros H. inversion H as [|? ? Hc _]; subst. exfalso.
      destruct Hc as [Hc|[Hc|Hc]]; apply is_text_true in Hc; congruence.
Qed.

(** X25: in every insight the three sentiment counts add up to at most
    the total, and to the total exactly when every record of the category
    carries one of Positive, Negative, Neutral: a record with any other
    sentiment is counted in the total and in none of the three. *)
Theorem sentiment_breakdown_covers_counted (env : Env) (w : World) :
  DB_fault env SelectInsights = false ->
  exists res,
    getAggregatedInsights env w = Returned res w
    /\ Forall (fun i =>
                 let b := Insight.sentimentBreakdown i in
                 Insight.positive b + Insight.negative b + Insight.neutral b
                 <= Insight.total i
                 /\ (Insight.positive b + Insight.negative b + Insight.neutral b
                     = Insight.total i
                     <-> Forall (fun r => counted_sentiment (D1.sentiment r))
                                (records_of (Insight.category i) w)))
              res.
Proof.
  intros Hok. exists (map to_insight (select_insights env (feedback w))).
  split; [unfold getAggregatedInsights, bind; now rewrite db_read_ok|].
  apply Forall_forall. intros i Hi. apply in_map_iff in Hi.
  destruct Hi as (r & <- & Hr). apply select_insights_rows in Hr.
  simpl. rewrite Hr. simpl. apply sentiment_counts.
Qed.

Lemma split_comma_plain (x : string) :
  occurs ","%char x = false -> split_comma x = [x].
Proof.
  induction x as [|c x IH]; simpl; [reflexivity|].
  intros H. apply orb_false_iff in H. destruct H as [Hc Hx].
  rewrite Hc, (IH Hx). reflexivity.
Qed.

Lemma split_comma_app (x s : string) :
  occurs ","%char x = false ->
  split_comma (x ++ "," ++ s) = x :: split_comma s.
Proof.
  induction x as [|c x IH]; intros H; [reflexivity|].
  simpl in H. apply orb_false_iff in H. destruct H as [Hc Hx].
  cbn [append split_comma]. rewrite Hc.
  change (x ++ String ","%char s) with (x ++ "," ++ s). now rewrite (IH Hx).
Qed.

Lemma split_join_comma (l : list string) :
  l <> [] ->
  Forall (fun s => occurs ","%char s = false) l ->
  split_comma (join_comma l) = l.
Proof.
  induction l as [|x l IH]; intros Hne Hall; [congruence|].
  inversion Hall as [|? ? Hx Hl]; subst.
  destruct l as [|y l].
  - simpl. now apply split_comma_plain.
  - change (join_comma (x :: y :: l)) with (x ++ "," ++ join_comma (y :: l)).
    rewrite split_comma_app by assumption. f_equal. apply IH; [discriminate|assumption].
Qed.

Lemma join_comma_nonempty (l : list string) :
  l <> [] -> Forall (fun s => s <> EmptyString) l -> join_comma l <> EmptyString.
Proof.
  destruct l as [|x l]; intros Hne Hall; [congruence|].
  inversion Hall as [|? ? Hx _]; subst.
  destruct l as [|y l]; [exact Hx|].
  change (join_comma (x :: y :: l)) with (x ++ "," ++ join_comma (y :: l)).
  destruct x; [congruence|discriminate].
Qed.

Lemma remove_filter_seen (seen : list string) (x : string) (l : list string) :
  filter (fun y => if in_dec string_dec y seen then false else true)
         (remove string_dec x l)
  = filter (fun y => if in_dec string_dec y (x :: seen) then false else true) l.
Proof.
  induction l as [|y l IH]; [reflexivity|].
  cbn [remove filter]. destruct (string_dec x y) as [->|Hneq].
  - rewrite IH. destruct (in_dec string_dec y (y :: seen)) as [_|Hn];
      [reflexivity | exfalso; apply Hn; now left].
  - cbn [filter]. rewrite IH.
    destruct (in_dec string_dec y seen) as [Hin|Hnot];
      destruct (in_dec string_dec y (x :: seen)) as [Hin'|Hnot']; try reflexivity.
    + exfalso. apply Hnot'. now right.
    + exfalso. destruct Hin' as [E|Hin']; [now apply Hneq | contradiction].
Qed.

Lemma filter_seen_absorbs (seen : list string) (x : string) (l : list string) :
  In x seen ->
  filter (fun y => if in_dec string_dec y (x :: seen) then false else true) l
  = filter (fun y => if in_dec string_dec y seen then false else true) l.
Proof.
  intros Hx. apply filter_ext. intros y.
  destruct (in_dec string_dec y (x :: seen)) as [Hin|Hnot];
    destruct (in_dec string_dec y seen) as [Hin'|Hnot']; try reflexivity.
  - exfalso. destruct Hin as [<-|Hin]; contradiction.
  - exfalso. apply Hnot. now right.
Qed.

(** Reading the values with a set of those seen keeps each at its first
    occurrence. *)
Lemma distinct_from_first_occurrences (l : list string) :
  forall seen,
    distinct_from seen l
    = filter (fun y => if in_dec string_dec y seen then false else true)
             (first_occurrences l).
Proof.
  induction l as [|x l IH]; intros seen; [reflexivity|].
  cbn [distinct_from first_occurrences filter].
  destruct (in_dec string_dec x seen) as [Hin|Hnot].
  - rewrite remove_filter_seen, filter_seen_absorbs by assumption. apply IH.
  - f_equal. rewrite remove_filter_seen. apply IH.
Qed.

Lemma distinct_first_occurrences (l : list string) :
  distinct l = first_occurrences l.
Proof.
  unfold distinct. rewrite distinct_from_first_occurrences.
  rewrite (filter_ext _ (fun _ => true)); [apply filter_true|].
  intros y. now destruct (in_dec string_dec y []).
Qed.

Lemma first_occurrences_In (l : list string) (x : string) :
  In x (first_occurrences l) <-> In x l.
Proof.
  induction l as [|y l IH]; [reflexivity|]. simpl. split.
  - intros [->|Hin]; [now left|]. apply in_remove in Hin. right. apply IH. tauto.
  - intros [->|Hin]; [now left|].
    destruct (string_dec x y) as [->|Hneq]; [now left|].
    right. apply in_in_remove; [assumption | now apply IH].
Qed.

Lemma remove_NoDup (x : string) (l : list string) :
  NoDup l -> NoDup (remove string_dec x l).
Proof.
  induction 1 as [|y l Hy Hl IH]; simpl; [constructor|].
  destruct (string_dec x y); [assumption|].
  constructor; [|assumption]. intros Hin. apply in_remove in Hin. tauto.
Qed.

Lemma first_occurrences_NoDup (l : list string) : NoDup (first_occurrences l).
Proof.
  induction l as [|x l IH]; simpl; constructor.
  - apply remove_In.
  - now apply remove_NoDup.
Qed.

(** X26: the sources of an insight survive the round trip through
    [GROUP_CONCAT] and [split]: when the sources of the category's records
    are not empty and hold no comma, [topSources] lists each distinct
    source of the category once, in the order in which the sources first
    occur among the category's records. *)
Theorem top_sources_round_trip (env : Env) (w : World) :
  DB_fault env SelectInsights = false ->
  exists res,
    getAggregatedInsights env w = Returned res w
    /\ Forall (fun i =>
                 Forall (fun r => plain_source (D1.source r))
                        (records_of (Insight.category i) w) ->
                 Insight.topSources i
                 = first_occurrences
                     (map D1.source (records_of (Insight.category i) w))
                 /\ NoDup (Insight.topSources i)
                 /\ forall s, In s (Insight.topSources i) <->
                      exists r, In r (feedback w)
                                /\ D1.category r = Insight.category i
                                /\ D1.source r = s)
              res.
Proof.
  intros Hok. exists (map to_insight (select_insights env (feedback w))).
  split; [unfold getAggregatedInsights, bind; now rewrite db_read_ok|].
  apply Forall_forall. intros i Hi. apply in_map_iff in Hi.
  destruct Hi as (r & <- & Hr).
  assert (Hcat : In (Sql.category r) (map D1.category (feedback w))).
  { apply (nodup_In string_dec).
    apply (Permutation_in _ (select_insights_categories env (feedback w))).
    now apply in_map. }
  apply select_insights_rows in Hr.
  simpl. intros Hplain. unfold records_of in *.
  set (g := filter (fun r0 => D1.category r0 =? Sql.category r) (feedback w)) in *.
  assert (Htop : split_sources (Sql.sources r) = first_occurrences (map D1.source g)).
  { rewrite Hr. simpl. fold g. unfold group_concat_distinct.
    rewrite distinct_first_occurrences.
    assert (Hne : first_occurrences (map D1.source g) <> []).
    { apply in_map_iff in Hcat. destruct Hcat as (r0 & Hc0 & Hin0).
      assert (Hg : In r0 g) by (apply filter_In; split;
                                 [assumption | now apply String.eqb_eq]).
      intros Hnil. apply (in_map D1.source) in Hg.
      apply first_occurrences_In in Hg. rewrite Hnil in Hg. destruct Hg. }
    assert (Hall : Forall plain_source (first_occurrences (map D1.source g))).
    { apply Forall_forall. intros s Hs. apply first_occurrences_In, in_map_iff in Hs.
      destruct Hs as (r0 & <- & Hin0). rewrite Forall_forall in Hplain.
      now apply Hplain. }
    destruct (first_occurrences (map D1.source g)) as [|d ds] eqn:Hd; [congruence|].
    unfold split_sources.
    assert (Hj : join_comma (d :: ds) <> EmptyString).
    { apply join_comma_nonempty; [discriminate|].
      eapply Forall_impl; [|exact Hall]. intros s [Hs _]. exact Hs. }
    apply String.eqb_neq in Hj. rewrite Hj.
    apply split_join_comma; [discriminate|].
    eapply Forall_impl; [|exact Hall]. intros s [_ Hs]. exact Hs. }
  rewrite Htop. split; [reflexivity|]. split; [apply first_occurrences_NoDup|].
  intros s. rewrite first_occurrences_In, in_map_iff. split.
  - intros (r0 & <- & Hin0). apply filter_In in Hin0. destruct Hin0 as [Hin0 Hc0].
    apply String.eqb_eq in Hc0. now exists r0.
  - intros (r0 & Hin0 & Hc0 & <-). exists r0. split; [reflexivity|].
    apply filter_In. split; [assumption | now apply String.eqb_eq].
Qed.

(** Of the two Bug records of the mixed world only the Negative one is
    counted in the breakdown. *)
Lemma sentiment_breakdown_covers_counted_witness :
  exists res,
    getAggregatedInsights Instances.exact_env Instances.mixed_world
    = Returned res Instances.mixed_world
    /\ map (fun i => (Insight.total i,
                      Insight.positive (Insight.sentimentBreakdown i)
                      + Insight.negative (Insight.sentimentBreakdown i)
                      + Insight.neutral (Insight.sentimentBreakdown i))) res
       = [(2, 1)].
Proof.
  destruct (@sentiment_breakdown_covers_counted Instances.exact_env
              Instances.mixed_world eq_refl) as (res & Hrun & _).
  exists res. split; [exact Hrun|].
  vm_compute in Hrun. injection Hrun as <-. reflexivity.
Defined.

(** Three Bug records from forum, discord and forum again: the sources
    are listed as forum, discord. *)
Lemma top_sources_round_trip_witness :
  exists res,
    getAggregatedInsights Instances.exact_env Instances.sourced_world
    = Returned res Instances.sourced_world
    /\ map Insight.topSources res = [["forum"; "discord"]].
Proof.
  destruct (@top_sources_round_trip Instances.exact_env Instances.sourced_world eq_refl)
    as (res & Hrun & _).
  exists res. split; [exact Hrun|].
  vm_compute in Hrun. injection Hrun as <-. reflexivity.
Defined.

(* ================================================================== *)
(** ** Further properties: the category page *)

Lemma item_before_listed (reads : Reads) (a b : D1.Row) (x y : Q) :
  D1.urgency_score a = Fin x -> D1.urgency_score b = Fin y ->
  if item_before reads a b then listed_before reads a b
  else listed_before reads b a.
Proof.
  intros Ha Hb. unfold item_before, listed_before. rewrite Ha, Hb. simpl.
  destruct (Qle_bool x y) eqn:Hxy.
  - apply Qle_bool_iff in Hxy.
    destruct (Qle_bool y x) eqn:Hyx; simpl.
    + apply Qle_bool_iff in Hyx.
      destruct (created_at reads b <=? created_at reads a)%Z eqn:Hc.
      * apply Z.leb_le in Hc. exists x, y. repeat split. right. split; [lra|lia].
      * apply Z.leb_gt in Hc. exists y, x. repeat split. right. split; [lra|lia].
    + exists y, x. repeat split. left.
      apply Qnot_le_lt. intros H. apply Qle_bool_iff in H. congruence.
  - exists x, y. repeat split. left.
    apply Qnot_le_lt. intros H. apply Qle_bool_iff in H. congruence.
Qed.

Lemma listed_before_trans (reads : Reads) (a b c : D1.Row) :
  listed_before reads a b -> listed_before reads b c -> listed_before reads a c.
Proof.
  intros (x & y & Ha & Hb & H1) (y' & z & Hb' & Hc & H2).
  rewrite Hb in Hb'. injection Hb' as <-.
  exists x, z. repeat split; try assumption.
  destruct H1 as [H1|[H1 C1]], H2 as [H2|[H2 C2]].
  - left. lra.
  - left. lra.
  - left. lra.
  - right. split; [lra|lia].
Qed.

Lemma insert_item_perm (reads : Reads) (x : D1.Row) (l : list D1.Row) :
  Permutation (insert_item reads x l) (x :: l).
Proof.
  induction l as [|y rest IH]; simpl; [reflexivity|].
  destruct (item_before reads x y); [reflexivity|].
  rewrite IH. apply perm_swap.
Qed.

Lemma order_items_perm (reads : Reads) (l : list D1.Row) :
  Permutation (order_items reads l) l.
Proof.
  induction l as [|x rest IH]; [reflexivity|].
  unfold order_items in *. simpl. rewrite insert_item_perm. now constructor.
Qed.

Lemma insert_item_sorted (reads : Reads) (x : D1.Row) (l : list D1.Row) :
  urgency_in_range (D1.urgency_score x) ->
  Forall (fun r => urgency_in_range (D1.urgency_score r)) l ->
  StronglySorted (listed_before reads) l ->
  StronglySorted (listed_before reads) (insert_item reads x l).
Proof.
  intros (qx & Hx & _). induction l as [|y rest IH]; intros Hv Hs; simpl.
  - constructor; constructor.
  - inversion Hv as [|? ? (qy & Hy & _) Hrest]; subst.
    apply StronglySorted_inv in Hs. destruct Hs as [Hsr Hall].
    pose proof (item_before_listed reads x y Hx Hy) as Hd.
    destruct (item_before reads x y).
    + constructor; [constructor; assumption|].
      constructor; [exact Hd|].
      eapply Forall_impl; [|exact Hall]. intros z Hz.
      eapply listed_before_trans; eassumption.
    + constructor; [now apply IH|].
      apply Forall_forall. intros z Hz.
      apply (Permutation_in _ (insert_item_perm reads x rest)) in Hz.
      destruct Hz as [<-|Hz]; [exact Hd|].
      rewrite Forall_forall in Hall. now apply Hall.
Qed.

Lemma order_items_sorted (reads : Reads) (l : list D1.Row) :
  Forall (fun r => urgency_in_range (D1.urgency_score r)) l ->
  StronglySorted (listed_before reads) (order_items reads l).
Proof.
  induction l as [|x rest IH]; intros Hv; unfold order_items in *; simpl.
  - constructor.
  - inversion Hv as [|? ? Hx Hrest]; subst.
    apply insert_item_sorted; [assumption| |now apply IH].
    apply Forall_forall. intros r Hr.
    apply (Permutation_in _ (order_items_perm reads rest)) in Hr.
    rewrite Forall_forall in Hrest. now apply Hrest.
Qed.

(** X27: the category page, with the read accepted and the stored
    urgencies between 1 and 10.  It lists each record of the category
    once, and nothing else, restricted to one status when a status other
    than "all" is asked for (a status the table never holds gives an empty
    page); it lists them by urgency, highest first, and among equal
    urgencies the latest created first; and it changes no store. *)
Theorem category_page_lists_by_urgency (reads : Reads) (cat : string)
    (status : option string) (w : World) :
  read_fault reads
    (SelectByCategory cat (if status_filter_applies status then status else None))
  = false ->
  urgencies_in_range w ->
  exists rows,
    category_items reads cat status w = Returned rows w
    /\ Permutation rows
         (filter (fun r =>
                    (D1.category r =? cat)
                    && match status with
                       | None => true
                       | Some s =>
                           (s =? "") || (s =? "all") || (status_text (D1.status r) =? s)
                       end)
                 (feedback w))
    /\ StronglySorted (listed_before reads) rows.
Proof.
  intros Hok Hw.
  exists (order_items reads (filter (category_where cat status) (feedback w))).
  split; [unfold category_items, db_query; now rewrite Hok|].
  split.
  - rewrite order_items_perm.
    assert (Hext : forall r,
               category_where cat status r
               = (D1.category r =? cat)
                 && match status with
                    | None => true
                    | Some s =>
                        (s =? "") || (s =? "all") || (status_text (D1.status r) =? s)
                    end).
    { intros r. unfold category_where, status_filter_applies.
      destruct status as [s|]; [|reflexivity].
      destruct (s =? ""), (s =? "all"); reflexivity. }
    rewrite (filter_ext _ _ Hext). reflexivity.
  - apply order_items_sorted. apply Forall_forall. intros r Hr.
    apply filter_In in Hr. unfold urgencies_in_range in Hw.
    rewrite Forall_forall in Hw. apply Hw. tauto.
Qed.

(** The new UX records of the triage world: urgencies 9, 8, 8, 8, 7, the
    three 8s latest first. *)
Lemma category_page_lists_by_urgency_witness :
  exists rows,
    category_items Instances.plain_reads "UX" (Some "new") Instances.triage_world
    = Returned rows Instances.triage_world
    /\ map D1.id rows = [7; 10; 9; 6; 8]%Z.
Proof.
  destruct (@category_page_lists_by_urgency Instances.plain_reads "UX" (Some "new")
              Instances.triage_world eq_refl) as (rows & Hrun & _).
  - apply Forall_forall. intros r Hr. simpl in Hr.
    repeat (destruct Hr as [<-|Hr];
            [eexists; split; [reflexivity|split; discriminate]|]).
    destruct Hr.
  - exists rows. split; [exact Hrun|].
    vm_compute in Hrun. injection Hrun as <-. reflexivity.
Defined.

(* ================================================================== *)
(** ** Further properties: indexing completes, escalation repeats *)

Lemma upsert_keeps_ids (x : VectorEntry) (index : list VectorEntry) (t : string) :
  (exists e, In e index /\ ve_id e = t) ->
  exists e, In e (upsert x index) /\ ve_id e = t.
Proof.
  intros (e & Hin & Hid). unfold upsert.
  destruct (ve_id e =? ve_id x) eqn:Hx.
  - apply String.eqb_eq in Hx. exists x. split; [now left | congruence].
  - exists e. split; [|exact Hid]. right. apply filter_In.
    split; [assumption|]. now rewrite Hx.
Qed.

(** One turn of the loop on an item without a record when every service
    answers: the row is appended and its entry upserted. *)
Lemma ingest_loop_create_indexed (rt : Runtime) (env : Env)
    (item : Item.MockFeedbackItem) (rest : list Item.MockFeedbackItem)
    (processed : nat) (w : World) :
  store_ok env ->
  (forall text, AI_embed env text <> None) ->
  (forall e, VECTORIZE_upsert_ok env e = true) ->
  (forall rows, DB_next_rowid env rows <> 0%Z) ->
  ~ has_record w item ->
  exists row entry,
    D1.id row = DB_next_rowid env (feedback w)
    /\ ve_id entry = NumberToString rt (Fin (inject_Z (D1.id row)))
    /\ ingest_loop rt env (item :: rest) processed w
       = ingest_loop rt env rest (S processed)
           {| feedback := (feedback w ++ [row])%list;
              vectors := upsert entry (vectors w) |}.
Proof.
  intros Hok Hembed Hups Hid Hnew.
  assert (Hf : find (has_key (Item.source item) (Item.id item)) (feedback w) = None).
  { destruct (find _ (feedback w)) as [r|] eqn:Hf; [|reflexivity].
    exfalso. apply Hnew. apply has_record_find. now exists r. }
  simpl. unfold bind at 1. rewrite db_read_ok by apply Hok. rewrite Hf.
  unfold bind at 1. rewrite db_write_ok by apply Hok.
  unfold bind at 1.
  destruct (Z.eqb (DB_next_rowid env (feedback w)) 0) eqn:Hz.
  { apply Z.eqb_eq in Hz. now elim (Hid (feedback w)). }
  unfold indexFeedback, generateEmbedding.
  destruct (AI_embed env (Item.text item)) as [embedding|] eqn:He;
    [|now elim (Hembed (Item.text item))].
  rewrite Hups. simpl.
  eexists. eexists. split; [|split; [|reflexivity]]; reflexivity.
Qed.

Lemma ingest_loop_indexes_all (rt : Runtime) (env : Env)
    (items : list Item.MockFeedbackItem) :
  store_ok env ->
  (forall text, AI_embed env text <> None) ->
  (forall e, VECTORIZE_upsert_ok env e = true) ->
  (forall rows, DB_next_rowid env rows <> 0%Z) ->
  forall processed w n w',
    ingest_loop rt env items processed w = Returned n w' ->
    (forall t, (exists e, In e (vectors w) /\ ve_id e = t) ->
               exists e, In e (vectors w') /\ ve_id e = t)
    /\ forall r, In r (feedback w') ->
         In r (feedback w)
         \/ exists e, In e (vectors w')
                      /\ ve_id e = NumberToString rt (Fin (inject_Z (D1.id r))).
Proof.
  intros Hok Hembed Hups Hid.
  induction items as [|item rest IH]; intros processed w n w' Hrun.
  - simpl in Hrun. injection Hrun as _ <-. split; [tauto | now left].
  - destruct (has_record_dec w item) as [Hrec|Hnew].
    + rewrite ingest_loop_skip in Hrun by (try apply Hok; assumption).
      now apply IH in Hrun.
    + destruct (@ingest_loop_create_indexed rt env item rest processed w
                  Hok Hembed Hups Hid Hnew) as (row & entry & _ & Hentry & Hstep).
      rewrite Hstep in Hrun. apply IH in Hrun. simpl in Hrun.
      destruct Hrun as [Hkeep Hrows]. split.
      * intros t Ht. apply Hkeep. now apply upsert_keeps_ids.
      * intros r Hr. destruct (Hrows r Hr) as [Hin|Hex]; [|now right].
        apply in_app_or in Hin. destruct Hin as [Hin|[<-|[]]]; [now left|].
        right. apply Hkeep. exists entry. split; [now left | exact Hentry].
Qed.

(** X28: when the store, the embedding model and the vector store all
    answer (and row ids are not zero), a returned ingestion leaves an index
    entry under the id of every record it wrote: nothing it stored is
    missing from the index. *)
Theorem ingest_indexes_every_record (rt : Runtime) (env : Env)
    (items : list Item.MockFeedbackItem) (w w' : World) (resp : Response) :
  store_ok env ->
  (forall text, AI_embed env text <> None) ->
  (forall e, VECTORIZE_upsert_ok env e = true) ->
  (forall rows, DB_next_rowid env rows <> 0%Z) ->
  ingest_items rt env items w = Returned resp w' ->
  forall r, In r (feedback w') ->
    In r (feedback w)
    \/ exists e, In e (vectors w')
                 /\ ve_id e = NumberToString rt (Fin (inject_Z (D1.id r))).
Proof.
  intros Hok Hembed Hups Hid Hrun.
  unfold ingest_items, bind, ret in Hrun.
  destruct (ingest_loop rt env items 0 w) as [n w1|w1] eqn:Hloop; [|discriminate].
  injection Hrun as _ <-.
  exact (proj2 (ingest_loop_indexes_all rt items Hok Hembed Hups Hid _ _ Hloop)).
Qed.

(** The last mock item, stored as record 29, is indexed under "29". *)
Lemma ingest_indexes_every_record_witness :
  exists e,
    In e (vectors
            (world_after
               (ingest Instances.sample_runtime Instances.indexed_env
                  Instances.empty_world)))
    /\ ve_id e = "29".
Proof.
  set (w' := world_after
               (ingest Instances.sample_runtime Instances.indexed_env
                  Instances.empty_world)).
  assert (Hrun : ingest_items Instances.sample_runtime Instances.indexed_env
                   MOCK_FEEDBACK Instances.empty_world
                 = Returned (json (BProcessed 29) 200) w')
    by (vm_compute; reflexivity).
  destruct (@ingest_indexes_every_record Instances.sample_runtime
              Instances.indexed_env MOCK_FEEDBACK Instances.empty_world w'
              (json (BProcessed 29) 200))
    with (r := last (feedback w') Instances.noted_row) as [[]|(e & He & Hid)].
  - intro s. reflexivity.
  - intros text. discriminate.
  - intros e. reflexivity.
  - intros rows. change (1 + Z.of_nat (List.length rows) <> 0)%Z. lia.
  - exact Hrun.
  - vm_compute. do 28 right. now left.
  - exists e. split; [exact He|]. rewrite Hid. vm_compute. reflexivity.
Defined.

(** X29: with a store that accepts the statements, an escalation sent
    twice leaves the stores as the escalation sent once, and gets the same
    answer. *)
Theorem escalate_is_idempotent (env : Env) (rid : number) (b : EscalateBody)
    (w : World) :
  store_ok env ->
  escalate env rid b (world_after (escalate env rid b w))
  = escalate env rid b w.
Proof.
  intros Hok.
  destruct (find (id_is_number rid) (feedback w)) as [fb|] eqn:Hf.
  - assert (Hex : exists r, In r (feedback w) /\ id_is_number rid r = true).
    { apply find_some in Hf. now exists fb. }
    rewrite (@escalate_found env rid b w Hok Hex). simpl.
    rewrite escalate_found; [|assumption|].
    + simpl. f_equal. f_equal. apply update_where_idempotent. intros r Hr.
      change (id_is_number rid (set_escalated (JStr (team b))
                                  (notes_or_null (escalate_notes b)) r))
        with (id_is_number rid r).
      now rewrite Hr.
    + simpl. destruct Hex as (r & Hin & Hr).
      exists (set_escalated (JStr (team b)) (notes_or_null (escalate_notes b)) r).
      split; [|exact Hr].
      unfold update_where. apply in_map_iff. exists r. now rewrite Hr.
  - assert (Hrun : escalate env rid b w
                   = Returned (json (BError "Feedback not found") 404) w).
    { unfold escalate, bind. rewrite db_read_ok by apply Hok. now rewrite Hf. }
    rewrite Hrun. simpl. exact Hrun.
Qed.

Lemma escalate_is_idempotent_witness :
  escalate Instances.offline_env (Fin 1)
    {| team := "billing"; escalate_notes := Some "refund twice" |}
    (world_after
       (escalate Instances.offline_env (Fin 1)
          {| team := "billing"; escalate_notes := Some "refund twice" |}
          Instances.noted_world))
  = escalate Instances.offline_env (Fin 1)
      {| team := "billing"; escalate_notes := Some "refund twice" |}
      Instances.noted_world.
Proof.
  apply (@escalate_is_idempotent Instances.offline_env (Fin 1)
           {| team := "billing"; escalate_notes := Some "refund twice" |}
           Instances.noted_world).
  intro s. reflexivity.
Defined.
